(** * ProjectKickV2: the CSV cleaner and the SLA performance analyzer

    A shallow embedding of the data-processing core of the server:
    - [DataUtils.convertValue] and [DataUtils.cleanData] (server/utils.js),
    - [analyzeDataStructure], [analyzeSLAPerformance] and
      [generatePerformanceInsights] (the enhanced server file),
    together with the fragment of JavaScript they run on: primitive values,
    truthiness, [typeof], strings, plain objects with their prototype,
    IEEE-754 doubles with round-to-nearest-even, [toFixed] and [parseFloat].

    What the host supplies and the repository does not define (number
    printing, the [Date] parser, the clock, the moment.js parser) is a
    parameter of the development, see [Host]. *)

From Stdlib Require Import ZArith QArith Qround Qabs String Ascii List Bool Lia Lqa.
From Stdlib Require Import DecimalString DecimalN Permutation Sorted.
Import ListNotations.

Open Scope string_scope.
Open Scope Z_scope.

(* ===================================================================== *)
(** * JavaScript numbers: binary64 with round-to-nearest, ties-to-even *)
(* ===================================================================== *)

(** A double is a rational (always kept in lowest terms), an infinity or
    NaN.  Negative zero is identified with zero: none of the modelled code
    can tell them apart (no division by a computed zero, no [Object.is]). *)
Inductive number : Type :=
  | Finite (q : Q)
  | Infinity (negative : bool)
  | NaN.

Module Double.

(** Nearest integer to [n / d] (for [0 < d]), ties to the even one. *)
Definition div_nearest_even (n d : Z) : Z :=
  let q := n / d in
  match Z.compare (2 * (n mod d)) d with
  | Lt => q
  | Gt => q + 1
  | Eq => if Z.even q then q else q + 1
  end.

(** [floor (log2 (n / d))] for positive [n] and [d]. *)
Definition floor_log2 (n d : Z) : Z :=
  let k := Z.log2 n - Z.log2 d in
  if 0 <=? k
  then (if d * 2 ^ k <=? n then k else k - 1)
  else (if d <=? n * 2 ^ (- k) then k else k - 1).

(** The exponent of the unit in the last place of the binade of [n / d]:
    53 significant bits, subnormals below [2 ^ -1022]. *)
Definition ulp_exponent (n d : Z) : Z := Z.max (floor_log2 n d) (-1022) - 52.

(** The significand of the double nearest to [n / d], in units of
    [2 ^ e]. *)
Definition significand (n d e : Z) : Z :=
  if e <? 0 then div_nearest_even (n * 2 ^ (- e)) d
  else div_nearest_even n (d * 2 ^ e).

(** [m * 2 ^ e] as a rational in lowest terms. *)
Definition scale (m e : Z) : Q :=
  if e <? 0 then Qred (m # Z.to_pos (2 ^ (- e))) else inject_Z (m * 2 ^ e).

(** Rounding of a positive rational [n / d]; overflow gives [None]. *)
Definition round_pos (n d : Z) : option Q :=
  let e := ulp_exponent n d in
  let m := significand n d e in
  if (971 <? e) || ((e =? 971) && (2 ^ 53 <=? m)) then None
  else Some (scale m e).

(** The double nearest to an arbitrary rational. *)
Definition round (x : Q) : number :=
  let n := Qnum x in
  let d := Zpos (Qden x) in
  match Z.compare n 0 with
  | Eq => Finite 0
  | Gt => match round_pos n d with
          | Some q => Finite q
          | None => Infinity false
          end
  | Lt => match round_pos (- n) d with
          | Some q => Finite (Qred (- q))
          | None => Infinity true
          end
  end.

Definition of_Z (z : Z) : number := round (inject_Z z).

Definition is_zero (q : Q) : bool := Qnum q =? 0.
Definition is_neg (q : Q) : bool := Qnum q <? 0.

(** [a / b] *)
Definition div (a b : number) : number :=
  match a, b with
  | NaN, _ | _, NaN => NaN
  | Infinity _, Infinity _ => NaN
  | Infinity s, Finite q => Infinity (xorb s (is_neg q))
  | Finite _, Infinity _ => Finite 0
  | Finite p, Finite q =>
      if is_zero q
      then (if is_zero p then NaN else Infinity (is_neg p))
      else round (p / q)
  end.

(** [a * b] *)
Definition mul (a b : number) : number :=
  match a, b with
  | NaN, _ | _, NaN => NaN
  | Infinity s, Infinity t => Infinity (xorb s t)
  | Infinity s, Finite q | Finite q, Infinity s =>
      if is_zero q then NaN else Infinity (xorb s (is_neg q))
  | Finite p, Finite q => round (p * q)
  end.

(** [a - b] *)
Definition sub (a b : number) : number :=
  match a, b with
  | NaN, _ | _, NaN => NaN
  | Infinity s, Infinity t => if Bool.eqb s t then NaN else Infinity s
  | Infinity s, Finite _ => Infinity s
  | Finite _, Infinity t => Infinity (negb t)
  | Finite p, Finite q => round (p - q)
  end.

(** [a < b]: false as soon as one side is NaN. *)
Definition ltb (a b : number) : bool :=
  match a, b with
  | NaN, _ | _, NaN => false
  | Infinity s, Infinity t => s && negb t
  | Infinity s, Finite _ => s
  | Finite _, Infinity t => negb t
  | Finite p, Finite q => match Qcompare p q with Lt => true | _ => false end
  end.

(** [a > b] *)
Definition gtb (a b : number) : bool := ltb b a.

(** [a >= b] *)
Definition geb (a b : number) : bool :=
  match a, b with
  | NaN, _ | _, NaN => false
  | _, _ => negb (ltb a b)
  end.

(** [Math.max(...l)] and [Math.min(...l)]. *)
Definition max2 (a b : number) : number :=
  match a, b with
  | NaN, _ | _, NaN => NaN
  | _, _ => if ltb a b then b else a
  end.

Definition min2 (a b : number) : number :=
  match a, b with
  | NaN, _ | _, NaN => NaN
  | _, _ => if ltb b a then b else a
  end.

Definition max (l : list number) : number := fold_left max2 l (Infinity true).
Definition min (l : list number) : number := fold_left min2 l (Infinity false).

End Double.

(** The numeric literals of the program. *)
Definition num_0 : number := Finite 0.
Definition num_100 : number := Double.of_Z 100.
Definition num_0_8 : number := Double.round (8 # 10).

(* ===================================================================== *)
(** * JavaScript strings *)
(* ===================================================================== *)

(** A string is a sequence of code units; the development covers the code
    units below 256. *)
Module Str.

Definition code (c : ascii) : N := N_of_ascii c.

Definition is_digit (c : ascii) : bool :=
  ((48 <=? code c) && (code c <=? 57))%N.

(** White space and line terminators among the first 256 code units. *)
Definition is_space (c : ascii) : bool :=
  (((9 <=? code c) && (code c <=? 13)) || (code c =? 32) || (code c =? 160))%N.

Definition lower (c : ascii) : ascii :=
  let n := code c in
  if (((65 <=? n) && (n <=? 90))
      || ((192 <=? n) && (n <=? 222) && negb (n =? 215)))%N
  then ascii_of_N (n + 32) else c.

(** [s.toLowerCase()] *)
Fixpoint toLowerCase (s : string) : string :=
  match s with
  | EmptyString => EmptyString
  | String c s' => String (lower c) (toLowerCase s')
  end.

(** [s.includes(sub)] *)
Fixpoint includes (s sub : string) : bool :=
  String.prefix sub s ||
  match s with
  | EmptyString => false
  | String _ s' => includes s' sub
  end.

Fixpoint trimStart (s : string) : string :=
  match s with
  | String c s' => if is_space c then trimStart s' else s
  | EmptyString => EmptyString
  end.

Fixpoint trimEnd (s : string) : string :=
  match s with
  | EmptyString => EmptyString
  | String c s' =>
      match trimEnd s' with
      | EmptyString => if is_space c then EmptyString else String c EmptyString
      | t => String c t
      end
  end.

(** [s.trim()] *)
Definition trim (s : string) : string := trimEnd (trimStart s).

(** [s.substring(0, n)] *)
Definition substring0 (n : nat) (s : string) : string := String.substring 0 n s.

Fixpoint all_digits (s : string) : bool :=
  match s with
  | EmptyString => true
  | String c s' => is_digit c && all_digits s'
  end.

(** [/^\d+$/.test(s)] *)
Definition is_integer_literal (s : string) : bool :=
  match s with
  | EmptyString => false
  | _ => all_digits s
  end.

Fixpoint skip_digits (s : string) : string :=
  match s with
  | String c s' => if is_digit c then skip_digits s' else s
  | EmptyString => EmptyString
  end.

(** [/^\d*\.\d+$/.test(s)] *)
Definition is_decimal_literal (s : string) : bool :=
  match skip_digits s with
  | String "." frac => is_integer_literal frac
  | _ => false
  end.

(** The decimal digits of a natural number. *)
Definition of_N (n : N) : string := NilZero.string_of_uint (N.to_uint n).
Definition of_nat (n : nat) : string := of_N (N.of_nat n).

Definition digit_of (c : ascii) (d : Decimal.uint) : Decimal.uint :=
  match (code c - 48)%N with
  | 0 => Decimal.D0 d | 1 => Decimal.D1 d | 2 => Decimal.D2 d
  | 3 => Decimal.D3 d | 4 => Decimal.D4 d | 5 => Decimal.D5 d
  | 6 => Decimal.D6 d | 7 => Decimal.D7 d | 8 => Decimal.D8 d
  | _ => Decimal.D9 d
  end%N.

(** The longest prefix of decimal digits, and what follows it. *)
Fixpoint scan_digits (s : string) : Decimal.uint * string :=
  match s with
  | String c s' =>
      if is_digit c
      then let (d, rest) := scan_digits s' in (digit_of c d, rest)
      else (Decimal.Nil, s)
  | EmptyString => (Decimal.Nil, EmptyString)
  end.

Definition scan_sign (s : string) : bool * string :=
  match s with
  | String "-" s' => (true, s')
  | String "+" s' => (false, s')
  | _ => (false, s)
  end.

End Str.

(** [10 ^ e] for any integer [e]. *)
Definition pow10 (e : Z) : Q :=
  if e <? 0 then 1 # Z.to_pos (10 ^ (- e)) else inject_Z (10 ^ e).

Definition signed (negative : bool) (x : Q) : Q := if negative then - x else x.

(** [parseInt(s, 10)]: leading white space, a sign, then the longest run of
    decimal digits; NaN without a digit. *)
Definition parseInt10 (s : string) : number :=
  let (neg, s1) := Str.scan_sign (Str.trimStart s) in
  match Str.scan_digits s1 with
  | (Decimal.Nil, _) => NaN
  | (d, _) => Double.round (signed neg (inject_Z (Z.of_uint d)))
  end.

(** The exponent part [e±ddd] of a decimal literal, when there is one. *)
Definition scan_exponent (s : string) : Z :=
  match s with
  | String c s' =>
      if (Ascii.eqb c "e" || Ascii.eqb c "E")%bool then
        let (neg, s2) := Str.scan_sign s' in
        match Str.scan_digits s2 with
        | (Decimal.Nil, _) => 0
        | (d, _) => if neg then - Z.of_uint d else Z.of_uint d
        end
      else 0
  | EmptyString => 0
  end.

(** [parseFloat(s)]: the longest prefix that is a decimal literal
    ([Infinity], [ddd], [ddd.ddd], [.ddd], each with an optional sign and
    exponent), rounded to the nearest double; NaN when there is none. *)
Definition parseFloat (s : string) : number :=
  let (neg, s1) := Str.scan_sign (Str.trimStart s) in
  if String.prefix "Infinity" s1 then Infinity neg
  else
    let (ip, s2) := Str.scan_digits s1 in
    let (fp, s3) :=
      match s2 with
      | String "." s2' => Str.scan_digits s2'
      | _ => (Decimal.Nil, s2)
      end in
    match ip, fp with
    | Decimal.Nil, Decimal.Nil => NaN
    | _, _ =>
        let mantissa := Z.of_uint (Decimal.app ip fp) in
        let e := scan_exponent s3 - Z.of_nat (Decimal.nb_digits fp) in
        Double.round (signed neg (inject_Z mantissa * pow10 e))
    end.

(* ===================================================================== *)
(** * JavaScript values and plain objects *)
(* ===================================================================== *)

(** The values a parsed CSV cell or a JSON field can hold.  An object (or
    function) is kept abstract: what the program observes of it is its
    [typeof] tag and the string [toString()] gives. *)
Inductive jsval : Type :=
  | VUndefined
  | VNull
  | VBool (b : bool)
  | VNum (n : number)
  | VStr (s : string)
  | VObject (callable : bool) (rendering : string).

(** ToBoolean *)
Definition truthy (v : jsval) : bool :=
  match v with
  | VUndefined | VNull => false
  | VBool b => b
  | VNum (Finite q) => negb (Double.is_zero q)
  | VNum (Infinity _) => true
  | VNum NaN => false
  | VStr s => negb (String.eqb s "")
  | VObject _ _ => true
  end.

(** [a || b] *)
Definition or_else (a b : jsval) : jsval := if truthy a then a else b.

Definition typeof (v : jsval) : string :=
  match v with
  | VUndefined => "undefined"
  | VNull => "object"
  | VBool _ => "boolean"
  | VNum _ => "number"
  | VStr _ => "string"
  | VObject callable _ => if callable then "function" else "object"
  end.

(** A plain object: its own properties, in the order [Object.keys] lists
    them. *)
Definition object (A : Type) : Type := list (string * A).

Module Obj.
Section WithValues.
Context {A : Type}.

(** The own property [k]. *)
Fixpoint own (k : string) (o : object A) : option A :=
  match o with
  | [] => None
  | (k', v) :: o' => if String.eqb k k' then Some v else own k o'
  end.

(** A canonical array index: ["0"], or digits without a leading zero,
    below [2 ^ 32 - 1].  Such keys are listed first, in numeric
    order; the others follow in insertion order. *)
Definition array_index (k : string) : option N :=
  if Str.is_integer_literal k
     && negb (String.prefix "0" k && negb (String.eqb k "0"))
  then
    let n := Z.to_N (Z.of_uint (fst (Str.scan_digits k))) in
    if (n <? 2 ^ 32 - 1)%N then Some n else None
  else None.

(** Adds the new index key [k], whose index is [i]. *)
Fixpoint add_index (i : N) (k : string) (v : A) (o : object A) : object A :=
  match o with
  | [] => [(k, v)]
  | (k', v') :: o' =>
      match array_index k' with
      | Some j => if (j <? i)%N then (k', v') :: add_index i k v o'
                  else (k, v) :: o
      | None => (k, v) :: o
      end
  end.

Fixpoint replace (k : string) (v : A) (o : object A) : object A :=
  match o with
  | [] => []
  | (k', v') :: o' =>
      if String.eqb k k' then (k, v) :: o' else (k', v') :: replace k v o'
  end.

(** [o[k] = v].  An assignment to [__proto__] goes to the prototype
    accessor and creates no own property. *)
Definition set (k : string) (v : A) (o : object A) : object A :=
  match own k o with
  | Some _ => replace k v o
  | None =>
      if String.eqb k "__proto__" then o
      else
        match array_index k with
        | Some i => add_index i k v o
        | None => (o ++ [(k, v)])%list
        end
  end.

(** [Object.keys(o)] *)
Definition keys (o : object A) : list string := map fst o.

(** [o[k].field = ...], when [o[k]] is an own property. *)
Definition update (k : string) (f : A -> A) (o : object A) : object A :=
  match own k o with
  | Some v => replace k (f v) o
  | None => o
  end.
End WithValues.

(** The properties every plain object inherits from [Object.prototype]:
    each of them reads as a function (as the prototype object itself for
    [__proto__]). *)
Definition prototype_keys : list string :=
  [ "constructor"; "__defineGetter__"; "__defineSetter__"; "hasOwnProperty";
    "__lookupGetter__"; "__lookupSetter__"; "isPrototypeOf";
    "propertyIsEnumerable"; "toString"; "valueOf"; "__proto__";
    "toLocaleString" ].

Definition inherited (k : string) : bool :=
  existsb (String.eqb k) prototype_keys.

(** [o[k]] on an object of cell values. *)
Definition get (o : object jsval) (k : string) : jsval :=
  match own k o with
  | Some v => v
  | None =>
      if inherited k then
        if String.eqb k "__proto__" then VObject false "[object Object]"
        else if String.eqb k "constructor"
        then VObject true "function Object() { [native code] }"
        else VObject true ("function " ++ k ++ "() { [native code] }")
      else VUndefined
  end.

(** [!o[k]] on an object whose own properties all hold objects. *)
Definition missing {A : Type} (o : object A) (k : string) : bool :=
  match own k o with
  | Some _ => false
  | None => negb (inherited k)
  end.
End Obj.

(* ===================================================================== *)
(** * What the host supplies *)
(* ===================================================================== *)

Record Host : Type := {
  (** [String(n)] for a number [n] *)
  Number_toString : number -> string;
  (** [new Date(s).getDay()]: 0 (Sunday) to 6, NaN for an invalid date *)
  Date_getDay : string -> number;
  (** [new Date().toISOString()], read while the ticket of the given index
      is processed *)
  Date_now_toISOString : nat -> string;
  (** [moment(s, ['YYYY-MM-DD', 'MM/DD/YYYY', 'DD/MM/YYYY',
      'YYYY-MM-DD HH:mm:ss'], true)]: [Some] of its [toISOString()] when
      the strict parse is valid *)
  moment_strict : string -> option string
}.

(** How a call ends.  The modelled code only ever raises a [TypeError];
    [Thrown] records the expression whose evaluation raised it. *)
Inductive completion (A : Type) : Type :=
  | Returned (a : A)
  | Thrown (failing : string).
Arguments Returned {A} a.
Arguments Thrown {A} failing.

Definition bind {A B : Type} (c : completion A) (k : A -> completion B)
  : completion B :=
  match c with
  | Returned a => k a
  | Thrown e => Thrown e
  end.

Notation "x <- c ;; k" := (bind c (fun x => k))
  (at level 61, c at next level, right associativity).

(* ===================================================================== *)
(** * server/utils.js: [DataUtils] *)
(* ===================================================================== *)

(** What a caller can pass for [data]: an array of records, or anything
    else. *)
Inductive argument : Type :=
  | NotAnArray (v : jsval)   (* a primitive, or an object that is no array
                                and has no [length], [slice], [map] or
                                [forEach] *)
  | Array (rows : list (object jsval)).

Definition rows_of (data : argument) : list (object jsval) :=
  match data with
  | NotAnArray _ => []
  | Array rows => rows
  end.

Module DataUtils.

(** The object [cleanData] returns; a count is [None] when the returned
    object has no such property. *)
Record result : Type := {
  data : list (object jsval);
  errors : list string;
  warnings : list string;
  originalCount : option nat;
  cleanedCount : option nat
}.

Section WithHost.
Variable host : Host.

(** [static convertValue(value)] *)
Definition convertValue (value : jsval) : jsval :=
  match value with
  | VStr s =>
      let trimmed := Str.trim s in
      if Str.is_integer_literal trimmed then VNum (parseInt10 trimmed)
      else if Str.is_decimal_literal trimmed then VNum (parseFloat trimmed)
      else
        match moment_strict host trimmed with
        | Some iso => VStr iso
        | None =>
            let lowerValue := Str.toLowerCase trimmed in
            if existsb (String.eqb lowerValue) ["true"; "yes"; "1"; "y"]
            then VBool true
            else if existsb (String.eqb lowerValue) ["false"; "no"; "0"; "n"]
            then VBool false
            else VStr trimmed
        end
  | _ => value
  end.

(** [value === null || value === undefined || value === ''] *)
Definition is_blank (value : jsval) : bool :=
  match value with
  | VNull | VUndefined => true
  | VStr s => String.eqb s ""
  | _ => false
  end.

(** What the loop over the columns stores for one cell. *)
Definition normalize (value : jsval) : jsval :=
  if is_blank value then VNull else convertValue value.

(** The body of [columns.forEach]: the state is [cleanedRow] and
    [hasValidData]. *)
Definition cleanCell (row : object jsval)
    (st : object jsval * bool) (col : string) : object jsval * bool :=
  let (cleanedRow, hasValidData) := st in
  let value := Obj.get row col in
  if is_blank value
  then (Obj.set col VNull cleanedRow, hasValidData)
  else (Obj.set col (convertValue value) cleanedRow, true).

Definition cleanRow (columns : list string) (row : object jsval)
  : object jsval * bool :=
  fold_left (cleanCell row) columns ([], false).

(** [data.forEach((row, index) => ...)]: the rows kept, and the
    warnings for the rows dropped. *)
Fixpoint cleanRows (columns : list string) (rows : list (object jsval))
    (index : nat) : list (object jsval) * list string :=
  match rows with
  | [] => ([], [])
  | row :: rest =>
      let (cleanedRow, hasValidData) := cleanRow columns row in
      let (cleanedData, warnings) := cleanRows columns rest (S index) in
      if hasValidData then (cleanedRow :: cleanedData, warnings)
      else (cleanedData,
            ("Row " ++ Str.of_nat (index + 1) ++ " contains no valid data")
              :: warnings)
  end.

(** [static cleanData(data)] *)
Definition cleanData (data : argument) : result :=
  match data with
  | NotAnArray _ | Array [] =>
      {| data := []; errors := ["No data provided"]; warnings := [];
         originalCount := None; cleanedCount := None |}
  | Array ((first :: _) as rows) =>
      let columns := Obj.keys first in
      match columns with
      | [] =>
          {| data := []; errors := ["No columns detected in data"];
             warnings := []; originalCount := None; cleanedCount := None |}
      | _ =>
          let (cleanedData, warnings) := cleanRows columns rows 0 in
          let few :=
            Double.ltb (Double.of_Z (Z.of_nat (length cleanedData)))
              (Double.mul (Double.of_Z (Z.of_nat (length rows))) num_0_8) in
          {| data := cleanedData;
             errors := [];
             warnings :=
               if few
               then (warnings ++
                     ["More than 20% of rows were filtered out due to data quality issues"])%list
               else warnings;
             originalCount := Some (length rows);
             cleanedCount := Some (length cleanedData) |}
      end
  end.

(** The columns the cleaner declares: the keys of the first row. *)
Definition declared_columns (data : argument) : list string :=
  match rows_of data with
  | [] => []
  | first :: _ => Obj.keys first
  end.

(** A row in which every declared column normalizes to null. *)
Definition all_null (columns : list string) (row : object jsval) : bool :=
  forallb (fun col =>
             match normalize (Obj.get row col) with
             | VNull => true
             | _ => false
             end) columns.

Definition all_null_rows (data : argument) : nat :=
  length (filter (all_null (declared_columns data)) (rows_of data)).

End WithHost.
End DataUtils.

(* ===================================================================== *)
(** * The server: structure inspection and SLA analysis *)
(* ===================================================================== *)

(** [[...new Set(l)]]: the distinct elements, in order of first
    occurrence. *)
Fixpoint distinct (l : list string) : list string :=
  match l with
  | [] => []
  | x :: l' => x :: filter (fun y => negb (String.eqb x y)) (distinct l')
  end.

(** [Array.prototype.sort(compare)]: the sort is stable, [a] goes after [b]
    exactly when [compare(a, b) > 0]. *)
Section Sort.
Context {A : Type} (compare : A -> A -> number).

Fixpoint sort_insert (x : A) (l : list A) : list A :=
  match l with
  | [] => [x]
  | y :: l' =>
      if Double.gtb (compare x y) num_0 then y :: sort_insert x l'
      else x :: l
  end.

Definition sort (l : list A) : list A := fold_right sort_insert [] l.
End Sort.

Module Server.

(** ** [analyzeDataStructure]

    Of the descriptor, the embedding keeps the row count, the columns,
    [columnTypes] and the special columns with their flags; the per-column
    pattern and quality statistics, the sample, the quality score and the
    recommendations are left out. *)
Record descriptor : Type := {
  totalRows : nat;
  columns : list string;
  columnTypes : object string;
  dateColumns : list string;
  statusColumns : list string;
  userColumns : list string;
  idColumns : list string;
  hasDateColumns : bool;
  hasStatusColumns : bool;
  hasUserColumns : bool
}.

(** [val !== null && val !== undefined && val !== ''] *)
Definition is_sample (val : jsval) : bool := negb (DataUtils.is_blank val).

(** The values of column [col] in the first 100 rows that pass the
    filter. *)
Definition sampleValues (data : list (object jsval)) (col : string)
  : list jsval :=
  filter is_sample (map (fun row => Obj.get row col) (firstn 100 data)).

(** [columnTypes[col]] *)
Definition columnType (data : list (object jsval)) (col : string) : string :=
  let types := distinct (map typeof (sampleValues data col)) in
  match types with
  | [t] => t
  | _ => "mixed"
  end.

(** [col.toLowerCase().includes(k)] for one of the keywords [ks]. *)
Definition mentions (ks : list string) (col : string) : bool :=
  existsb (Str.includes (Str.toLowerCase col)) ks.

Definition analyzeDataStructure (data : argument)
  : completion (option descriptor) :=
  match data with
  | NotAnArray v =>
      if truthy v then
        match v with
        | VStr _ => Thrown "data.slice(0, 100).map"
        | _ => Thrown "data.slice"
        end
      else Returned None
  | Array [] => Returned None
  | Array ((first :: _) as rows) =>
      let columns := Obj.keys first in
      let dateColumns :=
        filter (mentions ["date"; "time"; "created"; "updated"; "resolved"])
          columns in
      let statusColumns :=
        filter (mentions ["status"; "state"; "priority"; "sla"]) columns in
      let userColumns :=
        filter (mentions ["user"; "agent"; "assignee"; "name"; "resolved by"])
          columns in
      let idColumns := filter (mentions ["id"; "number"; "#"]) columns in
      Returned (Some
        {| totalRows := length rows;
           columns := columns;
           columnTypes :=
             fold_left (fun o col => Obj.set col (columnType rows col) o)
               columns [];
           dateColumns := dateColumns;
           statusColumns := statusColumns;
           userColumns := userColumns;
           idColumns := idColumns;
           hasDateColumns := negb (Nat.eqb (length dateColumns) 0);
           hasStatusColumns := negb (Nat.eqb (length statusColumns) 0);
           hasUserColumns := negb (Nat.eqb (length userColumns) 0) |})
  end.

(** ** The SLA analysis *)

(** [firstResponseSLA] and [resolutionSLA] *)
Record bucket : Type := {
  violations : Z;
  compliance : Z;
  total : Z;
  compliancePercentage : string;
  violationPercentage : string
}.

(** An entry of [analysis.agents].  The per-agent category and priority
    tallies, [topCategory] and the constant [averageResponseTime] are
    left out: nothing else in the analysis reads them. *)
Record agent_stats : Type := {
  agent_total : Z;
  agent_responseViolations : Z;
  agent_resolutionViolations : Z;
  totalViolations : Z;
  agent_complianceRate : jsval
}.

(** An entry of [analysis.categories] or [analysis.priorityAnalysis]. *)
Record group_stats : Type := {
  group_total : Z;
  group_responseViolations : Z;
  group_resolutionViolations : Z;
  group_complianceRate : jsval
}.

(** An entry of [timePatterns], [performanceTrends.daily] or
    [performanceTrends.monthly]. *)
Record period_stats : Type := {
  period_total : Z;
  period_violations : Z
}.

(** The entries of the insight lists. *)
Record agent_performance : Type := {
  agent : string;
  complianceRate : number;
  totalTickets_of : Z;
  violations_of : Z
}.

Record category_performance : Type := {
  category : string;
  category_total_of : Z;
  category_rate : number;
  category_violations : Z
}.

Record daily_pattern : Type := {
  day : option string;
  day_total : Z;
  day_violations : Z;
  violationRate : jsval
}.

Record recommendation : Type := {
  area : string;
  advice : string;
  impact : string;
  effort : string
}.

Record insights_t : Type := {
  topPerformers : list agent_performance;
  improvementAreas : list agent_performance;
  categoryInsights : list category_performance;
  timePatternInsights : list daily_pattern;
  recommendations : list recommendation
}.

(** The analysis object ([performanceTrends.weekly] stays empty and is
    left out). *)
Record analysis : Type := {
  totalTickets : Z;
  firstResponseSLA : bucket;
  resolutionSLA : bucket;
  agents : object agent_stats;
  categories : object group_stats;
  timePatterns : object period_stats;
  priorityAnalysis : object group_stats;
  daily : object period_stats;
  monthly : object period_stats;
  insights : option insights_t
}.

Definition empty_bucket : bucket :=
  {| violations := 0; compliance := 0; total := 0;
     compliancePercentage := "0"; violationPercentage := "0" |}.

Definition new_agent : agent_stats :=
  {| agent_total := 0; agent_responseViolations := 0;
     agent_resolutionViolations := 0; totalViolations := 0;
     agent_complianceRate := VNum num_100 |}.

Definition new_category : group_stats :=
  {| group_total := 0; group_responseViolations := 0;
     group_resolutionViolations := 0; group_complianceRate := VUndefined |}.

Definition new_priority : group_stats :=
  {| group_total := 0; group_responseViolations := 0;
     group_resolutionViolations := 0; group_complianceRate := VNum num_100 |}.

Definition new_period : period_stats :=
  {| period_total := 0; period_violations := 0 |}.

Definition initial (n : nat) : analysis :=
  {| totalTickets := Z.of_nat n;
     firstResponseSLA := empty_bucket;
     resolutionSLA := empty_bucket;
     agents := []; categories := []; timePatterns := [];
     priorityAnalysis := []; daily := []; monthly := [];
     insights := None |}.

(** The increments [x.field++]. *)
Definition bucket_total_incr (b : bucket) : bucket :=
  {| violations := violations b; compliance := compliance b;
     total := total b + 1;
     compliancePercentage := compliancePercentage b;
     violationPercentage := violationPercentage b |}.

Definition bucket_violations_incr (b : bucket) : bucket :=
  {| violations := violations b + 1; compliance := compliance b;
     total := total b;
     compliancePercentage := compliancePercentage b;
     violationPercentage := violationPercentage b |}.

Definition bucket_compliance_incr (b : bucket) : bucket :=
  {| violations := violations b; compliance := compliance b + 1;
     total := total b;
     compliancePercentage := compliancePercentage b;
     violationPercentage := violationPercentage b |}.

Definition agent_total_incr (a : agent_stats) : agent_stats :=
  {| agent_total := agent_total a + 1;
     agent_responseViolations := agent_responseViolations a;
     agent_resolutionViolations := agent_resolutionViolations a;
     totalViolations := totalViolations a;
     agent_complianceRate := agent_complianceRate a |}.

Definition agent_response_incr (a : agent_stats) : agent_stats :=
  {| agent_total := agent_total a;
     agent_responseViolations := agent_responseViolations a + 1;
     agent_resolutionViolations := agent_resolutionViolations a;
     totalViolations := totalViolations a;
     agent_complianceRate := agent_complianceRate a |}.

Definition agent_resolution_incr (a : agent_stats) : agent_stats :=
  {| agent_total := agent_total a;
     agent_responseViolations := agent_responseViolations a;
     agent_resolutionViolations := agent_resolutionViolations a + 1;
     totalViolations := totalViolations a;
     agent_complianceRate := agent_complianceRate a |}.

Definition group_total_incr (g : group_stats) : group_stats :=
  {| group_total := group_total g + 1;
     group_responseViolations := group_responseViolations g;
     group_resolutionViolations := group_resolutionViolations g;
     group_complianceRate := group_complianceRate g |}.

Definition group_response_incr (g : group_stats) : group_stats :=
  {| group_total := group_total g;
     group_responseViolations := group_responseViolations g + 1;
     group_resolutionViolations := group_resolutionViolations g;
     group_complianceRate := group_complianceRate g |}.

Definition group_resolution_incr (g : group_stats) : group_stats :=
  {| group_total := group_total g;
     group_responseViolations := group_responseViolations g;
     group_resolutionViolations := group_resolutionViolations g + 1;
     group_complianceRate := group_complianceRate g |}.

Definition period_total_incr (p : period_stats) : period_stats :=
  {| period_total := period_total p + 1;
     period_violations := period_violations p |}.

Definition period_violations_incr (p : period_stats) : period_stats :=
  {| period_total := period_total p;
     period_violations := period_violations p + 1 |}.

(** [if (!o[k]) o[k] = fresh] *)
Definition ensure {A : Type} (k : string) (fresh : A) (o : object A)
  : object A :=
  if Obj.missing o k then Obj.set k fresh o else o.

(** [statusLower.includes(k)] for one of the keywords. *)
Definition violation_keywords : list string :=
  ["violated"; "breach"; "missed"; "overdue"; "fail"].
Definition compliance_keywords : list string :=
  ["within"; "met"; "compliant"; "achieved"; "success"].

Definition is_violation (statusLower : string) : bool :=
  existsb (Str.includes statusLower) violation_keywords.
Definition is_compliant (statusLower : string) : bool :=
  existsb (Str.includes statusLower) compliance_keywords.

Definition firstResponseColumns : list string :=
  [ "First Response Status"; "First Response SLA"; "Response Status";
    "first_response_status"; "Response SLA Status";
    "First Response Time Status" ].

Definition resolutionColumns : list string :=
  [ "Resolution Status"; "Resolution SLA"; "Resolve Status";
    "resolution_status"; "Resolution SLA Status"; "Resolution Time Status" ].

(** The loop [for (const col of cols) if (ticket[col]) { status =
    ticket[col]; break; }], from [status = null]. *)
Fixpoint find_status (ticket : object jsval) (cols : list string) : jsval :=
  match cols with
  | [] => VNull
  | col :: cols' =>
      if truthy (Obj.get ticket col) then Obj.get ticket col
      else find_status ticket cols'
  end.

(** How a status text counts. *)
Inductive verdict : Type := Violation | Compliant | Neither.

Definition set_firstResponseSLA (b : bucket) (an : analysis) : analysis :=
  {| totalTickets := totalTickets an; firstResponseSLA := b;
     resolutionSLA := resolutionSLA an; agents := agents an;
     categories := categories an; timePatterns := timePatterns an;
     priorityAnalysis := priorityAnalysis an; daily := daily an;
     monthly := monthly an; insights := insights an |}.

Definition set_resolutionSLA (b : bucket) (an : analysis) : analysis :=
  {| totalTickets := totalTickets an; firstResponseSLA := firstResponseSLA an;
     resolutionSLA := b; agents := agents an;
     categories := categories an; timePatterns := timePatterns an;
     priorityAnalysis := priorityAnalysis an; daily := daily an;
     monthly := monthly an; insights := insights an |}.

(** The six aggregation maps, updated together. *)
Definition map_groups
    (fa : object agent_stats -> object agent_stats)
    (fc : object group_stats -> object group_stats)
    (fp : object group_stats -> object group_stats)
    (ft fd fm : object period_stats -> object period_stats)
    (an : analysis) : analysis :=
  {| totalTickets := totalTickets an; firstResponseSLA := firstResponseSLA an;
     resolutionSLA := resolutionSLA an; agents := fa (agents an);
     categories := fc (categories an); timePatterns := ft (timePatterns an);
     priorityAnalysis := fp (priorityAnalysis an); daily := fd (daily an);
     monthly := fm (monthly an); insights := insights an |}.

Definition set_insights (i : insights_t) (an : analysis) : analysis :=
  {| totalTickets := totalTickets an; firstResponseSLA := firstResponseSLA an;
     resolutionSLA := resolutionSLA an; agents := agents an;
     categories := categories an; timePatterns := timePatterns an;
     priorityAnalysis := priorityAnalysis an; daily := daily an;
     monthly := monthly an; insights := Some i |}.

(** The decimal writing of [n / 10] with one decimal, for [0 <= n]. *)
Definition tenths (n : Z) : string :=
  Str.of_N (Z.to_N (n / 10)) ++ "." ++ Str.of_N (Z.to_N (n mod 10)).

Definition dayNames : list string :=
  ["Sunday"; "Monday"; "Tuesday"; "Wednesday"; "Thursday"; "Friday";
   "Saturday"].

Section WithHost.
Variable host : Host.

(** [String(v)], also what [v.toString()] gives for a truthy [v]. *)
Definition toString (v : jsval) : string :=
  match v with
  | VUndefined => "undefined"
  | VNull => "null"
  | VBool b => if b then "true" else "false"
  | VNum n => Number_toString host n
  | VStr s => s
  | VObject _ rendering => rendering
  end.

(** [x.toFixed(1)]: the nearest tenth of the exact value of [x], the
    larger one on a tie, printed with one decimal. *)
Definition toFixed1 (x : number) : string :=
  match x with
  | NaN => "NaN"
  | Infinity negative => if negative then "-Infinity" else "Infinity"
  | Finite q =>
      if Qle_bool (inject_Z (10 ^ 21)) (Qabs q) then Number_toString host x
      else
        let n := Qfloor (Qabs q * inject_Z 10 + (1 # 2)) in
        (if Double.is_neg q then "-" else "") ++ tenths n
  end.

(** [((part / whole) * 100).toFixed(1)] *)
Definition percentage (part whole : Z) : string :=
  toFixed1
    (Double.mul (Double.div (Double.of_Z part) (Double.of_Z whole)) num_100).

(** [parseFloat(v)]; a number reads back from its own printing. *)
Definition parseFloat_of (v : jsval) : number :=
  match v with
  | VNum n => n
  | _ => parseFloat (toString v)
  end.

Definition classify (status : jsval) : verdict :=
  let statusLower := Str.toLowerCase (toString status) in
  if is_violation statusLower then Violation
  else if is_compliant statusLower then Compliant
  else Neither.

(** The three [violations++] on the time buckets. *)
Definition time_violation (dateKey dayOfWeek monthKey : string)
  : analysis -> analysis :=
  map_groups (fun a => a) (fun c => c) (fun p => p)
    (Obj.update dateKey period_violations_incr)
    (Obj.update dayOfWeek period_violations_incr)
    (Obj.update monthKey period_violations_incr).

(** The first-response block of the loop body. *)
Definition firstResponse (ticket : object jsval)
    (agent category priority dateKey dayOfWeek monthKey : string)
    (an : analysis) : analysis :=
  let firstResponseStatus := find_status ticket firstResponseColumns in
  if truthy firstResponseStatus then
    let an := set_firstResponseSLA
                (bucket_total_incr (firstResponseSLA an)) an in
    match classify firstResponseStatus with
    | Violation =>
        let an := set_firstResponseSLA
                    (bucket_violations_incr (firstResponseSLA an)) an in
        let an := map_groups
                    (Obj.update agent agent_response_incr)
                    (Obj.update category group_response_incr)
                    (Obj.update priority group_response_incr)
                    (fun t => t) (fun d => d) (fun m => m) an in
        time_violation dateKey dayOfWeek monthKey an
    | Compliant =>
        set_firstResponseSLA
          (bucket_compliance_incr (firstResponseSLA an)) an
    | Neither => an
    end
  else an.

(** The resolution block of the loop body. *)
Definition resolution (ticket : object jsval)
    (agent category priority dateKey dayOfWeek monthKey : string)
    (an : analysis) : analysis :=
  let resolutionStatus := find_status ticket resolutionColumns in
  if truthy resolutionStatus then
    let an := set_resolutionSLA
                (bucket_total_incr (resolutionSLA an)) an in
    match classify resolutionStatus with
    | Violation =>
        let an := set_resolutionSLA
                    (bucket_violations_incr (resolutionSLA an)) an in
        let an := map_groups
                    (Obj.update agent agent_resolution_incr)
                    (Obj.update category group_resolution_incr)
                    (Obj.update priority group_resolution_incr)
                    (fun t => t) (fun d => d) (fun m => m) an in
        time_violation dateKey dayOfWeek monthKey an
    | Compliant =>
        set_resolutionSLA
          (bucket_compliance_incr (resolutionSLA an)) an
    | Neither => an
    end
  else an.

(** [ticket['Agent'] || ticket['Resolved by'] || ticket['Assignee'] ||
    'Unknown'], as the property key it is used for. *)
Definition agent_of (ticket : object jsval) : string :=
  toString (or_else (or_else (or_else (Obj.get ticket "Agent")
    (Obj.get ticket "Resolved by")) (Obj.get ticket "Assignee"))
    (VStr "Unknown")).

Definition category_of (ticket : object jsval) : string :=
  toString (or_else (or_else (or_else (Obj.get ticket "Category")
    (Obj.get ticket "Sub-Category")) (Obj.get ticket "Type"))
    (VStr "Unknown")).

Definition priority_of (ticket : object jsval) : string :=
  toString (or_else (or_else (Obj.get ticket "Priority")
    (Obj.get ticket "Urgency")) (VStr "Medium")).

(** [ticket['Created Date'] || ticket['Date Created'] ||
    ticket['Created'] || new Date().toISOString()] *)
Definition createdDate_of (index : nat) (ticket : object jsval) : jsval :=
  or_else (or_else (or_else (Obj.get ticket "Created Date")
    (Obj.get ticket "Date Created")) (Obj.get ticket "Created"))
    (VStr (Date_now_toISOString host index)).

(** The body of [data.forEach((ticket, index) => ...)]. *)
Definition processTicket (an : analysis) (index : nat)
    (ticket : object jsval) : completion analysis :=
  let agent := agent_of ticket in
  let category := category_of ticket in
  let priority := priority_of ticket in
  match createdDate_of index ticket with
  | VStr createdDate =>
      let dateKey := Str.substring0 10 createdDate in
      let dayOfWeek := Number_toString host (Date_getDay host createdDate) in
      let monthKey := Str.substring0 7 createdDate in
      (* Initialize tracking objects and time patterns *)
      let an := map_groups
                  (ensure agent new_agent)
                  (ensure category new_category)
                  (ensure priority new_priority)
                  (ensure dateKey new_period)
                  (ensure dayOfWeek new_period)
                  (ensure monthKey new_period) an in
      (* Update counts *)
      let an := map_groups
                  (Obj.update agent agent_total_incr)
                  (Obj.update category group_total_incr)
                  (Obj.update priority group_total_incr)
                  (Obj.update dateKey period_total_incr)
                  (Obj.update dayOfWeek period_total_incr)
                  (Obj.update monthKey period_total_incr) an in
      (* analysis.agents[agent].categories[category]: an inherited
         analysis.agents[agent] has no [categories] *)
      match Obj.own agent (agents an) with
      | None =>
          Thrown "analysis.agents[agent].categories[category]"
      | Some _ =>
          let an := firstResponse ticket agent category priority
                      dateKey dayOfWeek monthKey an in
          let an := resolution ticket agent category priority
                      dateKey dayOfWeek monthKey an in
          Returned an
      end
  | _ => Thrown "createdDate.substring"
  end.

Fixpoint forEach (tickets : list (object jsval)) (index : nat)
    (an : analysis) : completion analysis :=
  match tickets with
  | [] => Returned an
  | ticket :: rest =>
      an' <- processTicket an index ticket ;;
      forEach rest (S index) an'
  end.

(** "Calculate percentages and additional metrics" *)
Definition finish_bucket (b : bucket) : bucket :=
  if 0 <? total b then
    {| violations := violations b; compliance := compliance b;
       total := total b;
       compliancePercentage := percentage (total b - violations b) (total b);
       violationPercentage := percentage (violations b) (total b) |}
  else b.

(** [total > 0 ? (((total - v) / total) * 100).toFixed(1) : 100] *)
Definition rate (total v : Z) : jsval :=
  if 0 <? total then VStr (percentage (total - v) total) else VNum num_100.

Definition finish_agent (a : agent_stats) : agent_stats :=
  let totalViolations :=
    agent_responseViolations a + agent_resolutionViolations a in
  {| agent_total := agent_total a;
     agent_responseViolations := agent_responseViolations a;
     agent_resolutionViolations := agent_resolutionViolations a;
     totalViolations := totalViolations;
     agent_complianceRate := rate (agent_total a) totalViolations |}.

Definition finish_group (g : group_stats) : group_stats :=
  let totalViolations :=
    group_responseViolations g + group_resolutionViolations g in
  {| group_total := group_total g;
     group_responseViolations := group_responseViolations g;
     group_resolutionViolations := group_resolutionViolations g;
     group_complianceRate := rate (group_total g) totalViolations |}.

Definition finish_all {A : Type} (f : A -> A) (o : object A) : object A :=
  map (fun entry => (fst entry, f (snd entry))) o.

Definition agent_entry (entry : string * agent_stats) : agent_performance :=
  {| agent := fst entry;
     complianceRate := parseFloat_of (agent_complianceRate (snd entry));
     totalTickets_of := agent_total (snd entry);
     violations_of := totalViolations (snd entry) |}.

Definition category_entry (entry : string * group_stats)
  : category_performance :=
  {| category := fst entry;
     category_total_of := group_total (snd entry);
     category_rate := parseFloat_of (group_complianceRate (snd entry));
     category_violations :=
       group_responseViolations (snd entry)
       + group_resolutionViolations (snd entry) |}.

Definition daily_entry (entry : string * period_stats) : daily_pattern :=
  {| day := match Obj.array_index (fst entry) with
            | Some i => nth_error dayNames (N.to_nat i)
            | None => None
            end;
     day_total := period_total (snd entry);
     day_violations := period_violations (snd entry);
     violationRate :=
       if 0 <? period_total (snd entry)
       then VStr (percentage (period_violations (snd entry))
                    (period_total (snd entry)))
       else VNum num_0 |}.

(** [Object.entries(analysis.agents).map(...).sort((a, b) =>
    b.complianceRate - a.complianceRate)] *)
Definition agentPerformance (an : analysis) : list agent_performance :=
  sort (fun a b => Double.sub (complianceRate b) (complianceRate a))
    (map agent_entry (agents an)).

Definition recommend (area advice impact effort : string) : recommendation :=
  {| area := area; advice := advice; impact := impact; effort := effort |}.

Definition generatePerformanceInsights (an : analysis) : insights_t :=
  let ranked := agentPerformance an in
  let rates := map complianceRate ranked in
  {| topPerformers := firstn 3 ranked;
     improvementAreas :=
       firstn 3
         (filter (fun a => Double.ltb (complianceRate a) (Double.of_Z 90))
            ranked);
     categoryInsights :=
       sort (fun a b => Double.sub (category_rate a) (category_rate b))
         (map category_entry (categories an));
     timePatternInsights :=
       sort (fun a b => Double.sub (parseFloat_of (violationRate b))
                          (parseFloat_of (violationRate a)))
         (map daily_entry (daily an));
     recommendations :=
       ((if Double.ltb
              (parseFloat (compliancePercentage (firstResponseSLA an)))
              (Double.of_Z 95)
         then [recommend "First Response Time"
                 "Implement automated ticket routing and priority alerts"
                 "high" "medium"]
         else [])
        ++ (if Double.ltb
                 (parseFloat (compliancePercentage (resolutionSLA an)))
                 (Double.of_Z 90)
            then [recommend "Resolution Time"
                    "Create knowledge base and escalation procedures"
                    "high" "medium"]
            else [])
        ++ (if (1 <? length (agents an))%nat
               && Double.gtb
                    (Double.sub (Double.max rates) (Double.min rates))
                    (Double.of_Z 20)
            then [recommend "Team Performance"
                    "Implement peer mentoring and standardized training"
                    "medium" "low"]
            else []))%list |}.

(** The post-pass of [analyzeSLAPerformance], from the percentages on. *)
Definition finish (an : analysis) : analysis :=
  let an := set_firstResponseSLA (finish_bucket (firstResponseSLA an)) an in
  let an := set_resolutionSLA (finish_bucket (resolutionSLA an)) an in
  let an := map_groups (finish_all finish_agent) (finish_all finish_group)
              (finish_all finish_group)
              (fun t => t) (fun d => d) (fun m => m) an in
  set_insights (generatePerformanceInsights an) an.

(** [function analyzeSLAPerformance(data)] *)
Definition analyzeSLAPerformance (data : argument)
  : completion (option analysis) :=
  match data with
  | NotAnArray v =>
      if truthy v then Thrown "data.forEach"
      else Returned None
  | Array [] => Returned None
  | Array tickets =>
      an <- forEach tickets 0 (initial (length tickets)) ;;
      Returned (Some (finish an))
  end.

End WithHost.
End Server.

(* ===================================================================== *)
(** * The earlier copy of the analyzer *)
(* ===================================================================== *)

(** The repository also holds the server as it was before the analyzer was
    enhanced.  That [analyzeSLAPerformance] knows fewer columns and
    keywords, keeps no time buckets, and computes [compliancePercentage]
    from the [compliance] counter. *)
Module Legacy.
Import Server.

(** A bucket starts without [violationPercentage]. *)
Record bucket : Type := {
  violations : Z;
  compliance : Z;
  total : Z;
  compliancePercentage : string;
  violationPercentage : option string
}.

Record tally : Type := {
  tally_total : Z;
  responseViolations : Z;
  resolutionViolations : Z
}.

Record analysis : Type := {
  totalTickets : Z;
  firstResponseSLA : bucket;
  resolutionSLA : bucket;
  agents : object tally;
  categories : object tally
}.

Definition empty_bucket : bucket :=
  {| violations := 0; compliance := 0; total := 0;
     compliancePercentage := "0"; violationPercentage := None |}.

Definition new_tally : tally :=
  {| tally_total := 0; responseViolations := 0; resolutionViolations := 0 |}.

Definition tally_total_incr (t : tally) : tally :=
  {| tally_total := tally_total t + 1;
     responseViolations := responseViolations t;
     resolutionViolations := resolutionViolations t |}.

Definition tally_response_incr (t : tally) : tally :=
  {| tally_total := tally_total t;
     responseViolations := responseViolations t + 1;
     resolutionViolations := resolutionViolations t |}.

Definition tally_resolution_incr (t : tally) : tally :=
  {| tally_total := tally_total t;
     responseViolations := responseViolations t;
     resolutionViolations := resolutionViolations t + 1 |}.

Definition is_violation (statusLower : string) : bool :=
  existsb (Str.includes statusLower)
    ["violated"; "breach"; "missed"; "overdue"].
Definition is_compliant (statusLower : string) : bool :=
  existsb (Str.includes statusLower) ["within"; "met"; "compliant"].

Section WithHost.
Variable host : Host.

Definition classify (status : jsval) : verdict :=
  let statusLower := Str.toLowerCase (toString host status) in
  if is_violation statusLower then Violation
  else if is_compliant statusLower then Compliant
  else Neither.

(** One SLA block of the loop body: the bucket, and whether the ticket
    is a violation. *)
Definition count (status : jsval) (b : bucket) : bucket * bool :=
  if truthy status then
    match classify status with
    | Violation =>
        ({| violations := violations b + 1; compliance := compliance b;
            total := total b + 1;
            compliancePercentage := compliancePercentage b;
            violationPercentage := violationPercentage b |}, true)
    | Compliant =>
        ({| violations := violations b; compliance := compliance b + 1;
            total := total b + 1;
            compliancePercentage := compliancePercentage b;
            violationPercentage := violationPercentage b |}, false)
    | Neither =>
        ({| violations := violations b; compliance := compliance b;
            total := total b + 1;
            compliancePercentage := compliancePercentage b;
            violationPercentage := violationPercentage b |}, false)
    end
  else (b, false).

Definition when (violated : bool) (f : tally -> tally) (t : tally) : tally :=
  if violated then f t else t.

(** The body of [data.forEach]; nothing in it throws. *)
Definition processTicket (an : analysis) (ticket : object jsval)
  : analysis :=
  let field := Obj.get ticket in
  let agent :=
    toString host (or_else (or_else (or_else (field "Agent")
      (field "Resolved by")) (field "Assignee")) (VStr "Unknown")) in
  let category :=
    toString host (or_else (or_else (field "Category")
      (field "Sub-Category")) (VStr "Unknown")) in
  let firstResponseStatus :=
    or_else (or_else (or_else (field "First Response Status")
      (field "First Response SLA")) (field "Response Status"))
      (field "first_response_status") in
  let resolutionStatus :=
    or_else (or_else (or_else (field "Resolution Status")
      (field "Resolution SLA")) (field "Resolve Status"))
      (field "resolution_status") in
  let (first, v1) := count firstResponseStatus (firstResponseSLA an) in
  let (second, v2) := count resolutionStatus (resolutionSLA an) in
  let note (o : object tally) (k : string) :=
    Obj.update k (when v2 tally_resolution_incr)
      (Obj.update k (when v1 tally_response_incr)
         (Obj.update k tally_total_incr (ensure k new_tally o))) in
  {| totalTickets := totalTickets an;
     firstResponseSLA := first;
     resolutionSLA := second;
     agents := note (agents an) agent;
     categories := note (categories an) category |}.

(** "Calculate percentages" *)
Definition finish_bucket (b : bucket) : bucket :=
  if 0 <? total b then
    {| violations := violations b; compliance := compliance b;
       total := total b;
       compliancePercentage := percentage host (compliance b) (total b);
       violationPercentage :=
         Some (percentage host (violations b) (total b)) |}
  else b.

(** [function analyzeSLAPerformance(data)], before the enhancement *)
Definition analyzeSLAPerformance (data : argument)
  : completion (option analysis) :=
  match data with
  | NotAnArray v =>
      if truthy v then Thrown "data.forEach"
      else Returned None
  | Array [] => Returned None
  | Array tickets =>
      let an :=
        fold_left processTicket tickets
          {| totalTickets := Z.of_nat (length tickets);
             firstResponseSLA := empty_bucket;
             resolutionSLA := empty_bucket;
             agents := []; categories := [] |} in
      Returned (Some
        {| totalTickets := totalTickets an;
           firstResponseSLA := finish_bucket (firstResponseSLA an);
           resolutionSLA := finish_bucket (resolutionSLA an);
           agents := agents an;
           categories := categories an |})
  end.
End WithHost.
End Legacy.

(* ===================================================================== *)
(** * A host for the examples *)
(* ===================================================================== *)

(** The example host prints integers (below [10 ^ 21]) in decimal, knows
    the weekday of a date written [YYYY-MM-DD] (alone or followed by a
    time), reads the clock as one fixed instant, and parses the four date
    formats strictly, in UTC. *)
Module ExampleHost.

Definition print_number (x : number) : string :=
  match x with
  | NaN => "NaN"
  | Infinity negative => if negative then "-Infinity" else "Infinity"
  | Finite q =>
      (if Double.is_neg q then "-" else "")
        ++ Str.of_N (Z.to_N (Z.abs (Qnum q / Zpos (Qden q))))
  end.

Definition digits_value (s : string) : Z := Z.of_uint (fst (Str.scan_digits s)).

(** [s] has the shape given by [pattern], where ["d"] stands for a
    digit and every other character for itself. *)
Fixpoint shaped (pattern s : string) : bool :=
  match pattern, s with
  | EmptyString, EmptyString => true
  | String p pattern', String c s' =>
      (if Ascii.eqb p "d" then Str.is_digit c else Ascii.eqb p c)
      && shaped pattern' s'
  | _, _ => false
  end.

Definition leap (y : Z) : bool :=
  ((y mod 4 =? 0) && negb (y mod 100 =? 0)) || (y mod 400 =? 0).

Definition days_in_month (y m : Z) : Z :=
  if m =? 2 then (if leap y then 29 else 28)
  else if (m =? 4) || (m =? 6) || (m =? 9) || (m =? 11) then 30 else 31.

Definition valid_date (y m d : Z) : bool :=
  (1 <=? m) && (m <=? 12) && (1 <=? d) && (d <=? days_in_month y m).

(** 0 is Sunday. *)
Definition weekday (y m d : Z) : Z :=
  let t := nth (Z.to_nat (m - 1)) [0; 3; 2; 5; 0; 3; 5; 1; 4; 6; 2; 4] 0 in
  let y := if m <? 3 then y - 1 else y in
  (y + y / 4 - y / 100 + y / 400 + t + d) mod 7.

Definition part (from len : nat) (s : string) : string :=
  String.substring from len s.

Definition getDay (s : string) : number :=
  let y := digits_value (part 0 4 s) in
  let m := digits_value (part 5 2 s) in
  let d := digits_value (part 8 2 s) in
  if shaped "dddd-dd-dd" (part 0 10 s) && valid_date y m d
  then Double.of_Z (weekday y m d) else NaN.

Definition iso (y m d time : string) : string :=
  y ++ "-" ++ m ++ "-" ++ d ++ "T" ++ time ++ ".000Z".

Definition moment (s : string) : option string :=
  if shaped "dddd-dd-dd" s
     && valid_date (digits_value (part 0 4 s)) (digits_value (part 5 2 s))
          (digits_value (part 8 2 s))
  then Some (iso (part 0 4 s) (part 5 2 s) (part 8 2 s) "00:00:00")
  else if shaped "dd/dd/dddd" s
     && valid_date (digits_value (part 6 4 s)) (digits_value (part 0 2 s))
          (digits_value (part 3 2 s))
  then Some (iso (part 6 4 s) (part 0 2 s) (part 3 2 s) "00:00:00")
  else if shaped "dd/dd/dddd" s
     && valid_date (digits_value (part 6 4 s)) (digits_value (part 3 2 s))
          (digits_value (part 0 2 s))
  then Some (iso (part 6 4 s) (part 3 2 s) (part 0 2 s) "00:00:00")
  else if shaped "dddd-dd-dd dd:dd:dd" s
     && valid_date (digits_value (part 0 4 s)) (digits_value (part 5 2 s))
          (digits_value (part 8 2 s))
     && (digits_value (part 11 2 s) <? 24)
     && (digits_value (part 14 2 s) <? 60)
     && (digits_value (part 17 2 s) <? 60)
  then Some (iso (part 0 4 s) (part 5 2 s) (part 8 2 s) (part 11 8 s))
  else None.

Definition host : Host :=
  {| Number_toString := print_number;
     Date_getDay := getDay;
     Date_now_toISOString := fun _ => "2024-01-15T09:30:00.000Z";
     moment_strict := moment |}.

End ExampleHost.

(* ===================================================================== *)
(** * Specification vocabulary *)
(* ===================================================================== *)

Module Spec.
Import Server.

(** A reported percentage reads (with [parseFloat], as the server itself
    reads it back) as a number between 0 and 100. *)
Definition in_percent_range (s : string) : Prop :=
  exists q, parseFloat s = Finite q /\ (0 <= q <= 100)%Q.

(** What one ticket does to an SLA bucket, given the status found for
    it. *)
Definition bucket_step (host : Host) (status : jsval) (b : bucket) : bucket :=
  if truthy status then
    match classify host status with
    | Violation => bucket_violations_incr (bucket_total_incr b)
    | Compliant => bucket_compliance_incr (bucket_total_incr b)
    | Neither => bucket_total_incr b
    end
  else b.

(** Conservation of the counts of a bucket. *)
Definition conserved (b : bucket) : Prop :=
  0 <= violations b /\ 0 <= compliance b
  /\ violations b + compliance b <= total b.

(** The exact value, as a rational, of [part / whole * 100]. *)
Definition exact_percentage (part whole : Z) : Q :=
  (inject_Z part / inject_Z whole * inject_Z 100)%Q.

(** Ranked by descending compliance rate. *)
Definition descending (l : list agent_performance) : Prop :=
  StronglySorted
    (fun a b => Double.ltb (complianceRate a) (complianceRate b) = false) l.

(** A finite number that is a double: rounding leaves it as it is. *)
Definition is_double (x : number) : Prop :=
  match x with
  | Finite q => Double.round q = Finite q
  | _ => False
  end.

(** Every double is a multiple of [2 ^ -1074]. *)
Definition on_grid (q : Q) : Prop :=
  exists k : Z, (q == k # Z.to_pos (2 ^ 1074))%Q.

(** The rational a finite rate stands for. *)
Definition rate_value (a : agent_performance) : Q :=
  match complianceRate a with
  | Finite q => q
  | _ => 0
  end.

(** The agents of an analysis, as the insights read them. *)
Definition agent_entries (host : Host) (an : analysis)
  : list agent_performance :=
  map (agent_entry host) (agents an).

(** [agent.complianceRate < 90] *)
Definition below_90 (a : agent_performance) : bool :=
  Double.ltb (complianceRate a) (Double.of_Z 90).

(** [s] is the one-decimal writing of the tenth nearest to [x], up to
    the rounding error of the double arithmetic that produced it. *)
Definition rounded_to_tenth (s : string) (x : Q) : Prop :=
  exists n : Z,
    s = tenths n
    /\ (Qabs (inject_Z n / 10 - x) <= (1 # 20) + (1 # 2 ^ 45))%Q.

(** The loop invariant on one bucket after [k] tickets. *)
Definition tallied (k : Z) (b : bucket) : Prop :=
  conserved b /\ 0 <= total b <= k
  /\ compliancePercentage b = "0" /\ violationPercentage b = "0".

(** The decidable form of [in_percent_range]. *)
Definition percent_ok (s : string) : bool :=
  match parseFloat s with
  | Finite q => Qle_bool 0 q && Qle_bool q 100
  | _ => false
  end.

(** Scenario 1 of the specification. *)
Definition scenario1 : argument :=
  Array [ [("Agent", VStr "A"); ("First Response Status", VStr "Violated")];
          [("Agent", VStr "A"); ("First Response Status", VStr "Met")] ].

(** Scenario 5: agent C has 1 violation in 5 tickets (80%), agent B has
    2 in 25 (92%), agent A none in 1 (100%). *)
Definition ticket_of (agent status : string) : object jsval :=
  [("Agent", VStr agent); ("Created Date", VStr "2024-03-04");
   ("First Response Status", VStr status)].

Definition scenario5 : argument :=
  Array (ticket_of "C" "SLA Violated" :: repeat (ticket_of "C" "Met") 4
         ++ repeat (ticket_of "B" "Breached") 2
         ++ repeat (ticket_of "B" "Within SLA") 23
         ++ [ticket_of "A" "Achieved"])%list.

(** One ticket that misses both SLAs. *)
Definition double_violation : argument :=
  Array [ [("Agent", VStr "A");
           ("First Response Status", VStr "Violated");
           ("Resolution Status", VStr "SLA Breached")] ].

(** A ticket whose date cell was parsed as a number. *)
Definition numeric_date : argument :=
  Array [ [("Agent", VStr "A"); ("Created Date", VNum (Finite 20240115));
           ("First Response Status", VStr "Met")] ].

(** A dataset with an empty column. *)
Definition empty_column : list (object jsval) :=
  [ [("Agent", VStr "A"); ("Notes", VNull)];
    [("Agent", VStr "B"); ("Notes", VStr "")] ].

(** What [cleanData] answers when it is given no data. *)
Definition no_data : DataUtils.result :=
  {| DataUtils.data := [];
     DataUtils.errors := ["No data provided"];
     DataUtils.warnings := [];
     DataUtils.originalCount := None;
     DataUtils.cleanedCount := None |}.

(** The strict date formats all start with a digit: moment.js accepts no
    string that starts otherwise. *)
Definition moment_needs_digit (host : Host) : Prop :=
  forall s iso,
    moment_strict host s = Some iso ->
    exists c rest, s = String c rest /\ Str.is_digit c = true.

(** A ticket the loop body gets through: its date is a string (its own,
    or the clock's), and its agent is not named like a member of
    [Object.prototype]. *)
Definition passable (host : Host) (index : nat) (ticket : object jsval)
  : bool :=
  match createdDate_of host index ticket with
  | VStr _ => negb (Obj.inherited (agent_of host ticket))
  | _ => false
  end.

Fixpoint all_passable (host : Host) (index : nat)
    (tickets : list (object jsval)) : bool :=
  match tickets with
  | [] => true
  | ticket :: rest =>
      passable host index ticket && all_passable host (S index) rest
  end.

(** During the loop no own property of [agents] is named like a member
    of the prototype. *)
Definition clean_agents (an : analysis) : Prop :=
  forall k, Obj.inherited k = true -> Obj.own k (agents an) = None.

(** One ticket whose status matches no keyword. *)
Definition pending : argument :=
  Array [ [("Agent", VStr "A"); ("First Response Status", VStr "Pending")] ].

(** Scenario 3: the first row has nothing but empty cells. *)
Definition scenario3 : argument :=
  Array [ [("Agent", VStr ""); ("Status", VStr "")];
          [("Agent", VStr "A"); ("Status", VStr "open")] ].

(** Scenario 4: a column named "Agent Name". *)
Definition scenario4 : argument :=
  Array [ [("Ticket", VNum (Finite 1)); ("Agent Name", VStr "A")] ].

(** Conservation, for a bucket of the earlier analyzer. *)
Definition legacy_conserved (b : Legacy.bucket) : Prop :=
  0 <= Legacy.violations b /\ 0 <= Legacy.compliance b
  /\ Legacy.violations b + Legacy.compliance b <= Legacy.total b.

(** The counts of an agent after [k] tickets: each violation counter is
    at most the agent's ticket total. *)
Definition agent_counted (k : Z) (a : agent_stats) : Prop :=
  0 <= agent_responseViolations a <= agent_total a
  /\ 0 <= agent_resolutionViolations a <= agent_total a
  /\ 1 <= agent_total a <= k.

(** The loop invariant on [analysis.agents]. *)
Definition agents_counted (k : Z) (an : analysis) : Prop :=
  NoDup (Obj.keys (agents an))
  /\ forall key a, Obj.own key (agents an) = Some a -> agent_counted k a.

(** The decidable form of [is_double]. *)
Definition double_ok (x : number) : bool :=
  match x with
  | Finite q =>
      match Double.round q with
      | Finite q' => (Qnum q =? Qnum q') && Pos.eqb (Qden q) (Qden q')
      | _ => false
      end
  | _ => false
  end.

(** JavaScript arrays have fewer than [2 ^ 32] elements. *)
Definition array_sized (data : argument) : Prop :=
  Z.of_nat (length (rows_of data)) < 2 ^ 32.
End Spec.

(* ===================================================================== *)
(** * Vocabulary for the aggregates of the analysis *)
(* ===================================================================== *)

Module Totals.
Import Server.

(** The number of tickets that satisfy [p]. *)
Definition count (p : object jsval -> bool) (tickets : list (object jsval))
  : Z :=
  Z.of_nat (length (filter p tickets)).

(** The sum of a counter over the entries of an aggregation map. *)
Definition sum {A : Type} (f : A -> Z) (o : object A) : Z :=
  fold_right (fun entry s => f (snd entry) + s) 0 o.

Definition verdict_eqb (v w : verdict) : bool :=
  match v, w with
  | Violation, Violation | Compliant, Compliant | Neither, Neither => true
  | _, _ => false
  end.

Section WithHost.
Variable host : Host.

(** The ticket has a status in one of the columns [cols]. *)
Definition evaluated (cols : list string) (ticket : object jsval) : bool :=
  truthy (find_status ticket cols).

(** The ticket has a status in one of the columns [cols], and its text
    gets the verdict [v]. *)
Definition judged (v : verdict) (cols : list string)
    (ticket : object jsval) : bool :=
  truthy (find_status ticket cols)
  && verdict_eqb (classify host (find_status ticket cols)) v.

(** The ticket's category (priority) is counted: its key is no member
    of [Object.prototype]. *)
Definition category_counted (ticket : object jsval) : bool :=
  negb (Obj.inherited (category_of host ticket)).

Definition priority_counted (ticket : object jsval) : bool :=
  negb (Obj.inherited (priority_of host ticket)).
End WithHost.

(** No own key of the map is named like a member of [Object.prototype]. *)
Definition clean {A : Type} (o : object A) : Prop :=
  forall k, Obj.inherited k = true -> Obj.own k o = None.

(** The decidable form of: [s] reads as a number between -100 and 100. *)
Definition signed_percent_ok (s : string) : bool :=
  match parseFloat s with
  | Finite q => Qle_bool (- (100)) q && Qle_bool q 100
  | _ => false
  end.

(** A dataset with one agent, below 90. *)
Definition one_agent : argument :=
  Array [ [("Agent", VStr "A"); ("First Response Status", VStr "Violated")] ].

(** A dataset without any SLA status column. *)
Definition no_status : argument :=
  Array [ [("Agent", VStr "A"); ("Category", VStr "Network")];
          [("Agent", VStr "B"); ("Category", VStr "constructor")] ].
End Totals.

(* ===================================================================== *)
(** * Vocabulary for the cleaner's warnings and rows *)
(* ===================================================================== *)

Module Cleaning.
Import DataUtils.

(** The indices (from [index] on) of the rows in which every declared
    column normalizes to null. *)
Fixpoint blank_rows (host : Host) (columns : list string)
    (rows : list (object jsval)) (index : nat) : list nat :=
  match rows with
  | [] => []
  | row :: rest =>
      if all_null host columns row
      then index :: blank_rows host columns rest (S index)
      else blank_rows host columns rest (S index)
  end.

(** The warning for the dropped row of index [i]. *)
Definition row_warning (i : nat) : string :=
  "Row " ++ Str.of_nat (i + 1) ++ " contains no valid data".

Definition quality_warning : string :=
  "More than 20% of rows were filtered out due to data quality issues".

(** The keys a cleaned row gets from the declared columns: those that an
    assignment turns into an own property. *)
Definition settable (columns : list string) : list string :=
  filter (fun col => negb (String.eqb col "__proto__")) columns.

(** Three rows, the last two without content. *)
Definition mostly_blank : argument :=
  Array [ [("Agent", VStr "A"); ("Status", VStr "open")];
          [("Agent", VStr ""); ("Status", VNull)];
          [("Agent", VNull); ("Status", VStr "")] ].

(** A row whose only content is a cell of white space. *)
Definition blank_looking : argument :=
  Array [ [("Agent", VStr "  "); ("Status", VStr "")] ].
End Cleaning.

(* ===================================================================== *)
(** * More of JavaScript: addition, ToNumber on strings, SameValueZero *)
(* ===================================================================== *)

Module Num.

(** [a + b] on numbers *)
Definition add (a b : number) : number :=
  match a, b with
  | NaN, _ | _, NaN => NaN
  | Infinity s, Infinity t => if Bool.eqb s t then Infinity s else NaN
  | Infinity s, Finite _ | Finite _, Infinity s => Infinity s
  | Finite p, Finite q => Double.round (p + q)
  end.

(** The value of a digit in a radix up to 16. *)
Definition digit_value (c : ascii) : option N :=
  let n := Str.code c in
  if ((48 <=? n) && (n <=? 57))%N then Some (n - 48)%N
  else if ((97 <=? n) && (n <=? 102))%N then Some (n - 87)%N
  else if ((65 <=? n) && (n <=? 70))%N then Some (n - 55)%N
  else None.

Fixpoint scan_radix (radix : N) (s : string) (acc : N) : option N :=
  match s with
  | EmptyString => Some acc
  | String c s' =>
      match digit_value c with
      | Some d =>
          if (d <? radix)%N then scan_radix radix s' (acc * radix + d)%N
          else None
      | None => None
      end
  end.

(** [0x], [0o] and [0b] literals: a prefix and at least one digit. *)
Definition radix_literal (t : string) : option N :=
  match t with
  | String "0" (String x (String c rest)) =>
      let digits := String c rest in
      if (Ascii.eqb x "x" || Ascii.eqb x "X")%bool
      then scan_radix 16 digits 0
      else if (Ascii.eqb x "o" || Ascii.eqb x "O")%bool
      then scan_radix 8 digits 0
      else if (Ascii.eqb x "b" || Ascii.eqb x "B")%bool
      then scan_radix 2 digits 0
      else None
  | _ => None
  end.

Definition no_digit (d : Decimal.uint) : bool :=
  match d with
  | Decimal.Nil => true
  | _ => false
  end.

(** A complete exponent part [e±ddd], or nothing. *)
Definition is_exponent_part (s : string) : bool :=
  match s with
  | EmptyString => true
  | String c s' =>
      (Ascii.eqb c "e" || Ascii.eqb c "E")
      && (let (_, s2) := Str.scan_sign s' in
          let (d, s3) := Str.scan_digits s2 in
          negb (no_digit d) && String.eqb s3 "")
  end.

(** The whole of [t] is a decimal literal: [Infinity], [ddd], [ddd.],
    [ddd.ddd] or [.ddd], with an optional sign and exponent. *)
Definition is_str_decimal_literal (t : string) : bool :=
  let (_, s1) := Str.scan_sign t in
  if String.eqb s1 "Infinity" then true
  else
    let (ip, s2) := Str.scan_digits s1 in
    let (fp, s3) :=
      match s2 with
      | String "." s2' => Str.scan_digits s2'
      | _ => (Decimal.Nil, s2)
      end in
    negb (no_digit ip && no_digit fp) && is_exponent_part s3.

(** ToNumber on a string: the whole of the trimmed string must be a
    numeric literal; the empty string is 0. *)
Definition toNumber (s : string) : number :=
  let t := Str.trim s in
  if String.eqb t "" then Finite 0
  else
    match radix_literal t with
    | Some n => Double.round (inject_Z (Z.of_N n))
    | None => if is_str_decimal_literal t then parseFloat t else NaN
    end.

(** SameValueZero on primitive values; two object values are cells of
    separate objects and never the same. *)
Definition same_number (a b : number) : bool :=
  match a, b with
  | NaN, NaN => true
  | Infinity s, Infinity t => Bool.eqb s t
  | Finite p, Finite q => Qeq_bool p q
  | _, _ => false
  end.

Definition same_value_zero (a b : jsval) : bool :=
  match a, b with
  | VUndefined, VUndefined | VNull, VNull => true
  | VBool x, VBool y => Bool.eqb x y
  | VNum x, VNum y => same_number x y
  | VStr x, VStr y => String.eqb x y
  | _, _ => false
  end.

(** [r1[col]] and [r2[col]] are the same value, for two records of a
    parsed array: a member both inherit is one object, an own cell that
    holds an object holds one of its own. *)
Definition same_cell (col : string) (r1 r2 : object jsval) : bool :=
  match Obj.own col r1, Obj.own col r2 with
  | None, None => true
  | _, _ => same_value_zero (Obj.get r1 col) (Obj.get r2 col)
  end.

(** The rows that [new Set(rows.map(row => row[col]))] keeps: the first
    row for each distinct value. *)
Fixpoint distinct_cells (col : string) (rows : list (object jsval))
  : list (object jsval) :=
  match rows with
  | [] => []
  | r :: rest =>
      r :: filter (fun r' => negb (same_cell col r r'))
             (distinct_cells col rest)
  end.
End Num.

(* ===================================================================== *)
(** * [analyzeDataStructure]: patterns, quality, score, recommendations *)
(* ===================================================================== *)

(** The fields of the descriptor that [Server.descriptor] leaves out. *)
Module Profile.
Import Server.

(** [columnPatterns[col]] *)
Record pattern : Type := {
  nullCount : nat;
  nullPercentage : string;
  uniqueCount : nat;
  uniquePercentage : string
}.

(** [dataQuality[col]] *)
Record quality : Type := {
  completeness : number;
  consistency : string;
  validity : string
}.

Record report : Type := {
  structure : descriptor;
  columnPatterns : object pattern;
  dataQuality : object quality;
  sample : list (object jsval);
  qualityScore : string;
  dataRecommendations : list string
}.

(** The double quote character. *)
Definition quote : string := String (ascii_of_N 34) EmptyString.

(** [!row[col] || row[col] === null || row[col] === undefined ||
    row[col] === ''] *)
Definition is_missing (col : string) (row : object jsval) : bool :=
  negb (truthy (Obj.get row col))
  || DataUtils.is_blank (Obj.get row col).

Section WithHost.
Variable host : Host.

Definition columnPattern (data : list (object jsval)) (col : string)
  : pattern :=
  let totalRows := length data in
  let nullCount := length (filter (is_missing col) data) in
  let uniqueCount := length (Num.distinct_cells col data) in
  {| nullCount := nullCount;
     nullPercentage :=
       percentage host (Z.of_nat nullCount) (Z.of_nat totalRows);
     uniqueCount := uniqueCount;
     uniquePercentage :=
       percentage host (Z.of_nat uniqueCount) (Z.of_nat totalRows) |}.

Definition columnQuality (data : list (object jsval)) (col : string)
  : quality :=
  let p := columnPattern data col in
  {| completeness :=
       Double.sub num_100 (Num.toNumber (nullPercentage p));
     consistency :=
       if Double.ltb (Double.of_Z (Z.of_nat (uniqueCount p)))
            (Double.mul (Double.of_Z (Z.of_nat (length data))) num_0_8)
       then "High" else "Medium";
     validity :=
       if (0 <? length (sampleValues data col))%nat
       then "Valid" else "Empty" |}.

(** [function calculateDataQualityScore(dataQuality)] *)
Definition calculateDataQualityScore (dataQuality : object quality)
  : string :=
  let scores :=
    map (fun entry => parseFloat_of host (VNum (completeness (snd entry))))
      dataQuality in
  let averageCompleteness :=
    Double.div (fold_left Num.add scores num_0)
      (Double.of_Z (Z.of_nat (length scores))) in
  if Double.geb averageCompleteness (Double.of_Z 95) then "Excellent"
  else if Double.geb averageCompleteness (Double.of_Z 85) then "Good"
  else if Double.geb averageCompleteness (Double.of_Z 70) then "Fair"
  else "Poor".

(** [`Column "${col}" has ${pattern.nullPercentage}% missing values -
    consider data cleansing`] *)
Definition missing_values_message (col : string) (p : pattern) : string :=
  "Column " ++ quote ++ col ++ quote ++ " has " ++ nullPercentage p
  ++ "% missing values - consider data cleansing".

(** [function generateDataRecommendations(columnPatterns,
    specialColumns)]; of [specialColumns] it reads the three lists
    given here. *)
Definition generateDataRecommendations (columnPatterns : object pattern)
    (dateColumns statusColumns userColumns : list string) : list string :=
  (flat_map
     (fun entry =>
        if Double.gtb (parseFloat (nullPercentage (snd entry)))
             (Double.of_Z 50)
        then [missing_values_message (fst entry) (snd entry)]
        else [])
     columnPatterns
   ++ (if Nat.eqb (length dateColumns) 0
       then ["No date columns detected - trend analysis will be limited"]
       else [])
   ++ (if Nat.eqb (length statusColumns) 0
       then ["No status columns detected - SLA analysis may be limited"]
       else [])
   ++ (if Nat.eqb (length userColumns) 0
       then ["No user/agent columns detected - performance analysis will be limited"]
       else []))%list.

(** [function analyzeDataStructure(data)], with the fields above. *)
Definition analyzeDataStructure (data : argument)
  : completion (option report) :=
  d <- Server.analyzeDataStructure data ;;
  match d with
  | None => Returned None
  | Some d =>
      let rows := rows_of data in
      let columnPatterns :=
        fold_left (fun o col => Obj.set col (columnPattern rows col) o)
          (columns d) [] in
      let dataQuality :=
        fold_left (fun o col => Obj.set col (columnQuality rows col) o)
          (columns d) [] in
      Returned (Some
        {| structure := d;
           columnPatterns := columnPatterns;
           dataQuality := dataQuality;
           sample := firstn 10 rows;
           qualityScore := calculateDataQualityScore dataQuality;
           dataRecommendations :=
             generateDataRecommendations columnPatterns
               (dateColumns d) (statusColumns d) (userColumns d) |})
  end.
End WithHost.

(** A column of zeros beside a column of names. *)
Definition zeros : list (object jsval) :=
  [ [("Agent", VStr "A"); ("Reopened", VNum (Finite 0))];
    [("Agent", VStr "B"); ("Reopened", VNum (Finite 0))] ].

(** The decidable forms of the facts about the tenths. *)
Definition completeness_ok (s : string) : bool :=
  match Double.sub num_100 (Num.toNumber s) with
  | Finite q => Qle_bool 0 q && Qle_bool q 100
  | _ => false
  end.

Definition flagged (s : string) : bool :=
  Double.gtb (parseFloat s) (Double.of_Z 50).
End Profile.

(* ===================================================================== *)
(** * server/utils.js: [DataUtils.inferDataType], [analyzeDataQuality] *)
(* ===================================================================== *)

Module DataQuality.

Definition num_0_7 : number := Double.round (7 # 10).
Definition num_0_5 : number := Double.round (1 # 2).

(** [analysis.columnAnalysis[col]] *)
Record column_analysis : Type := {
  nullCount : nat;
  nullPercentage : number;
  uniqueCount : nat;
  uniquePercentage : number;
  dataType : string;
  sampleValues : list jsval
}.

(** What [analyzeDataQuality] returns; the object it returns for no data
    has the last two fields only. *)
Record quality_analysis : Type := {
  totalRows : option nat;
  totalColumns : option nat;
  columnAnalysis : option (object column_analysis);
  suggestions : list string;
  quality : string
}.

(** [val !== null && val !== undefined] *)
Definition is_value (val : jsval) : bool :=
  match val with
  | VNull | VUndefined => false
  | _ => true
  end.

Definition more_than_half_message (col : string) : string :=
  "Column " ++ Profile.quote ++ col ++ Profile.quote
  ++ " has more than 50% missing values".

Definition same_value_message (col : string) : string :=
  "Column " ++ Profile.quote ++ col ++ Profile.quote
  ++ " has the same value for all rows".

Section WithMoment.
(** [moment(s, moment.ISO_8601, true).isValid()] *)
Variable isoValid : string -> bool.

Definition is_date (val : jsval) : bool :=
  match val with
  | VStr s => isoValid s
  | _ => false
  end.

(** [static inferDataType(values)] *)
Definition inferDataType (values : list jsval) : string :=
  match values with
  | [] => "unknown"
  | _ =>
      let types := map typeof values in
      let uniqueTypes := distinct types in
      match uniqueTypes with
      | [type] =>
          if String.eqb type "string" then
            let sampleValues := firstn 10 values in
            let dateCount := length (filter is_date sampleValues) in
            if Double.gtb (Double.of_Z (Z.of_nat dateCount))
                 (Double.mul
                    (Double.of_Z (Z.of_nat (length sampleValues)))
                    num_0_7)
            then "date" else type
          else type
      | _ => "mixed"
      end
  end.

(** The rows whose cell in [col] passes the filter of [values]. *)
Definition valued (col : string) (data : list (object jsval))
  : list (object jsval) :=
  filter (fun row => is_value (Obj.get row col)) data.

Definition analyzeColumn (data : list (object jsval)) (col : string)
  : column_analysis :=
  let rows := valued col data in
  let values := map (fun row => Obj.get row col) rows in
  let nullCount := (length data - length values)%nat in
  let uniqueCount := length (Num.distinct_cells col rows) in
  {| nullCount := nullCount;
     nullPercentage :=
       Double.mul
         (Double.div (Double.of_Z (Z.of_nat nullCount))
            (Double.of_Z (Z.of_nat (length data))))
         num_100;
     uniqueCount := uniqueCount;
     uniquePercentage :=
       Double.mul
         (Double.div (Double.of_Z (Z.of_nat uniqueCount))
            (Double.of_Z (Z.of_nat (length values))))
         num_100;
     dataType := inferDataType values;
     sampleValues := firstn 5 values |}.

(** [nullCount > data.length * 0.5] *)
Definition mostly_null (data : list (object jsval)) (c : column_analysis)
  : bool :=
  Double.gtb (Double.of_Z (Z.of_nat (nullCount c)))
    (Double.mul (Double.of_Z (Z.of_nat (length data))) num_0_5).

(** [uniqueCount === 1 && values.length > 1] *)
Definition single_valued (col : string) (data : list (object jsval))
    (c : column_analysis) : bool :=
  Nat.eqb (uniqueCount c) 1 && (1 <? length (valued col data))%nat.

(** The body of [columns.forEach]; the state is [columnAnalysis],
    [suggestions] and [quality]. *)
Definition analyzeStep (data : list (object jsval))
    (st : object column_analysis * list string * string) (col : string)
  : object column_analysis * list string * string :=
  let '(columnAnalysis, suggestions, quality) := st in
  let c := analyzeColumn data col in
  let columnAnalysis := Obj.set col c columnAnalysis in
  let '(suggestions, quality) :=
    if mostly_null data c
    then ((suggestions ++ [more_than_half_message col])%list, "warning")
    else (suggestions, quality) in
  let suggestions :=
    if single_valued col data c
    then (suggestions ++ [same_value_message col])%list
    else suggestions in
  (columnAnalysis, suggestions, quality).

(** [static analyzeDataQuality(data)] *)
Definition analyzeDataQuality (data : argument)
  : completion quality_analysis :=
  match data with
  | NotAnArray v =>
      if truthy v then
        match v with
        | VStr _ => Thrown "data.map"
        | _ => Thrown "Object.keys(data[0])"
        end
      else
        Returned {| totalRows := None; totalColumns := None;
                    columnAnalysis := None;
                    suggestions := ["No data to analyze"];
                    quality := "poor" |}
  | Array [] =>
      Returned {| totalRows := None; totalColumns := None;
                  columnAnalysis := None;
                  suggestions := ["No data to analyze"];
                  quality := "poor" |}
  | Array ((first :: _) as rows) =>
      let columns := Obj.keys first in
      let '(columnAnalysis, suggestions, quality) :=
        fold_left (analyzeStep rows) columns ([], [], "good") in
      let '(suggestions, quality) :=
        if (length rows <? 10)%nat
        then ((suggestions
               ++ ["Dataset is very small (less than 10 rows)"])%list,
              "poor")
        else if (length rows <? 100)%nat
        then ((suggestions
               ++ ["Dataset is small (less than 100 rows) - insights may be limited"])%list,
              "warning")
        else (suggestions, quality) in
      Returned {| totalRows := Some (length rows);
                  totalColumns := Some (length columns);
                  columnAnalysis := Some columnAnalysis;
                  suggestions := suggestions;
                  quality := quality |}
  end.
End WithMoment.

(** The decidable form of the date threshold. *)
Definition date_threshold_ok (l c : nat) : bool :=
  Bool.eqb
    (Double.gtb (Double.of_Z (Z.of_nat c))
       (Double.mul (Double.of_Z (Z.of_nat l)) num_0_7))
    (7 * Z.of_nat l <? 10 * Z.of_nat c).

(** An ISO 8601 date of the shape [dddd-dd-dd]. *)
Definition iso_shaped (s : string) : bool :=
  match s with
  | String a (String b (String c (String d (String "-"
      (String e (String f (String "-" (String g (String h "")))))))))
    => Str.all_digits
         (String a (String b (String c (String d (String e (String f
            (String g (String h ""))))))))
  | _ => false
  end.

(** A column without a value: null in one record, absent from the
    other. *)
Definition null_column : list (object jsval) :=
  [ [("Agent", VStr "A"); ("Notes", VNull)]; [("Agent", VStr "B")] ].

(** Eight dates and two words. *)
Definition mostly_dates : list jsval :=
  (repeat (VStr "2024-03-04") 8 ++ [VStr "n/a"; VStr "tbd"])%list.
End DataQuality.

(* ===================================================================== *)
(** * The earlier [analyzeDataStructure] *)
(* ===================================================================== *)

(** The server file declares [analyzeDataStructure] twice; this is the
    first declaration, the only one of the earlier copy of the server. *)
Module LegacyStructure.
Import Server.

Record descriptor : Type := {
  totalRows : nat;
  columns : list string;
  columnTypes : object string;
  sample : list (object jsval);
  hasDateColumns : bool;
  hasStatusColumns : bool;
  hasUserColumns : bool
}.

Definition analyzeDataStructure (data : argument)
  : completion (option descriptor) :=
  match data with
  | NotAnArray v =>
      if truthy v then
        match v with
        | VStr _ => Thrown "data.slice(0, 100).map"
        | _ => Thrown "data.slice"
        end
      else Returned None
  | Array [] => Returned None
  | Array ((first :: _) as rows) =>
      let columns := Obj.keys first in
      Returned (Some
        {| totalRows := length rows;
           columns := columns;
           columnTypes :=
             fold_left (fun o col => Obj.set col (columnType rows col) o)
               columns [];
           sample := firstn 5 rows;
           hasDateColumns :=
             existsb (mentions ["date"; "time"; "created"; "updated"])
               columns;
           hasStatusColumns :=
             existsb (mentions ["status"; "state"; "priority"]) columns;
           hasUserColumns :=
             existsb (mentions ["user"; "agent"; "assignee"; "name"])
               columns |})
  end.
End LegacyStructure.

(* ===================================================================== *)
(** * [generateHTMLReport]: the JSON inside the model's answer *)
(* ===================================================================== *)

Module Report.

Definition newline : string := String (ascii_of_N 10) EmptyString.
Definition fence : string := "```".

(** [s.replace(/\n?```$/, '')]: the match ends at the end of [s], so it
    is the suffix [\n```] when there is one, the suffix [```]
    otherwise. *)
Fixpoint strip_close (s : string) : string :=
  match s with
  | EmptyString => EmptyString
  | String c s' =>
      if String.eqb s (newline ++ fence) || String.eqb s fence
      then EmptyString
      else String c (strip_close s')
  end.

(** What is left of [s] after a match of length [n] at its start,
    followed by the optional [\n] of the pattern. *)
Definition strip_open (n : nat) (s : string) : string :=
  let rest := String.substring n (String.length s - n) s in
  match rest with
  | String c rest' => if Ascii.eqb c (ascii_of_N 10) then rest' else rest
  | EmptyString => rest
  end.

(** The value of [jsonContent] when [JSON.parse] is called. *)
Definition jsonContent (claudeAnalysis : string) : string :=
  let cleanedResponse := Str.trim claudeAnalysis in
  if String.prefix "```json" cleanedResponse
  then strip_close (strip_open 7 cleanedResponse)
  else if String.prefix fence cleanedResponse
  then strip_close (strip_open 3 cleanedResponse)
  else cleanedResponse.

(** An answer wrapped in a fenced block. *)
Definition fenced (tag body : string) : string :=
  fence ++ tag ++ newline ++ body ++ newline ++ fence.
End Report.

(* ===================================================================== *)
(** * server/utils.js: [ErrorUtils], and the upload filter *)
(* ===================================================================== *)

Module ErrorUtils.

(** What [createError] returns. *)
Record response : Type := {
  error : bool;
  message : string;
  code : string;
  status : Z;
  timestamp : string
}.

(** What the handlers read of the error they are given. *)
Record thrown_error : Type := {
  error_status : jsval;
  error_code : jsval;
  error_message : jsval
}.

Section WithClock.
(** [new Date().toISOString()] *)
Variable now : string.

(** [static createError(message, code = 'GENERAL_ERROR', status = 500)],
    with the defaults filled in by the caller. *)
Definition createError (message code : string) (status : Z) : response :=
  {| error := true; message := message; code := code; status := status;
     timestamp := now |}.

(** [v === n] for a number literal [n] *)
Definition is_number (v : jsval) (n : Z) : bool :=
  match v with
  | VNum (Finite q) => Qeq_bool q (inject_Z n)
  | _ => false
  end.

(** [v === s] for a string literal [s] *)
Definition is_string (v : jsval) (s : string) : bool :=
  match v with
  | VStr t => String.eqb t s
  | _ => false
  end.

(** [static handleClaudeError(error)] *)
Definition handleClaudeError (e : thrown_error) : response :=
  if is_number (error_status e) 401
  then createError "Invalid Claude API key" "INVALID_API_KEY" 401
  else if is_number (error_status e) 429
  then createError "Claude API rate limit exceeded" "RATE_LIMIT" 429
  else if is_number (error_status e) 400
  then createError "Invalid request to Claude API" "INVALID_REQUEST" 400
  else createError "Claude API service unavailable" "SERVICE_UNAVAILABLE"
         503.

(** [static handleUploadError(error)]; [None] stands for a message
    that is an object, of which the embedding cannot tell whether it
    has an [includes] method. *)
Definition handleUploadError (e : thrown_error)
  : option (completion response) :=
  if is_string (error_code e) "LIMIT_FILE_SIZE"
  then Some (Returned
               (createError "File too large (max 10MB)" "FILE_TOO_LARGE"
                  413))
  else if is_string (error_code e) "LIMIT_FILE_COUNT"
  then Some (Returned
               (createError "Too many files uploaded" "TOO_MANY_FILES"
                  400))
  else
    match error_message e with
    | VStr m =>
        if Str.includes m "Only CSV files are allowed"
        then Some (Returned
                     (createError "Invalid file type - CSV files only"
                        "INVALID_FILE_TYPE" 400))
        else Some (Returned
                     (createError "File upload failed" "UPLOAD_ERROR"
                        500))
    | VObject _ _ => None
    | _ => Some (Thrown "error.message.includes")
    end.
End WithClock.

(** [s.endsWith(suffix)] *)
Fixpoint endsWith (s suffix : string) : bool :=
  String.eqb s suffix
  || match s with
     | EmptyString => false
     | String _ s' => endsWith s' suffix
     end.

(** The [fileFilter] of the upload: [None] when the file is accepted,
    the message of the error otherwise. *)
Definition fileFilter (mimetype originalname : string) : option string :=
  if String.eqb mimetype "text/csv" || endsWith originalname ".csv"
  then None
  else Some "Only CSV files are allowed".

(** [new Error(message)], as the handlers read it. *)
Definition Error (message : string) : thrown_error :=
  {| error_status := VUndefined; error_code := VUndefined;
     error_message := VStr message |}.
End ErrorUtils.

(* ===================================================================== *)
(** * Vocabulary for the buckets of the earlier analyzer *)
(* ===================================================================== *)

Module LegacyTotals.
Import Server.

(** [ticket['First Response Status'] || ticket['First Response SLA'] ||
    ticket['Response Status'] || ticket['first_response_status']] *)
Definition firstResponseStatus (ticket : object jsval) : jsval :=
  or_else (or_else (or_else (Obj.get ticket "First Response Status")
    (Obj.get ticket "First Response SLA")) (Obj.get ticket "Response Status"))
    (Obj.get ticket "first_response_status").

(** [ticket['Resolution Status'] || ticket['Resolution SLA'] ||
    ticket['Resolve Status'] || ticket['resolution_status']] *)
Definition resolutionStatus (ticket : object jsval) : jsval :=
  or_else (or_else (or_else (Obj.get ticket "Resolution Status")
    (Obj.get ticket "Resolution SLA")) (Obj.get ticket "Resolve Status"))
    (Obj.get ticket "resolution_status").

Section WithHost.
Variable host : Host.

(** The earlier analyzer finds a status for the ticket. *)
Definition evaluated (status : object jsval -> jsval)
    (ticket : object jsval) : bool :=
  truthy (status ticket).

(** It finds a status, and its keywords give the text the verdict
    [v]. *)
Definition judged (v : verdict) (status : object jsval -> jsval)
    (ticket : object jsval) : bool :=
  truthy (status ticket)
  && Totals.verdict_eqb (Legacy.classify host (status ticket)) v.

(** What one ticket does to a bucket of the earlier analyzer: the
    counts it adds; the percentages are left as they are. *)
Definition stepped (status : object jsval -> jsval)
    (ticket : object jsval) (b b' : Legacy.bucket) : Prop :=
  Legacy.total b'
  = Legacy.total b + (if evaluated status ticket then 1 else 0)
  /\ Legacy.violations b'
     = Legacy.violations b
       + (if judged Violation status ticket then 1 else 0)
  /\ Legacy.compliance b'
     = Legacy.compliance b
       + (if judged Compliant status ticket then 1 else 0)
  /\ Legacy.compliancePercentage b' = Legacy.compliancePercentage b
  /\ Legacy.violationPercentage b' = Legacy.violationPercentage b.

(** What the loop over [tickets] does to a bucket. *)
Definition counted (status : object jsval -> jsval)
    (tickets : list (object jsval)) (b b' : Legacy.bucket) : Prop :=
  Legacy.total b'
  = Legacy.total b + Totals.count (evaluated status) tickets
  /\ Legacy.violations b'
     = Legacy.violations b
       + Totals.count (judged Violation status) tickets
  /\ Legacy.compliance b'
     = Legacy.compliance b
       + Totals.count (judged Compliant status) tickets
  /\ Legacy.compliancePercentage b' = Legacy.compliancePercentage b
  /\ Legacy.violationPercentage b' = Legacy.violationPercentage b.
End WithHost.

(** Two tickets in a status no keyword matches, and no resolution
    column. *)
Definition on_hold : argument :=
  Array [ [("Agent", VStr "A"); ("First Response Status", VStr "Pending")];
          [("Agent", VStr "B"); ("Response SLA Status", VStr "On hold")] ].
End LegacyTotals.

(* ===================================================================== *)
(** * Facts about the code *)
(* ===================================================================== *)

(* ===================================================================== *)
(** * Facts about doubles *)
(* ===================================================================== *)

Module DoubleFacts.
Import Double.

Lemma div_nearest_even_le (n d K : Z) :
  0 < d -> n <= K * d -> div_nearest_even n d <= K.
Proof.
  intros Hd Hn. unfold div_nearest_even.
  pose proof (Z.div_mod n d ltac:(lia)) as E.
  pose proof (Z.mod_pos_bound n d Hd) as B.
  assert (n / d <= K) by nia.
  destruct (Z.compare_spec (2 * (n mod d)) d); try lia.
  - destruct (Z.even (n / d)); nia.
  - nia.
Qed.

Lemma div_nearest_even_ge (n d K : Z) :
  0 < d -> K * d <= n -> K <= div_nearest_even n d.
Proof.
  intros Hd Hn. unfold div_nearest_even.
  pose proof (Z.div_mod n d ltac:(lia)) as E.
  pose proof (Z.mod_pos_bound n d Hd) as B.
  assert (K <= n / d) by nia.
  destruct (Z.compare_spec (2 * (n mod d)) d); try lia.
  destruct (Z.even (n / d)); lia.
Qed.

Lemma floor_log2_small (n d : Z) :
  0 < n -> 0 < d -> n < d * 2 ^ 53 -> floor_log2 n d <= 52.
Proof.
  intros Hn Hd Hlt. unfold floor_log2.
  set (k := Z.log2 n - Z.log2 d).
  assert (Hk : k <= 53).
  { assert (Z.log2 n <= Z.log2 (d * 2 ^ 53)) by (apply Z.log2_le_mono; lia).
    rewrite Z.log2_mul_pow2 in H by lia. unfold k. lia. }
  destruct (Z.leb_spec 0 k).
  - destruct (Z.leb_spec (d * 2 ^ k) n); [|lia].
    assert (k < 53); [|lia].
    apply (Z.pow_lt_mono_r_iff 2); try lia. nia.
  - destruct (d <=? n * 2 ^ (- k)); lia.
Qed.

Lemma pow2_pos (e : Z) : 0 < 2 ^ e \/ (e < 0 /\ 2 ^ e = 0).
Proof.
  destruct (Z.leb_spec 0 e).
  - left. apply Z.pow_pos_nonneg; lia.
  - right. split; [lia|]. apply Z.pow_neg_r. lia.
Qed.

(** Rounding never crosses an integer below [2 ^ 53]. *)
Lemma round_pos_between (n d L K : Z) :
  0 < n -> 0 < d -> 0 <= L -> K < 2 ^ 53 ->
  L * d <= n <= K * d ->
  exists q, round_pos n d = Some q /\ (inject_Z L <= q <= inject_Z K)%Q.
Proof.
  intros Hn Hd HL HK [Hlo Hhi]. unfold round_pos.
  assert (He : ulp_exponent n d <= 0).
  { unfold ulp_exponent.
    assert (floor_log2 n d <= 52) by (apply floor_log2_small; nia). lia. }
  set (e := ulp_exponent n d) in *.
  replace (971 <? e) with false by (symmetry; apply Z.ltb_ge; lia).
  replace (e =? 971) with false by (symmetry; apply Z.eqb_neq; lia).
  cbn [orb andb]. eexists; split; [reflexivity|].
  unfold scale, significand.
  destruct (Z.ltb_spec e 0) as [Hneg|Hnn].
  - assert (Hp : 0 < 2 ^ (- e)) by (apply Z.pow_pos_nonneg; lia).
    set (p := 2 ^ (- e)) in *.
    assert (Hm1 : L * p <= div_nearest_even (n * p) d)
      by (apply div_nearest_even_ge; nia).
    assert (Hm2 : div_nearest_even (n * p) d <= K * p)
      by (apply div_nearest_even_le; nia).
    rewrite Qred_correct. unfold Qle, inject_Z; simpl.
    rewrite Z2Pos.id by lia. lia.
  - assert (e = 0) by lia. subst e. rewrite H. simpl (2 ^ 0).
    rewrite !Z.mul_1_r.
    assert (Hm1 : L <= div_nearest_even n d)
      by (apply div_nearest_even_ge; nia).
    assert (Hm2 : div_nearest_even n d <= K)
      by (apply div_nearest_even_le; nia).
    rewrite <- !Zle_Qle. lia.
Qed.

Lemma round_between (x : Q) (L K : Z) :
  0 <= L -> K < 2 ^ 53 ->
  (inject_Z L <= x <= inject_Z K)%Q ->
  exists q, round x = Finite q /\ (inject_Z L <= q <= inject_Z K)%Q.
Proof.
  intros HL HK [Hlo Hhi]. unfold round.
  destruct x as [n d]. unfold Qle, inject_Z in Hlo, Hhi; simpl in *.
  destruct (Z.compare_spec n 0) as [E|E|E].
  - subst n. exists 0%Q. split; [reflexivity|].
    unfold Qle, inject_Z; simpl. lia.
  - lia.
  - destruct (round_pos_between n (Zpos d) L K) as (q & -> & Hq); try lia.
    exists q. split; [reflexivity | exact Hq].
Qed.

(** Integers below [2 ^ 53] are doubles. *)
Lemma of_Z_exact (z : Z) :
  0 <= z < 2 ^ 53 -> exists q, of_Z z = Finite q /\ (q == inject_Z z)%Q.
Proof.
  intros Hz. destruct (round_between (inject_Z z) z z) as (q & E & Hq);
    try lia.
  - split; apply Qle_refl.
  - exists q. split; [exact E|]. apply Qle_antisym; tauto.
Qed.


Lemma floor_log2_below (n d j : Z) :
  0 < n -> 0 < d -> 0 <= j -> n < d * 2 ^ (j + 1) -> floor_log2 n d <= j.
Proof.
  intros Hn Hd Hj Hlt. unfold floor_log2.
  set (k := Z.log2 n - Z.log2 d).
  assert (Hk : k <= j + 1).
  { assert (Z.log2 n <= Z.log2 (d * 2 ^ (j + 1)))
      by (apply Z.log2_le_mono; lia).
    rewrite Z.log2_mul_pow2 in H by lia. unfold k. lia. }
  destruct (Z.leb_spec 0 k).
  - destruct (Z.leb_spec (d * 2 ^ k) n); [|lia].
    assert (k < j + 1); [|lia].
    apply (Z.pow_lt_mono_r_iff 2); try lia. nia.
  - destruct (d <=? n * 2 ^ (- k)); lia.
Qed.

Lemma div_nearest_even_error (n d : Z) :
  0 < d -> - d <= 2 * (div_nearest_even n d * d - n) <= d.
Proof.
  intros Hd. unfold div_nearest_even.
  pose proof (Z.div_mod n d ltac:(lia)) as E.
  pose proof (Z.mod_pos_bound n d Hd) as B.
  destruct (Z.compare_spec (2 * (n mod d)) d); try nia.
  destruct (Z.even (n / d)); nia.
Qed.

(** The rounding error below [2 ^ (j + 1)] is at most [2 ^ (j - 53)]. *)
Lemma round_pos_error (n d j : Z) :
  0 < n -> 0 < d -> 0 <= j <= 51 -> n < d * 2 ^ (j + 1) ->
  exists q, round_pos n d = Some q
    /\ (Qabs (q - (n # Z.to_pos d)) <= 1 # Z.to_pos (2 ^ (53 - j)))%Q.
Proof.
  intros Hn Hd Hj Hlt. unfold round_pos.
  assert (He : ulp_exponent n d <= j - 52).
  { unfold ulp_exponent.
    assert (floor_log2 n d <= j) by (apply floor_log2_below; lia). lia. }
  set (e := ulp_exponent n d) in *.
  replace (971 <? e) with false by (symmetry; apply Z.ltb_ge; lia).
  replace (e =? 971) with false by (symmetry; apply Z.eqb_neq; lia).
  cbn [orb andb]. eexists; split; [reflexivity|].
  unfold scale, significand.
  replace (e <? 0) with true by (symmetry; apply Z.ltb_lt; lia).
  assert (Hp : 0 < 2 ^ (- e)) by (apply Z.pow_pos_nonneg; lia).
  assert (HP : 0 < 2 ^ (53 - j)) by (apply Z.pow_pos_nonneg; lia).
  assert (HpP : 2 ^ (53 - j) <= 2 * 2 ^ (- e)).
  { replace (2 * 2 ^ (- e)) with (2 ^ (1 + - e))
      by (rewrite Z.pow_add_r by lia; reflexivity).
    apply Z.pow_le_mono_r; lia. }
  set (p := 2 ^ (- e)) in *. set (P := 2 ^ (53 - j)) in *.
  pose proof (div_nearest_even_error (n * p) d Hd) as Hm.
  set (m := div_nearest_even (n * p) d) in *.
  match goal with
  | |- (Qabs (Qred ?a - ?b) <= _)%Q =>
      assert (E : (Qabs (Qred a - b) == Qabs (a - b))%Q)
        by (apply Qabs_wd, Qplus_comp; [apply Qred_correct | reflexivity]);
      rewrite E; clear E
  end.
  apply Qabs_Qle_condition.
  unfold Qle, Qminus, Qplus, Qopp; simpl.
  rewrite !Pos2Z.inj_mul, !Z2Pos.id by lia.
  split; nia.
Qed.

Lemma round_error (x : Q) (j : Z) :
  0 <= j <= 51 -> (0 <= x)%Q -> (x < inject_Z (2 ^ (j + 1)))%Q ->
  exists q, round x = Finite q
    /\ (Qabs (q - x) <= 1 # Z.to_pos (2 ^ (53 - j)))%Q.
Proof.
  intros Hj H0 Hlt. unfold round.
  destruct x as [n d]. unfold Qle, Qlt, inject_Z in H0, Hlt; simpl in *.
  destruct (Z.compare_spec n 0) as [E|E|E].
  - subst n. exists 0%Q. split; [reflexivity|].
    apply Qabs_Qle_condition. unfold Qle, Qminus, Qplus, Qopp; simpl. lia.
  - lia.
  - destruct (round_pos_error n (Zpos d) j) as (q & -> & Hq); try lia.
    exists q. split; [reflexivity | exact Hq].
Qed.


End DoubleFacts.


Module PercentFacts.
Import Double DoubleFacts Server Spec.

Lemma num_100_value : num_100 = Finite 100.
Proof. reflexivity. Qed.

Lemma Qabs_le_iff (x b : Q) : (Qabs x <= b <-> - b <= x <= b)%Q.
Proof. apply Qabs_Qle_condition. Qed.

(** The ratio of two counts, times 100, in doubles. *)
Lemma percentage_value (a t : Z) :
  0 <= a <= t -> 0 < t < 2 ^ 53 ->
  exists y,
    mul (div (of_Z a) (of_Z t)) num_100 = Finite y
    /\ (0 <= y <= 100)%Q
    /\ (Qabs (y - exact_percentage a t) <= 1 # 2 ^ 45)%Q.
Proof.
  intros Ha Ht.
  destruct (of_Z_exact a) as (qa & -> & Ea); [lia|].
  destruct (of_Z_exact t) as (qt & -> & Et); [lia|].
  assert (Hqt : (0 < qt)%Q).
  { rewrite Et. unfold Qlt, inject_Z; simpl. lia. }
  assert (Hz : is_zero qt = false).
  { unfold is_zero. apply Z.eqb_neq. unfold Qlt in Hqt; simpl in Hqt. lia. }
  unfold div. rewrite Hz.
  assert (Hx : (qa / qt == inject_Z a / inject_Z t)%Q)
    by (rewrite Ea, Et; reflexivity).
  assert (Ht' : (0 < inject_Z t)%Q) by (unfold Qlt, inject_Z; simpl; lia).
  assert (Hx0 : (0 <= qa / qt)%Q).
  { rewrite Hx. apply Qle_shift_div_l; [assumption|].
    rewrite Qmult_0_l. unfold Qle, inject_Z; simpl; lia. }
  assert (Hx1 : (qa / qt <= 1)%Q).
  { rewrite Hx. apply Qle_shift_div_r; [assumption|].
    rewrite Qmult_1_l. unfold Qle, inject_Z; simpl; lia. }
  destruct (round_between (qa / qt) 0 1) as (q1 & E1 & H1); try lia.
  { split; assumption. }
  destruct (round_error (qa / qt) 0) as (q1' & E1' & D1); try lia.
  { assumption. }
  { apply Qle_lt_trans with 1%Q; [assumption|reflexivity]. }
  rewrite E1 in E1'. injection E1' as <-. rewrite E1.
  rewrite num_100_value. unfold mul.
  destruct H1 as [H10 H11]. simpl (2 ^ (53 - 0)) in D1.
  change (inject_Z 0) with 0%Q in H10. change (inject_Z 1) with 1%Q in H11.
  destruct (round_between (q1 * 100) 0 100) as (q2 & E2 & H2); try lia.
  { change (inject_Z 0) with 0%Q. change (inject_Z 100) with 100%Q.
    split; lra. }
  destruct (round_error (q1 * 100) 6) as (q2' & E2' & D2); try lia.
  { lra. }
  { change (inject_Z (2 ^ (6 + 1))) with 128%Q. lra. }
  rewrite E2 in E2'. injection E2' as <-.
  exists q2. split; [exact E2|]. split; [exact H2|].
  unfold exact_percentage. rewrite <- Hx.
  change (inject_Z 100) with 100%Q.
  simpl (2 ^ (53 - 6)) in D2.
  apply Qabs_le_iff in D1. apply Qabs_le_iff in D2. apply Qabs_le_iff.
  set (x := (qa / qt)%Q) in *.
  set (b1 := Z.to_pos (Z.pow_pos 2 53)) in D1. vm_compute in b1. subst b1.
  set (b2 := Z.to_pos (Z.pow_pos 2 47)) in D2. vm_compute in b2. subst b2.
  change (2 ^ 45)%positive with 35184372088832%positive.
  lra.
Qed.

Section WithHost.
Variable host : Host.

(** [toFixed(1)] on a double between 0 and 100. *)
Lemma toFixed1_tenths (y : Q) :
  (0 <= y <= 100)%Q ->
  exists n, toFixed1 host (Finite y) = tenths n
    /\ 0 <= n <= 1000
    /\ (Qabs (inject_Z n / 10 - y) <= 1 # 20)%Q.
Proof.
  intros [H0 H1]. unfold toFixed1.
  assert (Ha : (Qabs y == y)%Q) by (apply Qabs_pos; assumption).
  replace (Qle_bool (inject_Z (10 ^ 21)) (Qabs y)) with false.
  2:{ symmetry. apply not_true_is_false. intros C.
      apply Qle_bool_iff in C. rewrite Ha in C.
      assert (100 < inject_Z (10 ^ 21))%Q by reflexivity. lra. }
  replace (is_neg y) with false.
  2:{ symmetry. unfold is_neg. apply Z.ltb_ge.
      unfold Qle in H0; simpl in H0. lia. }
  set (n := Qfloor (Qabs y * inject_Z 10 + (1 # 2))).
  exists n. split; [reflexivity|].
  pose proof (Qfloor_le (Qabs y * inject_Z 10 + (1 # 2))) as Hl.
  pose proof (Qlt_floor (Qabs y * inject_Z 10 + (1 # 2))) as Hu.
  fold n in Hl, Hu. rewrite Ha in Hl, Hu.
  change (inject_Z 10) with 10%Q in Hl, Hu.
  rewrite inject_Z_plus in Hu. change (inject_Z 1) with 1%Q in Hu.
  split.
  - split.
    + assert (0 < n + 1); [|lia].
      rewrite Zlt_Qlt, inject_Z_plus.
      change (inject_Z 0) with 0%Q. change (inject_Z 1) with 1%Q. lra.
    + assert (n < 1001); [|lia].
      rewrite Zlt_Qlt. change (inject_Z 1001) with 1001%Q. lra.
  - apply Qabs_le_iff.
    assert (E : (inject_Z n / 10 == inject_Z n * (1 # 10))%Q) by reflexivity.
    rewrite E. lra.
Qed.

(** The percentage string of two counts: a value between 0.0 and
    100.0, the nearest tenth of the exact ratio. *)
Lemma percentage_tenths (a t : Z) :
  0 <= a <= t -> 0 < t < 2 ^ 53 ->
  exists n, percentage host a t = tenths n
    /\ 0 <= n <= 1000
    /\ (Qabs (inject_Z n / 10 - exact_percentage a t)
        <= (1 # 20) + (1 # 2 ^ 45))%Q.
Proof.
  intros Ha Ht. unfold percentage.
  destruct (percentage_value a t Ha Ht) as (y & -> & Hy & Dy).
  destruct (toFixed1_tenths y Hy) as (n & -> & Hn & Dn).
  exists n. split; [reflexivity|]. split; [assumption|].
  apply Qabs_le_iff in Dy. apply Qabs_le_iff in Dn. apply Qabs_le_iff.
  lra.
Qed.
End WithHost.

(** Every one-decimal string between 0.0 and 100.0 reads back as a
    number between 0 and 100. *)
Lemma percent_ok_range (s : string) :
  percent_ok s = true -> in_percent_range s.
Proof.
  unfold percent_ok, in_percent_range.
  destruct (parseFloat s) as [q| |]; try discriminate.
  intros H. apply andb_true_iff in H. destruct H as [H1 H2].
  exists q. split; [reflexivity|].
  split; apply Qle_bool_iff; assumption.
Qed.

Lemma tenths_percent_ok_all :
  forallb (fun k => percent_ok (tenths (Z.of_nat k))) (seq 0 1001) = true.
Proof. vm_compute. reflexivity. Qed.

Lemma tenths_in_range (n : Z) :
  0 <= n <= 1000 -> in_percent_range (tenths n).
Proof.
  intros Hn. apply percent_ok_range.
  pose proof tenths_percent_ok_all as H.
  rewrite forallb_forall in H.
  specialize (H (Z.to_nat n)). rewrite Z2Nat.id in H by lia.
  apply H. apply in_seq. lia.
Qed.

End PercentFacts.

Module DoubleOrder.
Import Double DoubleFacts Spec.

Lemma floor_log2_lower (n d : Z) :
  0 < n -> 0 < d ->
  (0 <= floor_log2 n d -> d * 2 ^ floor_log2 n d <= n)
  /\ (floor_log2 n d < 0 -> d <= n * 2 ^ (- floor_log2 n d)).
Proof.
  intros Hn Hd. unfold floor_log2.
  pose proof (Z.log2_spec n Hn) as [Ln Un].
  pose proof (Z.log2_spec d Hd) as [Ld Ud].
  pose proof (Z.log2_nonneg n) as Nn. pose proof (Z.log2_nonneg d) as Nd.
  rewrite <- Z.add_1_r in Un, Ud.
  set (ln := Z.log2 n) in *. set (ld := Z.log2 d) in *.
  clearbody ln ld.
  destruct (Z.leb_spec 0 (ln - ld)) as [Hk|Hk].
  - destruct (Z.leb_spec (d * 2 ^ (ln - ld)) n) as [T|T].
    + split; intros; [assumption | lia].
    + split; intros H.
      * assert (E : 2 ^ ln = 2 ^ (ld + 1) * 2 ^ (ln - ld - 1))
          by (rewrite <- Z.pow_add_r by lia; apply f_equal; lia).
        assert (0 < 2 ^ (ln - ld - 1)) by (apply Z.pow_pos_nonneg; lia).
        nia.
      * assert (ln = ld) by lia.
        replace (- (ln - ld - 1)) with 1 by lia.
        rewrite Z.pow_add_r in Ud by lia. subst ln. simpl (2 ^ 1) in *. lia.
  - destruct (Z.leb_spec d (n * 2 ^ (- (ln - ld)))) as [T|T].
    + split; intros; [lia | assumption].
    + split; intros H; [lia|].
      assert (E : 2 ^ (ld + 1) = 2 ^ ln * 2 ^ (- (ln - ld - 1)))
        by (rewrite <- Z.pow_add_r by lia; apply f_equal; lia).
      assert (0 < 2 ^ (- (ln - ld - 1))) by (apply Z.pow_pos_nonneg; lia).
      nia.
Qed.

Lemma scale_pos (m e : Z) : 0 < m -> (0 < scale m e)%Q.
Proof.
  intros Hm. unfold scale. destruct (e <? 0) eqn:E.
  - rewrite Qred_correct. unfold Qlt; simpl. lia.
  - apply Z.ltb_ge in E.
    assert (0 < 2 ^ e) by (apply Z.pow_pos_nonneg; lia).
    unfold Qlt, inject_Z; simpl. nia.
Qed.

Lemma scale_nonneg (m e : Z) : 0 <= m -> (0 <= scale m e)%Q.
Proof.
  intros Hm. unfold scale. destruct (e <? 0) eqn:E.
  - rewrite Qred_correct. unfold Qle; simpl. lia.
  - apply Z.ltb_ge in E.
    assert (0 < 2 ^ e) by (apply Z.pow_pos_nonneg; lia).
    unfold Qle, inject_Z; simpl. nia.
Qed.

Lemma significand_nonneg (n d e : Z) :
  0 < n -> 0 < d -> 0 <= significand n d e.
Proof.
  intros Hn Hd. unfold significand. destruct (Z.ltb_spec e 0).
  - assert (0 < 2 ^ (- e)) by (apply Z.pow_pos_nonneg; lia).
    apply div_nearest_even_ge; nia.
  - assert (0 < 2 ^ e) by (apply Z.pow_pos_nonneg; lia).
    apply div_nearest_even_ge; nia.
Qed.

Lemma round_pos_nonneg (n d : Z) (q : Q) :
  0 < n -> 0 < d -> round_pos n d = Some q -> (0 <= q)%Q.
Proof.
  intros Hn Hd. unfold round_pos.
  destruct (_ || _); [discriminate|].
  intros H. injection H as <-.
  apply scale_nonneg, significand_nonneg; assumption.
Qed.

(** A rational of at least [2 ^ -1074] does not round to zero. *)
Lemma round_pos_positive (n d : Z) (q : Q) :
  0 < n -> 0 < d -> d <= n * 2 ^ 1074 ->
  round_pos n d = Some q -> (0 < q)%Q.
Proof.
  intros Hn Hd Hx. unfold round_pos.
  destruct (_ || _); [discriminate|].
  intros H. injection H as <-.
  apply scale_pos.
  assert (1 <= significand n d (ulp_exponent n d)); [|lia].
  unfold significand, ulp_exponent.
  destruct (floor_log2_lower n d Hn Hd) as [Lp Ln].
  set (f := floor_log2 n d) in *.
  destruct (Z.max_spec f (-1022)) as [[Hm ->]|[Hm ->]].
  - (* subnormal *)
    replace (-1022 - 52 <? 0) with true by reflexivity.
    apply div_nearest_even_ge; [assumption|].
    replace (- (-1022 - 52)) with 1074 by reflexivity. lia.
  - destruct (Z.ltb_spec (f - 52) 0) as [He|He].
    + apply div_nearest_even_ge; [assumption|].
      assert (0 < 2 ^ (- (f - 52))) by (apply Z.pow_pos_nonneg; lia).
      destruct (Z.leb_spec 0 f) as [Hf|Hf].
      * specialize (Lp Hf).
        assert (0 < 2 ^ f) by (apply Z.pow_pos_nonneg; lia). nia.
      * specialize (Ln Hf).
        assert (2 ^ (- f) <= 2 ^ (- (f - 52)))
          by (apply Z.pow_le_mono_r; lia).
        nia.
    + assert (0 < 2 ^ (f - 52)) by (apply Z.pow_pos_nonneg; lia).
      apply div_nearest_even_ge; [nia|].
      assert (2 ^ (f - 52) <= 2 ^ f) by (apply Z.pow_le_mono_r; lia).
      specialize (Lp ltac:(lia)). nia.
Qed.

Lemma scale_on_grid (m e : Z) : -1074 <= e -> on_grid (scale m e).
Proof.
  intros He. unfold scale, on_grid.
  assert (P : 0 < 2 ^ 1074) by (apply Z.pow_pos_nonneg; lia).
  destruct (Z.ltb_spec e 0) as [H|H].
  - exists (m * 2 ^ (1074 + e)). rewrite Qred_correct.
    assert (0 < 2 ^ (- e)) by (apply Z.pow_pos_nonneg; lia).
    assert (E : 2 ^ 1074 = 2 ^ (1074 + e) * 2 ^ (- e))
      by (rewrite <- Z.pow_add_r by lia; apply f_equal; lia).
    unfold Qeq; cbn [Qnum Qden]. rewrite !Z2Pos.id by lia. rewrite E. ring.
  - exists (m * 2 ^ e * 2 ^ 1074).
    unfold Qeq, inject_Z; cbn [Qnum Qden]. rewrite !Z2Pos.id by lia. ring.
Qed.

Lemma round_pos_on_grid (n d : Z) (q : Q) :
  round_pos n d = Some q -> on_grid q.
Proof.
  unfold round_pos. destruct (_ || _); [discriminate|].
  intros H. injection H as <-. apply scale_on_grid.
  unfold ulp_exponent. lia.
Qed.

Lemma Finite_inj (p q : Q) : Finite p = Finite q -> p = q.
Proof. intros H. injection H as H. exact H. Qed.

Lemma round_on_grid (x q : Q) : round x = Finite q -> on_grid q.
Proof.
  unfold round. destruct (Z.compare_spec (Qnum x) 0) as [C|C|C].
  - intros H. injection H as <-. exists 0. reflexivity.
  - destruct (round_pos _ _) as [q'|] eqn:E; [|discriminate].
    intros H. apply Finite_inj in H.
    destruct (round_pos_on_grid _ _ _ E) as [k Hk].
    exists (- k). rewrite <- H.
    apply Qeq_trans with (- q')%Q; [apply Qred_correct|].
    change (- k # Z.to_pos (2 ^ 1074))%Q with (- (k # Z.to_pos (2 ^ 1074)))%Q.
    apply Qopp_comp. exact Hk.
  - destruct (round_pos _ _) as [q'|] eqn:E; [|discriminate].
    intros H. injection H as <-. exact (round_pos_on_grid _ _ _ E).
Qed.

(** The sign of a difference of two doubles survives its rounding. *)
Lemma sub_positive (p q : Q) :
  on_grid p -> on_grid q ->
  gtb (sub (Finite q) (Finite p)) num_0 = true <-> (p < q)%Q.
Proof.
  intros [kp Hp] [kq Hq]. unfold sub, gtb, num_0.
  assert (HG : Z.pos (Z.to_pos (2 ^ 1074)) = 2 ^ 1074)
    by (apply Z2Pos.id, Z.pow_pos_nonneg; lia).
  set (G := Z.to_pos (2 ^ 1074)) in *. clearbody G.
  assert (Hd : (q - p == (kq - kp) # G)%Q).
  { rewrite Hp, Hq. unfold Qeq, Qminus, Qplus, Qopp; cbn [Qnum Qden].
    rewrite !Pos2Z.inj_mul. ring. }
  assert (Hlt : (p < q)%Q <-> 0 < kq - kp).
  { rewrite Hp, Hq. unfold Qlt; cbn [Qnum Qden].
    pose proof (Pos2Z.is_pos G). nia. }
  rewrite Hlt. clear Hlt.
  unfold Qeq in Hd; cbn [Qnum Qden] in Hd.
  pose proof (Pos2Z.is_pos G) as PG.
  pose proof (Pos2Z.is_pos (Qden (q - p))) as PD.
  assert (Hs : 0 < kq - kp <-> 0 < Qnum (q - p)) by nia.
  rewrite Hs.
  unfold round.
  destruct (Z.compare_spec (Qnum (q - p)) 0) as [E|E|E].
  - cbn [ltb]. split; [discriminate | lia].
  - destruct (round_pos _ _) as [q'|] eqn:R.
    + assert ((0 <= q')%Q) by (apply round_pos_nonneg in R; lia || assumption).
      unfold ltb. destruct (Qcompare_spec 0 (Qred (- q'))) as [C|C|C].
      * split; [discriminate | lia].
      * assert (0 < - q')%Q
          by (apply Qlt_le_trans with (Qred (- q')); [assumption|];
              rewrite Qred_correct; apply Qle_refl).
        lra.
      * split; [discriminate | lia].
    + cbn [ltb]. split; [discriminate | lia].
  - destruct (round_pos _ _) as [q'|] eqn:R.
    + assert ((0 < q')%Q).
      { apply round_pos_positive in R; try lia; try assumption.
        rewrite <- HG. assert (1 <= kq - kp) by lia. nia. }
      unfold ltb. destruct (Qcompare_spec 0 q') as [C|C|C].
      * rewrite <- C in H. lra.
      * tauto.
      * lra.
    + cbn [ltb]. tauto.
Qed.

End DoubleOrder.

Module SortFacts.
Section Generic.
Context {A : Type} (compare : A -> A -> number).

Lemma sort_insert_perm (x : A) (l : list A) :
  Permutation (sort_insert compare x l) (x :: l).
Proof.
  induction l as [|y l IH]; cbn [sort_insert].
  - apply Permutation_refl.
  - destruct (Double.gtb (compare x y) num_0).
    + eapply perm_trans; [apply perm_skip, IH | apply perm_swap].
    + apply Permutation_refl.
Qed.

Lemma sort_perm (l : list A) : Permutation (sort compare l) l.
Proof.
  induction l as [|x l IH]; cbn [sort fold_right].
  - apply perm_nil.
  - eapply perm_trans; [apply sort_insert_perm|].
    apply perm_skip, IH.
Qed.

(** When the comparator is the order of a rational key on the elements
    that satisfy [good], the result is sorted by that key. *)
Variables (key : A -> Q) (good : A -> Prop).
Hypothesis compare_key : forall x y,
  good x -> good y ->
  (Double.gtb (compare x y) num_0 = true <-> (key y < key x)%Q).

Lemma sort_insert_sorted (x : A) (l : list A) :
  good x -> Forall good l ->
  StronglySorted (fun a b => (key a <= key b)%Q) l ->
  StronglySorted (fun a b => (key a <= key b)%Q) (sort_insert compare x l).
Proof.
  intros Hx Hl Hs. induction Hs as [|y l Hs IH Hy]; cbn [sort_insert].
  - repeat constructor.
  - inversion Hl as [|? ? Gy Gl]; subst.
    destruct (Double.gtb (compare x y) num_0) eqn:E.
    + apply compare_key in E; try assumption.
      constructor; [apply IH; assumption|].
      apply (Permutation_Forall (Permutation_sym (sort_insert_perm x l))).
      constructor; [lra | assumption].
    + assert (Hxy : (key x <= key y)%Q).
      { destruct (Qlt_le_dec (key y) (key x)) as [C|C]; [|assumption].
        apply compare_key in C; try assumption. congruence. }
      constructor; [constructor; assumption|].
      constructor; [assumption|].
      eapply Forall_impl; [|exact Hy].
      intros z Hz. cbv beta in *. lra.
Qed.

Lemma sort_sorted (l : list A) :
  Forall good l ->
  StronglySorted (fun a b => (key a <= key b)%Q) (sort compare l).
Proof.
  induction l as [|x l IH]; intros Hl; cbn [sort fold_right].
  - constructor.
  - inversion Hl; subst. apply sort_insert_sorted; try assumption.
    + apply (Permutation_Forall (Permutation_sym (sort_perm l))).
      assumption.
    + apply IH. assumption.
Qed.
End Generic.
End SortFacts.

Module ObjFacts.
Import Obj.

Section WithValues.
Context {A : Type}.

Lemma own_replace (k : string) (v : A) (o : object A) :
  own k o <> None -> own k (replace k v o) = Some v.
Proof.
  induction o as [|[k' v'] o IH]; cbn [own replace]; [congruence|].
  destruct (String.eqb k k') eqn:E; cbn [own].
  - rewrite String.eqb_refl. reflexivity.
  - rewrite E. exact IH.
Qed.

Lemma own_add_index (i : N) (k : string) (v : A) (o : object A) :
  own k o = None -> own k (add_index i k v o) = Some v.
Proof.
  induction o as [|[k' v'] o IH]; cbn [own add_index].
  - rewrite String.eqb_refl. reflexivity.
  - destruct (String.eqb k k') eqn:E; [discriminate|]. intros H.
    destruct (array_index k') as [j|].
    + destruct (j <? i)%N; cbn [own].
      * rewrite E. apply IH, H.
      * rewrite String.eqb_refl. reflexivity.
    + cbn [own]. rewrite String.eqb_refl. reflexivity.
Qed.

Lemma own_append (k : string) (v : A) (o : object A) :
  own k o = None -> own k (o ++ [(k, v)])%list = Some v.
Proof.
  induction o as [|[k' v'] o IH]; cbn [own app].
  - rewrite String.eqb_refl. reflexivity.
  - destruct (String.eqb k k'); [discriminate | exact IH].
Qed.

Lemma own_set (k : string) (v : A) (o : object A) :
  String.eqb k "__proto__" = false -> own k (set k v o) = Some v.
Proof.
  intros P. unfold set. destruct (own k o) eqn:E.
  - apply own_replace. congruence.
  - rewrite P. destruct (array_index k).
    + apply own_add_index, E.
    + apply own_append, E.
Qed.

Lemma own_update (k : string) (f : A -> A) (o : object A) :
  own k o <> None -> own k (update k f o) <> None.
Proof.
  intros H. unfold update. destruct (own k o) eqn:E; [|congruence].
  rewrite own_replace by congruence. discriminate.
Qed.

Lemma own_update_none (k : string) (f : A -> A) (o : object A) :
  own k o = None -> own k (update k f o) = None.
Proof. intros H. unfold update. rewrite H. exact H. Qed.

Lemma own_replace_other (k k' : string) (v : A) (o : object A) :
  String.eqb k k' = false -> own k (replace k' v o) = own k o.
Proof.
  intros N. induction o as [|[k2 v2] o IH]; cbn [own replace]; [reflexivity|].
  destruct (String.eqb k' k2) eqn:E; cbn [own].
  - apply String.eqb_eq in E. subst k2. rewrite N. reflexivity.
  - rewrite IH. reflexivity.
Qed.

Lemma own_add_index_other (i : N) (k k' : string) (v : A) (o : object A) :
  String.eqb k k' = false -> own k (add_index i k' v o) = own k o.
Proof.
  intros N. induction o as [|[k2 v2] o IH]; cbn [own add_index].
  - rewrite N. reflexivity.
  - destruct (array_index k2) as [j|].
    + destruct (j <? i)%N; cbn [own].
      * rewrite IH. reflexivity.
      * rewrite N. reflexivity.
    + cbn [own]. rewrite N. reflexivity.
Qed.

Lemma own_append_other (k k' : string) (v : A) (o : object A) :
  String.eqb k k' = false -> own k (o ++ [(k', v)])%list = own k o.
Proof.
  intros N. induction o as [|[k2 v2] o IH]; cbn [own app].
  - rewrite N. reflexivity.
  - rewrite IH. reflexivity.
Qed.

Lemma own_set_other (k k' : string) (v : A) (o : object A) :
  String.eqb k k' = false -> own k (set k' v o) = own k o.
Proof.
  intros N. unfold set. destruct (own k' o).
  - apply own_replace_other, N.
  - destruct (String.eqb k' "__proto__"); [reflexivity|].
    destruct (array_index k').
    + apply own_add_index_other, N.
    + apply own_append_other, N.
Qed.

Lemma own_update_other (k k' : string) (f : A -> A) (o : object A) :
  own k o = None -> own k (update k' f o) = None.
Proof.
  intros H. unfold update. destruct (own k' o) eqn:E; [|exact H].
  destruct (String.eqb k k') eqn:N.
  - apply String.eqb_eq in N. subst k'. congruence.
  - rewrite own_replace_other by exact N. exact H.
Qed.
End WithValues.

Lemma inherited_proto (k : string) :
  inherited k = false -> String.eqb k "__proto__" = false.
Proof.
  unfold inherited, prototype_keys. cbn [existsb].
  intros H. repeat (apply orb_false_elim in H; destruct H as [? H]).
  repeat match goal with
         | X : String.eqb k "__proto__" = false |- _ => exact X
         | X : (_ || _) = false |- _ => apply orb_false_elim in X; destruct X
         end.
Qed.
End ObjFacts.

Module ThrowFacts.
Import Obj ObjFacts Server Spec.

Section WithHost.
Variable host : Host.

Lemma ensure_own {A : Type} (k : string) (fresh : A) (o : object A) :
  inherited k = false -> own k (ensure k fresh o) <> None.
Proof.
  intros H. unfold ensure, missing. destruct (own k o) eqn:E.
  - rewrite E. discriminate.
  - rewrite H. cbn [negb]. rewrite own_set by (apply inherited_proto, H).
    discriminate.
Qed.

Lemma ensure_inherited {A : Type} (k : string) (fresh : A) (o : object A) :
  inherited k = true -> own k o = None -> own k (ensure k fresh o) = None.
Proof.
  intros H E. unfold ensure, missing. rewrite E, H. exact E.
Qed.

Lemma processTicket_passable (an : analysis) (index : nat)
    (ticket : object jsval) :
  clean_agents an ->
  (exists an', processTicket host an index ticket = Returned an')
  <-> passable host index ticket = true.
Proof.
  intros Hc. unfold processTicket, passable.
  destruct (createdDate_of host index ticket) as [| | | |s|];
    try (split; [intros [an' H]; discriminate | discriminate]).
  cbn [agents map_groups].
  destruct (inherited (agent_of host ticket)) eqn:I; cbn [negb].
  - rewrite own_update_none.
    + split; [intros [an' H]; discriminate | discriminate].
    + apply ensure_inherited; [exact I | apply Hc, I].
  - pose proof (own_update (agent_of host ticket) agent_total_incr _
                  (ensure_own (agent_of host ticket) new_agent
                     (agents an) I)) as H.
    destruct (own _ _); [|congruence].
    split; [reflexivity | intros _; eexists; reflexivity].
Qed.

Lemma ensure_clean {A : Type} (k k' : string) (fresh : A) (o : object A) :
  inherited k = true -> own k o = None -> own k (ensure k' fresh o) = None.
Proof.
  intros I E. unfold ensure, missing.
  destruct (own k' o) eqn:E'; [exact E|].
  destruct (inherited k') eqn:I'; cbn [negb]; [exact E|].
  rewrite own_set_other; [exact E|].
  destruct (String.eqb k k') eqn:N; [|reflexivity].
  apply String.eqb_eq in N. subst k'. congruence.
Qed.

Lemma firstResponse_agents ticket a c p dk dw mk an k :
  own k (agents an) = None ->
  own k (agents (firstResponse host ticket a c p dk dw mk an)) = None.
Proof.
  intros H. unfold firstResponse.
  destruct (truthy _); [|exact H].
  destruct (classify _ _); cbn [agents map_groups time_violation
    set_firstResponseSLA]; try exact H.
  apply own_update_other, H.
Qed.

Lemma resolution_agents ticket a c p dk dw mk an k :
  own k (agents an) = None ->
  own k (agents (resolution host ticket a c p dk dw mk an)) = None.
Proof.
  intros H. unfold resolution.
  destruct (truthy _); [|exact H].
  destruct (classify _ _); cbn [agents map_groups time_violation
    set_resolutionSLA]; try exact H.
  apply own_update_other, H.
Qed.

Lemma processTicket_clean (an an' : analysis) (index : nat)
    (ticket : object jsval) :
  clean_agents an ->
  processTicket host an index ticket = Returned an' ->
  clean_agents an'.
Proof.
  intros Hc. unfold processTicket.
  destruct (createdDate_of host index ticket); try discriminate.
  destruct (own _ _); [|discriminate].
  intros H. injection H as <-. intros k I.
  apply resolution_agents, firstResponse_agents.
  cbn [agents map_groups].
  apply own_update_other, ensure_clean; [exact I | apply Hc, I].
Qed.

Lemma forEach_passable (tickets : list (object jsval)) :
  forall index an,
    clean_agents an ->
    (exists an', forEach host tickets index an = Returned an')
    <-> all_passable host index tickets = true.
Proof.
  induction tickets as [|ticket rest IH]; intros index an Hc;
    cbn [forEach all_passable].
  - split; [reflexivity | intros _; eexists; reflexivity].
  - pose proof (processTicket_passable an index ticket Hc) as P.
    destruct (processTicket host an index ticket) as [an1|e] eqn:E;
      cbn [bind].
    + assert (Hp : passable host index ticket = true)
        by (apply P; eexists; reflexivity).
      rewrite Hp. cbn [andb].
      apply IH. exact (processTicket_clean _ _ _ _ Hc E).
    + split; [intros [an' H]; discriminate|].
      intros H. apply andb_true_iff in H. destruct H as [H _].
      apply P in H. destruct H as [an' H]. discriminate.
Qed.

Lemma initial_clean (n : nat) : clean_agents (initial n).
Proof. intros k _. reflexivity. Qed.
End WithHost.
End ThrowFacts.

Import Obj ObjFacts Server Spec ThrowFacts.

Module SlaFacts.
Import Server Spec.

Section WithHost.
Variable host : Host.

Lemma firstResponse_buckets ticket a c p dk dw mk an :
  firstResponseSLA (firstResponse host ticket a c p dk dw mk an)
  = bucket_step host (find_status ticket firstResponseColumns)
      (firstResponseSLA an)
  /\ resolutionSLA (firstResponse host ticket a c p dk dw mk an)
     = resolutionSLA an.
Proof.
  unfold firstResponse, bucket_step.
  destruct (truthy _); [|split; reflexivity].
  destruct (classify _ _); split; reflexivity.
Qed.

Lemma resolution_buckets ticket a c p dk dw mk an :
  resolutionSLA (resolution host ticket a c p dk dw mk an)
  = bucket_step host (find_status ticket resolutionColumns)
      (resolutionSLA an)
  /\ firstResponseSLA (resolution host ticket a c p dk dw mk an)
     = firstResponseSLA an.
Proof.
  unfold resolution, bucket_step.
  destruct (truthy _); [|split; reflexivity].
  destruct (classify _ _); split; reflexivity.
Qed.

Lemma processTicket_buckets an index ticket an' :
  processTicket host an index ticket = Returned an' ->
  firstResponseSLA an'
  = bucket_step host (find_status ticket firstResponseColumns)
      (firstResponseSLA an)
  /\ resolutionSLA an'
     = bucket_step host (find_status ticket resolutionColumns)
         (resolutionSLA an).
Proof.
  unfold processTicket.
  destruct (createdDate_of host index ticket);
    try discriminate.
  destruct (Obj.own _ _); try discriminate.
  intros H. injection H as <-.
  match goal with
  | |- context [resolution host ?t ?a ?c ?p ?dk ?dw ?mk ?x] =>
      destruct (resolution_buckets t a c p dk dw mk x) as [-> ->]
  end.
  match goal with
  | |- context [firstResponse host ?t ?a ?c ?p ?dk ?dw ?mk ?x] =>
      destruct (firstResponse_buckets t a c p dk dw mk x) as [-> ->]
  end.
  split; reflexivity.
Qed.

Lemma bucket_step_conserved status b :
  conserved b -> conserved (bucket_step host status b).
Proof.
  unfold conserved, bucket_step. intros (H1 & H2 & H3).
  destruct (truthy status); [|tauto].
  destruct (classify host status); simpl; lia.
Qed.

Lemma bucket_step_total status b :
  total b <= total (bucket_step host status b) <= total b + 1.
Proof.
  unfold bucket_step.
  destruct (truthy status); [|lia].
  destruct (classify host status); simpl; lia.
Qed.

Lemma bucket_step_percentages status b :
  compliancePercentage (bucket_step host status b) = compliancePercentage b
  /\ violationPercentage (bucket_step host status b) = violationPercentage b.
Proof.
  unfold bucket_step.
  destruct (truthy status); [|tauto].
  destruct (classify host status); split; reflexivity.
Qed.

Lemma tallied_step k status b :
  tallied k b -> tallied (k + 1) (bucket_step host status b).
Proof.
  intros (Hc & Ht & Hp & Hv). unfold tallied.
  pose proof (bucket_step_total status b).
  pose proof (bucket_step_percentages status b) as [-> ->].
  repeat split; try assumption; try lia.
  all: try (apply bucket_step_conserved; assumption).
Qed.

Lemma forEach_tallied tickets : forall index an an' k,
  forEach host tickets index an = Returned an' ->
  tallied k (firstResponseSLA an) -> tallied k (resolutionSLA an) ->
  tallied (k + Z.of_nat (length tickets)) (firstResponseSLA an')
  /\ tallied (k + Z.of_nat (length tickets)) (resolutionSLA an').
Proof.
  induction tickets as [|ticket rest IH]; intros index an an' k.
  - simpl. intros H. injection H as <-. rewrite Z.add_0_r. tauto.
  - cbn [forEach bind]. destruct (processTicket host an index ticket) as [an1|] eqn:E;
      [|discriminate].
    cbn [bind]. intros H H1 H2.
    apply processTicket_buckets in E. destruct E as [E1 E2].
    replace (k + Z.of_nat (length (ticket :: rest)))
      with ((k + 1) + Z.of_nat (length rest))
      by (cbn [length]; lia).
    apply (IH _ _ _ _ H).
    + rewrite E1. apply tallied_step. assumption.
    + rewrite E2. apply tallied_step. assumption.
Qed.

End WithHost.
End SlaFacts.

Module AnalyzerFacts.
Import Double DoubleFacts PercentFacts Server Spec SlaFacts.

Section WithHost.
Variable host : Host.

Lemma analyze_returns data an :
  analyzeSLAPerformance host data = Returned (Some an) ->
  exists an0,
    forEach host (rows_of data) 0 (initial (length (rows_of data)))
    = Returned an0
    /\ an = finish host an0.
Proof.
  unfold analyzeSLAPerformance.
  destruct data as [v|[|ticket rest]].
  - destruct (truthy v); discriminate.
  - discriminate.
  - cbn [rows_of].
    destruct (forEach host (ticket :: rest) 0 _) as [an0|]; [|discriminate].
    cbn [bind]. intros H. injection H as <-. exists an0. split; reflexivity.
Qed.

Lemma finish_buckets an :
  firstResponseSLA (finish host an)
  = finish_bucket host (firstResponseSLA an)
  /\ resolutionSLA (finish host an)
     = finish_bucket host (resolutionSLA an).
Proof. split; reflexivity. Qed.

Lemma initial_tallied n : tallied 0 (firstResponseSLA (initial n))
                          /\ tallied 0 (resolutionSLA (initial n)).
Proof. unfold tallied, conserved; simpl; repeat split; lia. Qed.

(** Both buckets of a returned analysis are the tallies of the loop,
    with their percentages filled in. *)
Lemma analyze_buckets data an b :
  analyzeSLAPerformance host data = Returned (Some an) ->
  b = firstResponseSLA an \/ b = resolutionSLA an ->
  exists b0,
    tallied (Z.of_nat (length (rows_of data))) b0
    /\ b = finish_bucket host b0.
Proof.
  intros H Hb. apply analyze_returns in H. destruct H as (an0 & Hloop & ->).
  destruct (initial_tallied (length (rows_of data))) as [I1 I2].
  destruct (forEach_tallied host _ _ _ _ _ Hloop I1 I2) as [T1 T2].
  rewrite Z.add_0_l in T1, T2.
  destruct (finish_buckets an0) as [F1 F2].
  destruct Hb as [-> | ->].
  - exists (firstResponseSLA an0). split; assumption.
  - exists (resolutionSLA an0). split; assumption.
Qed.

Lemma finish_bucket_counts b :
  violations (finish_bucket host b) = violations b
  /\ compliance (finish_bucket host b) = compliance b
  /\ total (finish_bucket host b) = total b.
Proof. unfold finish_bucket. destruct (0 <? total b); repeat split. Qed.

Lemma finish_bucket_percentages b :
  0 < total b ->
  compliancePercentage (finish_bucket host b)
  = percentage host (total b - violations b) (total b)
  /\ violationPercentage (finish_bucket host b)
     = percentage host (violations b) (total b).
Proof.
  intros H. unfold finish_bucket.
  replace (0 <? total b) with true by (symmetry; apply Z.ltb_lt; lia).
  split; reflexivity.
Qed.

Lemma finish_bucket_empty k b :
  tallied k b -> total b = 0 ->
  compliancePercentage (finish_bucket host b) = "0"
  /\ violationPercentage (finish_bucket host b) = "0".
Proof.
  intros (_ & _ & Hc & Hv) H. unfold finish_bucket. rewrite H. simpl.
  split; assumption.
Qed.

End WithHost.
End AnalyzerFacts.

Import Double DoubleFacts PercentFacts Server Spec SlaFacts AnalyzerFacts.

Module InsightFacts.
Import Double DoubleFacts DoubleOrder Server Spec SortFacts.

Lemma is_double_on_grid (x : number) :
  is_double x -> exists q, x = Finite q /\ on_grid q.
Proof.
  destruct x as [q| |]; cbn [is_double]; try contradiction.
  intros H. exists q. split; [reflexivity|]. exact (round_on_grid _ _ H).
Qed.

(** The comparator of the agent ranking orders by compliance rate. *)
Lemma rate_compare (x y : agent_performance) :
  is_double (complianceRate x) -> is_double (complianceRate y) ->
  gtb (sub (complianceRate y) (complianceRate x)) num_0 = true
  <-> (- rate_value y < - rate_value x)%Q.
Proof.
  intros Hx Hy. unfold rate_value.
  destruct (is_double_on_grid _ Hx) as (qx & -> & Gx).
  destruct (is_double_on_grid _ Hy) as (qy & -> & Gy).
  rewrite (sub_positive qx qy Gx Gy). split; intros; lra.
Qed.

Section WithHost.
Variable host : Host.

Lemma ranking_perm (an : analysis) :
  Permutation (agentPerformance host an) (agent_entries host an).
Proof. apply sort_perm. Qed.

Lemma ranking_descending (an : analysis) :
  Forall (fun a => is_double (complianceRate a)) (agent_entries host an) ->
  descending (agentPerformance host an).
Proof.
  intros Hd. unfold descending, agentPerformance.
  pose proof (sort_sorted
                (fun a b => sub (complianceRate b) (complianceRate a))
                (fun a => (- rate_value a)%Q)
                (fun a => is_double (complianceRate a))
                rate_compare _ Hd) as Hs.
  fold (agent_entries host an) in Hs |- *.
  assert (Hg : Forall (fun a => is_double (complianceRate a))
                 (sort (fun a b => sub (complianceRate b) (complianceRate a))
                    (agent_entries host an))).
  { apply (Permutation_Forall (Permutation_sym (sort_perm _ _))).
    assumption. }
  induction Hs as [|a l Hs IH Ha]; constructor.
  - apply IH. inversion Hg; assumption.
  - inversion Hg as [|? ? Ga Gl]; subst.
    rewrite Forall_forall in Ha, Gl |- *. intros b Hb.
    specialize (Ha b Hb). specialize (Gl b Hb). cbv beta in Ha.
    unfold rate_value in Ha.
    destruct (complianceRate a) as [qa| |]; try contradiction.
    destruct (complianceRate b) as [qb| |]; try contradiction.
    cbn [ltb]. destruct (Qcompare_spec qa qb); try reflexivity. lra.
Qed.

Lemma insights_lists (an : analysis) :
  topPerformers (generatePerformanceInsights host an)
  = firstn 3 (agentPerformance host an)
  /\ improvementAreas (generatePerformanceInsights host an)
     = firstn 3 (filter below_90 (agentPerformance host an)).
Proof. split; reflexivity. Qed.

(** The agents of a returned analysis: the loop's entries, finished. *)
Lemma finish_agents (an : analysis) :
  agents (finish host an) = finish_all (finish_agent host) (agents an).
Proof. reflexivity. Qed.
End WithHost.
End InsightFacts.

Module KeyFacts.
Import Obj ObjFacts.

Section WithValues.
Context {A : Type}.

Lemma own_None_keys (k : string) (o : object A) :
  own k o = None <-> ~ In k (keys o).
Proof.
  induction o as [|[k' v'] o IH]; cbn [own keys map fst In].
  - tauto.
  - destruct (String.eqb_spec k k') as [E|N].
    + split; [discriminate | intros H; exfalso; apply H; left; congruence].
    + rewrite IH. unfold keys. split.
      * intros H [C|C]; [congruence | tauto].
      * tauto.
Qed.

Lemma keys_replace (k : string) (v : A) (o : object A) :
  keys (replace k v o) = keys o.
Proof.
  induction o as [|[k' v'] o IH]; cbn [replace keys map fst]; [reflexivity|].
  destruct (String.eqb_spec k k') as [E|N]; cbn [map fst].
  - rewrite E. reflexivity.
  - f_equal. exact IH.
Qed.

Lemma keys_add_index (i : N) (k : string) (v : A) (o : object A) :
  Permutation (keys (add_index i k v o)) (k :: keys o).
Proof.
  induction o as [|[k' v'] o IH]; cbn [add_index keys map fst].
  - apply Permutation_refl.
  - destruct (array_index k') as [j|]; [|apply Permutation_refl].
    destruct (j <? i)%N; cbn [map fst]; [|apply Permutation_refl].
    eapply perm_trans; [apply perm_skip, IH | apply perm_swap].
Qed.

Lemma keys_update (k : string) (f : A -> A) (o : object A) :
  keys (update k f o) = keys o.
Proof.
  unfold update. destruct (own k o); [apply keys_replace | reflexivity].
Qed.

Lemma NoDup_keys_set (k : string) (v : A) (o : object A) :
  NoDup (keys o) -> NoDup (keys (set k v o)).
Proof.
  intros H. unfold set. destruct (own k o) eqn:E.
  - rewrite keys_replace. exact H.
  - destruct (String.eqb k "__proto__"); [exact H|].
    apply own_None_keys in E.
    destruct (array_index k).
    + apply (Permutation_NoDup (Permutation_sym (keys_add_index _ _ _ _))).
      constructor; assumption.
    + unfold keys. rewrite map_app. cbn [map fst].
      apply (Permutation_NoDup (Permutation_cons_append _ _)).
      constructor; assumption.
Qed.

Lemma own_update_same (k : string) (f : A -> A) (o : object A) (a : A) :
  own k o = Some a -> own k (update k f o) = Some (f a).
Proof.
  intros H. unfold update. rewrite H. apply own_replace. congruence.
Qed.

Lemma own_update_diff (k k' : string) (f : A -> A) (o : object A) :
  String.eqb k k' = false -> own k (update k' f o) = own k o.
Proof.
  intros N. unfold update. destruct (own k' o); [|reflexivity].
  apply own_replace_other, N.
Qed.

Lemma In_own (k : string) (a : A) (o : object A) :
  NoDup (keys o) -> In (k, a) o -> own k o = Some a.
Proof.
  induction o as [|[k' v'] o IH]; cbn [keys map fst own In]; [tauto|].
  intros Hn [E|Hin].
  - injection E as -> ->. rewrite String.eqb_refl. reflexivity.
  - inversion Hn as [|? ? Hk Hn']; subst.
    destruct (String.eqb_spec k k') as [E|N].
    + subst k'. exfalso. apply Hk.
      change k with (fst (k, a)). apply in_map, Hin.
    + apply IH; assumption.
Qed.
End WithValues.
End KeyFacts.

Module AgentFacts.
Import Double DoubleFacts PercentFacts Obj ObjFacts KeyFacts Server Spec
       ThrowFacts AnalyzerFacts.

Section WithHost.
Variable host : Host.

Lemma firstResponse_agents_eq ticket a c p dk dw mk an :
  agents (firstResponse host ticket a c p dk dw mk an) = agents an
  \/ agents (firstResponse host ticket a c p dk dw mk an)
     = update a agent_response_incr (agents an).
Proof.
  unfold firstResponse. destruct (truthy _); [|left; reflexivity].
  destruct (classify _ _); [right | left | left]; reflexivity.
Qed.

Lemma resolution_agents_eq ticket a c p dk dw mk an :
  agents (resolution host ticket a c p dk dw mk an) = agents an
  \/ agents (resolution host ticket a c p dk dw mk an)
     = update a agent_resolution_incr (agents an).
Proof.
  unfold resolution. destruct (truthy _); [|left; reflexivity].
  destruct (classify _ _); [right | left | left]; reflexivity.
Qed.

Lemma ensure_keys {A : Type} (k : string) (fresh : A) (o : object A) :
  NoDup (keys o) -> NoDup (keys (ensure k fresh o)).
Proof.
  intros H. unfold ensure. destruct (missing o k); [|exact H].
  apply NoDup_keys_set, H.
Qed.

Lemma ensure_own_same {A : Type} (k : string) (fresh a : A) (o : object A) :
  own k (ensure k fresh o) = Some a ->
  own k o = Some a \/ (own k o = None /\ a = fresh).
Proof.
  unfold ensure, missing. destruct (own k o) eqn:E.
  - rewrite E. tauto.
  - destruct (inherited k) eqn:I; cbn [negb].
    + rewrite E. discriminate.
    + rewrite own_set by (apply inherited_proto, I).
      intros H. injection H as <-. tauto.
Qed.

Lemma ensure_own_diff {A : Type} (k k' : string) (fresh : A) (o : object A) :
  String.eqb k k' = false -> own k (ensure k' fresh o) = own k o.
Proof.
  intros N. unfold ensure. destruct (missing o k'); [|reflexivity].
  apply own_set_other, N.
Qed.

(** What one ticket does to [analysis.agents]. *)
Lemma processTicket_agents (an an' : analysis) (index : nat)
    (ticket : object jsval) :
  processTicket host an index ticket = Returned an' ->
  let ag := agent_of host ticket in
  let o1 := update ag agent_total_incr (ensure ag new_agent (agents an)) in
  own ag o1 <> None
  /\ exists o2,
       (o2 = o1 \/ o2 = update ag agent_response_incr o1)
       /\ (agents an' = o2
           \/ agents an' = update ag agent_resolution_incr o2).
Proof.
  unfold processTicket.
  destruct (createdDate_of host index ticket); try discriminate.
  cbn [agents map_groups].
  destruct (own _ _) eqn:E1; [|discriminate].
  intros H. injection H as <-. cbv zeta.
  split; [congruence|].
  match goal with
  | |- context [resolution host ?t ?a ?c ?p ?dk ?dw ?mk ?y] =>
      pose proof (resolution_agents_eq t a c p dk dw mk y) as R;
      match y with
      | firstResponse host _ _ _ _ _ _ _ ?x =>
          pose proof (firstResponse_agents_eq t a c p dk dw mk x) as F
      end
  end.
  cbn [agents map_groups] in F.
  eexists. split; [exact F | exact R].
Qed.

(** One ticket keeps the agents counted. *)
Lemma processTicket_agents_counted (an an' : analysis) (index : nat)
    (ticket : object jsval) (k : Z) :
  0 <= k ->
  agents_counted k an ->
  processTicket host an index ticket = Returned an' ->
  agents_counted (k + 1) an'.
Proof.
  intros Hk [Hn Hc] H.
  apply processTicket_agents in H. cbv zeta in H.
  set (ag := agent_of host ticket) in *.
  set (o1 := update ag agent_total_incr (ensure ag new_agent (agents an)))
    in *.
  destruct H as (E1 & o2 & F & R).
  assert (N1 : NoDup (keys o1))
    by (unfold o1; rewrite keys_update; apply ensure_keys, Hn).
  assert (C1 : forall key a, own key o1 = Some a ->
             if String.eqb key ag
             then 0 <= agent_responseViolations a < agent_total a
                  /\ 0 <= agent_resolutionViolations a < agent_total a
                  /\ 1 <= agent_total a <= k + 1
             else agent_counted k a).
  { intros key a Ha. unfold o1 in Ha.
    destruct (String.eqb_spec key ag) as [->|N].
    - destruct (own ag (ensure ag new_agent (agents an))) as [a0|] eqn:E0.
      + rewrite (own_update_same _ _ _ _ E0) in Ha. injection Ha as <-.
        apply ensure_own_same in E0. destruct E0 as [E0|[_ ->]].
        * specialize (Hc _ _ E0). unfold agent_counted in Hc.
          cbn. lia.
        * cbn. lia.
      + rewrite own_update_none in Ha by exact E0. discriminate.
    - apply String.eqb_neq in N.
      rewrite own_update_diff, ensure_own_diff in Ha by exact N.
      apply Hc in Ha. exact Ha. }
  clearbody o1.
  assert (N2 : NoDup (keys o2))
    by (destruct F as [->| ->]; [|rewrite keys_update]; exact N1).
  assert (C2 : forall key a, own key o2 = Some a ->
             if String.eqb key ag
             then 0 <= agent_responseViolations a <= agent_total a
                  /\ 0 <= agent_resolutionViolations a < agent_total a
                  /\ 1 <= agent_total a <= k + 1
             else agent_counted k a).
  { intros key a Ha. destruct F as [->| ->].
    - specialize (C1 _ _ Ha). destruct (String.eqb key ag); [lia|exact C1].
    - destruct (String.eqb_spec key ag) as [->|N].
      + destruct (own ag o1) as [a0|] eqn:E0; [|congruence].
        rewrite (own_update_same _ _ _ _ E0) in Ha. injection Ha as <-.
        specialize (C1 _ _ E0). rewrite String.eqb_refl in C1.
        cbn. lia.
      + apply String.eqb_neq in N. rewrite own_update_diff in Ha by exact N.
        specialize (C1 _ _ Ha). rewrite N in C1. exact C1. }
  clear C1 N1 E1 F. clearbody ag.
  split.
  - destruct R as [->| ->]; [|rewrite keys_update]; exact N2.
  - intros key a Ha. unfold agent_counted.
    destruct R as [R|R]; rewrite R in Ha.
    + specialize (C2 _ _ Ha).
      destruct (String.eqb key ag); unfold agent_counted in *; lia.
    + destruct (String.eqb_spec key ag) as [->|N].
      * destruct (own ag o2) as [a0|] eqn:E0.
        -- rewrite (own_update_same _ _ _ _ E0) in Ha. injection Ha as <-.
           specialize (C2 _ _ E0). rewrite String.eqb_refl in C2.
           cbn. lia.
        -- rewrite own_update_none in Ha by exact E0. discriminate.
      * apply String.eqb_neq in N. rewrite own_update_diff in Ha by exact N.
        specialize (C2 _ _ Ha). rewrite N in C2.
        unfold agent_counted in *. lia.
Qed.

Lemma forEach_agents_counted (tickets : list (object jsval)) :
  forall index an an' k,
    0 <= k ->
    agents_counted k an ->
    forEach host tickets index an = Returned an' ->
    agents_counted (k + Z.of_nat (length tickets)) an'.
Proof.
  induction tickets as [|ticket rest IH]; intros index an an' k Hk Hc.
  - cbn [forEach]. intros H. injection H as <-.
    cbn [length]. rewrite Z.add_0_r. exact Hc.
  - cbn [forEach bind].
    destruct (processTicket host an index ticket) as [an1|] eqn:E;
      [|discriminate].
    cbn [bind]. intros H.
    replace (k + Z.of_nat (length (ticket :: rest)))
      with ((k + 1) + Z.of_nat (length rest)) by (cbn [length]; lia).
    apply (IH (S index) an1 an'); [lia | | exact H].
    exact (processTicket_agents_counted _ _ _ _ _ Hk Hc E).
Qed.

Lemma initial_agents_counted (n : nat) : agents_counted 0 (initial n).
Proof.
  split; [constructor|]. intros key a H. discriminate H.
Qed.

(** The agents of a returned analysis. *)
Lemma analyze_agents (data : argument) (an : analysis) (key : string)
    (a : agent_stats) :
  analyzeSLAPerformance host data = Returned (Some an) ->
  In (key, a) (agents an) ->
  exists a0,
    agent_counted (Z.of_nat (length (rows_of data))) a0
    /\ a = finish_agent host a0.
Proof.
  intros H Hin. apply analyze_returns in H.
  destruct H as (an0 & Hloop & ->).
  apply forEach_agents_counted with (k := 0) in Hloop;
    [| lia | apply initial_agents_counted].
  rewrite Z.add_0_l in Hloop. destruct Hloop as [Hn Hc].
  change (agents (finish host an0))
    with (finish_all (finish_agent host) (agents an0)) in Hin.
  unfold finish_all in Hin. apply in_map_iff in Hin.
  destruct Hin as ([key0 a0] & E & Hin0). cbn [fst snd] in E.
  injection E as <- <-. exists a0. split; [|reflexivity].
  apply (Hc key0). apply In_own; assumption.
Qed.

End WithHost.
End AgentFacts.

(* ===================================================================== *)
(** * The agents' compliance rates are doubles *)
(* ===================================================================== *)

Module RateFacts.
Import Double DoubleFacts PercentFacts Server Spec AnalyzerFacts.
Import InsightFacts KeyFacts AgentFacts.

(** Rounding never crosses an integer below [2 ^ 53], whatever the sign. *)
Lemma round_within (x : Q) (K : Z) :
  0 <= K < 2 ^ 53 ->
  (- inject_Z K <= x <= inject_Z K)%Q ->
  exists q, round x = Finite q /\ (- inject_Z K <= q <= inject_Z K)%Q.
Proof.
  intros HK [Hlo Hhi].
  assert (HK0 : (0 <= inject_Z K)%Q)
    by (unfold Qle, inject_Z; simpl; lia).
  unfold round.
  destruct x as [n d]. unfold Qle, Qopp, inject_Z in Hlo, Hhi; simpl in *.
  destruct (Z.compare_spec n 0) as [E|E|E].
  - subst n. exists 0%Q. split; [reflexivity|]. lra.
  - destruct (round_pos_between (- n) (Zpos d) 0 K) as (q & -> & Hq);
      try lia.
    exists (Qred (- q)). split; [reflexivity|].
    change (inject_Z 0) with 0%Q in Hq.
    pose proof (Qred_correct (- q)) as R. lra.
  - destruct (round_pos_between n (Zpos d) 0 K) as (q & -> & Hq); try lia.
    exists q. split; [reflexivity|].
    change (inject_Z 0) with 0%Q in Hq. lra.
Qed.

(** The double of [(a / t) * 100] for [- t <= a <= t]. *)
Lemma signed_percentage_value (a t : Z) :
  - t <= a <= t -> 0 < t < 2 ^ 53 ->
  exists y,
    mul (div (of_Z a) (of_Z t)) num_100 = Finite y
    /\ (- (100) <= y <= 100)%Q.
Proof.
  intros Ha Ht.
  destruct (of_Z_exact t) as (qt & -> & Et); [lia|].
  assert (Ht' : (0 < inject_Z t)%Q) by (unfold Qlt, inject_Z; simpl; lia).
  destruct (round_within (inject_Z a) t) as (qa & Ea & Ba); [lia| |].
  { rewrite <- inject_Z_opp, <- !Zle_Qle. lia. }
  unfold of_Z at 1. rewrite Ea.
  assert (Hqt : (0 < qt)%Q) by (rewrite Et; assumption).
  assert (Hz : is_zero qt = false).
  { unfold is_zero. apply Z.eqb_neq. unfold Qlt in Hqt; simpl in Hqt. lia. }
  unfold div. rewrite Hz.
  rewrite <- Et in Ba.
  assert (Hx : (- (1) <= qa / qt <= 1)%Q).
  { split.
    - apply Qle_shift_div_l; [assumption|]. lra.
    - apply Qle_shift_div_r; [assumption|]. lra. }
  destruct (round_within (qa / qt) 1) as (q1 & -> & H1); [lia| |].
  { change (inject_Z 1) with 1%Q. exact Hx. }
  change (inject_Z 1) with 1%Q in H1.
  rewrite num_100_value. unfold mul.
  destruct (round_within (q1 * 100) 100) as (q2 & -> & H2); [lia| |].
  { change (inject_Z 100) with 100%Q. lra. }
  exists q2. split; [reflexivity|].
  change (inject_Z 100) with 100%Q in H2. exact H2.
Qed.

Section WithHost.
Variable host : Host.

(** [toFixed(1)] on a double between -100 and 100. *)
Lemma toFixed1_signed (y : Q) :
  (- (100) <= y <= 100)%Q ->
  exists n, 0 <= n <= 1000
    /\ (toFixed1 host (Finite y) = tenths n
        \/ toFixed1 host (Finite y) = "-" ++ tenths n).
Proof.
  intros Hy. unfold toFixed1.
  assert (Ha : (0 <= Qabs y <= 100)%Q).
  { split; [apply Qabs_nonneg|]. apply Qabs_le_iff. exact Hy. }
  replace (Qle_bool (inject_Z (10 ^ 21)) (Qabs y)) with false.
  2:{ symmetry. apply not_true_is_false. intros C.
      apply Qle_bool_iff in C.
      assert (100 < inject_Z (10 ^ 21))%Q by reflexivity. lra. }
  set (n := Qfloor (Qabs y * inject_Z 10 + (1 # 2))).
  exists n.
  pose proof (Qfloor_le (Qabs y * inject_Z 10 + (1 # 2))) as Hl.
  pose proof (Qlt_floor (Qabs y * inject_Z 10 + (1 # 2))) as Hu.
  fold n in Hl, Hu.
  change (inject_Z 10) with 10%Q in Hl, Hu.
  rewrite inject_Z_plus in Hu. change (inject_Z 1) with 1%Q in Hu.
  split.
  - split.
    + assert (0 < n + 1); [|lia].
      rewrite Zlt_Qlt, inject_Z_plus.
      change (inject_Z 0) with 0%Q. change (inject_Z 1) with 1%Q. lra.
    + assert (n < 1001); [|lia].
      rewrite Zlt_Qlt. change (inject_Z 1001) with 1001%Q. lra.
  - destruct (is_neg y); [right|left]; reflexivity.
Qed.

(** The rate string of an agent: a tenth between -100.0 and 100.0. *)
Lemma percentage_signed (a t : Z) :
  - t <= a <= t -> 0 < t < 2 ^ 53 ->
  exists n, 0 <= n <= 1000
    /\ (percentage host a t = tenths n
        \/ percentage host a t = "-" ++ tenths n).
Proof.
  intros Ha Ht. unfold percentage.
  destruct (signed_percentage_value a t Ha Ht) as (y & -> & Hy).
  apply toFixed1_signed. exact Hy.
Qed.
End WithHost.

Lemma double_ok_is_double (x : number) : double_ok x = true -> is_double x.
Proof.
  unfold double_ok, is_double.
  destruct x as [q| |]; try discriminate.
  destruct (round q) as [q'| |]; try discriminate.
  intros H. apply andb_true_iff in H. destruct H as [Hn Hd].
  apply Z.eqb_eq in Hn. apply Pos.eqb_eq in Hd.
  destruct q, q'. simpl in Hn, Hd. congruence.
Qed.

(** Every tenth between -100.0 and 100.0 reads back as a double. *)
Lemma tenths_double_ok_all :
  forallb (fun k => double_ok (parseFloat (tenths (Z.of_nat k)))
                    && double_ok (parseFloat ("-" ++ tenths (Z.of_nat k))))
    (seq 0 1001) = true.
Proof. vm_compute. reflexivity. Qed.

Lemma tenths_is_double (n : Z) :
  0 <= n <= 1000 ->
  is_double (parseFloat (tenths n))
  /\ is_double (parseFloat ("-" ++ tenths n)).
Proof.
  intros Hn. pose proof tenths_double_ok_all as H.
  rewrite forallb_forall in H.
  specialize (H (Z.to_nat n)). rewrite Z2Nat.id in H by lia.
  assert (Hin : In (Z.to_nat n) (seq 0 1001)) by (apply in_seq; lia).
  apply H in Hin. apply andb_true_iff in Hin.
  split; apply double_ok_is_double; tauto.
Qed.

Section Returned.
Variable host : Host.

(** The rate of a counted agent is a double. *)
Lemma counted_rate_is_double (k : Z) (a : agent_stats) :
  k < 2 ^ 53 -> agent_counted k a ->
  is_double (parseFloat_of host (agent_complianceRate (finish_agent host a))).
Proof.
  intros Hk (Hr & Hs & Ht).
  cbn [finish_agent agent_complianceRate]. unfold rate.
  replace (0 <? agent_total a) with true
    by (symmetry; apply Z.ltb_lt; lia).
  cbn [parseFloat_of toString].
  destruct (percentage_signed host
              (agent_total a
               - (agent_responseViolations a
                  + agent_resolutionViolations a))
              (agent_total a)) as (n & Hn & [-> | ->]); try lia;
    apply tenths_is_double; exact Hn.
Qed.

(** In every returned analysis the agents' rates are doubles. *)
Lemma analyze_rates_double (data : argument) (an : analysis) :
  array_sized data ->
  analyzeSLAPerformance host data = Returned (Some an) ->
  Forall (fun a => is_double (complianceRate a)) (agent_entries host an).
Proof.
  intros Hsize H. apply Forall_forall. intros p Hp.
  unfold agent_entries in Hp. apply in_map_iff in Hp.
  destruct Hp as ([key a] & <- & Hin).
  destruct (analyze_agents host data an key a H Hin) as (a0 & Hc & ->).
  cbn [agent_entry complianceRate snd].
  unfold array_sized in Hsize.
  apply (counted_rate_is_double (Z.of_nat (length (rows_of data))) a0);
    [lia | exact Hc].
Qed.

(** The insights of a returned analysis are those of its own groups. *)
Lemma analyze_insights (data : argument) (an : analysis) :
  analyzeSLAPerformance host data = Returned (Some an) ->
  insights an = Some (generatePerformanceInsights host an).
Proof.
  intros H. apply analyze_returns in H.
  destruct H as (an0 & _ & ->). reflexivity.
Qed.
End Returned.
End RateFacts.

(* ===================================================================== *)
(** * The aggregates of the analysis add up *)
(* ===================================================================== *)

Module TotalsFacts.
Import Obj ObjFacts KeyFacts Server Spec SlaFacts AnalyzerFacts ThrowFacts.
Import Totals.

Section WithValues.
Context {A : Type} (f : A -> Z).

Lemma sum_replace (k : string) (v w : A) (o : object A) :
  own k o = Some v -> sum f (replace k w o) = sum f o - f v + f w.
Proof.
  induction o as [|[k' v'] o IH]; cbn [own replace sum fold_right snd];
    [discriminate|].
  destruct (String.eqb k k'); cbn [sum fold_right snd].
  - intros H. injection H as ->. fold (sum f o). lia.
  - intros H. fold (sum f o) (sum f (replace k w o)).
    rewrite (IH H). lia.
Qed.

Lemma sum_add_index (i : N) (k : string) (v : A) (o : object A) :
  sum f (add_index i k v o) = sum f o + f v.
Proof.
  induction o as [|[k' v'] o IH]; cbn [add_index sum fold_right snd];
    [lia|].
  fold (sum f o).
  destruct (array_index k') as [j|]; [|cbn [sum fold_right snd];
    fold (sum f o); lia].
  destruct (j <? i)%N; cbn [sum fold_right snd].
  - fold (sum f (add_index i k v o)). rewrite IH. lia.
  - fold (sum f o). lia.
Qed.

Lemma sum_append (k : string) (v : A) (o : object A) :
  sum f (o ++ [(k, v)])%list = sum f o + f v.
Proof.
  induction o as [|[k' v'] o IH]; cbn [app sum fold_right snd]; [lia|].
  fold (sum f o) (sum f (o ++ [(k, v)])%list). rewrite IH. lia.
Qed.

Lemma sum_update (k : string) (g : A -> A) (o : object A) (d : Z) :
  (forall v, f (g v) = f v + d) ->
  sum f (update k g o) = sum f o + match own k o with
                                   | Some _ => d
                                   | None => 0
                                   end.
Proof.
  intros Hg. unfold update. destruct (own k o) as [v|] eqn:E; [|lia].
  rewrite (sum_replace k v (g v) o E), Hg. lia.
Qed.

Lemma sum_ensure (k : string) (fresh : A) (o : object A) :
  f fresh = 0 -> sum f (ensure k fresh o) = sum f o.
Proof.
  intros Hf. unfold ensure, missing.
  destruct (own k o) eqn:E; [reflexivity|].
  destruct (inherited k) eqn:I; cbn [negb]; [reflexivity|].
  unfold set. rewrite E, (inherited_proto k I).
  destruct (array_index k).
  - rewrite sum_add_index. lia.
  - rewrite sum_append. lia.
Qed.

(** What [if (!o[k]) o[k] = fresh; ...; o[k].total++] adds to the sum
    of a counter that starts at 0 and goes up by 1. *)
Lemma sum_counted (k : string) (fresh : A) (g : A -> A) (o : object A) :
  f fresh = 0 -> (forall v, f (g v) = f v + 1) -> clean o ->
  sum f (update k g (ensure k fresh o))
  = sum f o + (if inherited k then 0 else 1).
Proof.
  intros Hf Hg Hc. rewrite (sum_update k g _ 1 Hg), (sum_ensure k fresh o Hf).
  destruct (inherited k) eqn:I.
  - rewrite (ensure_inherited k fresh o I (Hc k I)). reflexivity.
  - pose proof (ensure_own k fresh o I) as H.
    destruct (own k (ensure k fresh o)); [reflexivity | congruence].
Qed.

Lemma clean_counted (k : string) (fresh : A) (g : A -> A) (o : object A) :
  clean o -> clean (update k g (ensure k fresh o)).
Proof.
  intros Hc k' I. apply own_update_other, ensure_clean; [exact I|].
  apply Hc, I.
Qed.

Lemma clean_update (k : string) (g : A -> A) (o : object A) :
  clean o -> clean (update k g o).
Proof. intros Hc k' I. apply own_update_other, Hc, I. Qed.

Lemma sum_finish_all (h : A -> A) (o : object A) :
  (forall v, f (h v) = f v) -> sum f (finish_all h o) = sum f o.
Proof.
  intros Hh. induction o as [|[k v] o IH];
    cbn [finish_all map sum fold_right snd fst]; [reflexivity|].
  fold (sum f o). fold (finish_all h o). fold (sum f (finish_all h o)).
  rewrite IH, Hh. reflexivity.
Qed.
End WithValues.

Lemma count_cons (p : object jsval -> bool) (t : object jsval)
    (l : list (object jsval)) :
  count p (t :: l) = (if p t then 1 else 0) + count p l.
Proof.
  unfold count. cbn [filter]. destruct (p t); cbn [length]; lia.
Qed.

Lemma count_le (p : object jsval -> bool) (l : list (object jsval)) :
  0 <= count p l <= Z.of_nat (length l).
Proof.
  unfold count. pose proof (filter_length_le p l). lia.
Qed.

Section WithHost.
Variable host : Host.

(** The counts of a bucket after one more ticket. *)
Lemma bucket_step_counts (cols : list string) (ticket : object jsval)
    (b : bucket) :
  let b' := bucket_step host (find_status ticket cols) b in
  total b' = total b + (if evaluated cols ticket then 1 else 0)
  /\ violations b'
     = violations b + (if judged host Violation cols ticket then 1 else 0)
  /\ compliance b'
     = compliance b + (if judged host Compliant cols ticket then 1 else 0).
Proof.
  cbv zeta. unfold bucket_step, evaluated, judged.
  destruct (truthy (find_status ticket cols)); cbn [andb];
    [|repeat split; lia].
  destruct (classify host (find_status ticket cols));
    cbn [verdict_eqb total violations compliance bucket_total_incr
         bucket_violations_incr bucket_compliance_incr];
    repeat split; lia.
Qed.

Lemma counted_step (cols : list string) (ticket : object jsval)
    (rest : list (object jsval)) (b : bucket) :
  total b + count (evaluated cols) (ticket :: rest)
  = total (bucket_step host (find_status ticket cols) b)
    + count (evaluated cols) rest
  /\ violations b + count (judged host Violation cols) (ticket :: rest)
     = violations (bucket_step host (find_status ticket cols) b)
       + count (judged host Violation cols) rest
  /\ compliance b + count (judged host Compliant cols) (ticket :: rest)
     = compliance (bucket_step host (find_status ticket cols) b)
       + count (judged host Compliant cols) rest.
Proof.
  destruct (bucket_step_counts cols ticket b) as (-> & -> & ->).
  rewrite !count_cons. repeat split; lia.
Qed.

Lemma forEach_counts (tickets : list (object jsval)) :
  forall index an an',
    forEach host tickets index an = Returned an' ->
    (total (firstResponseSLA an')
     = total (firstResponseSLA an)
       + count (evaluated firstResponseColumns) tickets
     /\ violations (firstResponseSLA an')
        = violations (firstResponseSLA an)
          + count (judged host Violation firstResponseColumns) tickets
     /\ compliance (firstResponseSLA an')
        = compliance (firstResponseSLA an)
          + count (judged host Compliant firstResponseColumns) tickets)
    /\ (total (resolutionSLA an')
        = total (resolutionSLA an)
          + count (evaluated resolutionColumns) tickets
        /\ violations (resolutionSLA an')
           = violations (resolutionSLA an)
             + count (judged host Violation resolutionColumns) tickets
        /\ compliance (resolutionSLA an')
           = compliance (resolutionSLA an)
             + count (judged host Compliant resolutionColumns) tickets).
Proof.
  induction tickets as [|ticket rest IH]; intros index an an'.
  - cbn [forEach]. intros H. injection H as <-.
    unfold count. cbn. repeat split; lia.
  - cbn [forEach bind].
    destruct (processTicket host an index ticket) as [an1|] eqn:E;
      [|discriminate].
    cbn [bind]. intros H. apply IH in H.
    apply processTicket_buckets in E. destruct E as [E1 E2].
    rewrite E1, E2 in H.
    pose proof (counted_step firstResponseColumns ticket rest
                  (firstResponseSLA an)) as C1.
    pose proof (counted_step resolutionColumns ticket rest
                  (resolutionSLA an)) as C2.
    repeat split; lia.
Qed.

(** What the two SLA blocks do to the three maps of counters. *)
Lemma firstResponse_maps ticket a c p dk dw mk an :
  let hit := judged host Violation firstResponseColumns ticket in
  agents (firstResponse host ticket a c p dk dw mk an)
  = (if hit then update a agent_response_incr (agents an) else agents an)
  /\ categories (firstResponse host ticket a c p dk dw mk an)
     = (if hit then update c group_response_incr (categories an)
        else categories an)
  /\ priorityAnalysis (firstResponse host ticket a c p dk dw mk an)
     = (if hit then update p group_response_incr (priorityAnalysis an)
        else priorityAnalysis an).
Proof.
  cbv zeta. unfold firstResponse, judged.
  destruct (truthy _); cbn [andb]; [|repeat split].
  destruct (classify _ _); cbn [verdict_eqb]; repeat split.
Qed.

Lemma resolution_maps ticket a c p dk dw mk an :
  let hit := judged host Violation resolutionColumns ticket in
  agents (resolution host ticket a c p dk dw mk an)
  = (if hit then update a agent_resolution_incr (agents an) else agents an)
  /\ categories (resolution host ticket a c p dk dw mk an)
     = (if hit then update c group_resolution_incr (categories an)
        else categories an)
  /\ priorityAnalysis (resolution host ticket a c p dk dw mk an)
     = (if hit then update p group_resolution_incr (priorityAnalysis an)
        else priorityAnalysis an).
Proof.
  cbv zeta. unfold resolution, judged.
  destruct (truthy _); cbn [andb]; [|repeat split].
  destruct (classify _ _); cbn [verdict_eqb]; repeat split.
Qed.

(** What one ticket does to the three maps of counters. *)
Lemma processTicket_maps (an an' : analysis) (index : nat)
    (ticket : object jsval) :
  processTicket host an index ticket = Returned an' ->
  let hit1 := judged host Violation firstResponseColumns ticket in
  let hit2 := judged host Violation resolutionColumns ticket in
  let a := agent_of host ticket in
  let c := category_of host ticket in
  let p := priority_of host ticket in
  let a1 := update a agent_total_incr (ensure a new_agent (agents an)) in
  let c1 := update c group_total_incr
              (ensure c new_category (categories an)) in
  let p1 := update p group_total_incr
              (ensure p new_priority (priorityAnalysis an)) in
  let a2 := if hit1 then update a agent_response_incr a1 else a1 in
  let c2 := if hit1 then update c group_response_incr c1 else c1 in
  let p2 := if hit1 then update p group_response_incr p1 else p1 in
  own a a1 <> None
  /\ agents an'
     = (if hit2 then update a agent_resolution_incr a2 else a2)
  /\ categories an'
     = (if hit2 then update c group_resolution_incr c2 else c2)
  /\ priorityAnalysis an'
     = (if hit2 then update p group_resolution_incr p2 else p2).
Proof.
  unfold processTicket.
  destruct (createdDate_of host index ticket); try discriminate.
  cbn [agents map_groups].
  destruct (own _ _) eqn:E1; [|discriminate].
  intros H. injection H as <-. cbv zeta.
  split; [congruence|].
  match goal with
  | |- context [resolution host ?t ?a ?c ?p ?dk ?dw ?mk ?y] =>
      destruct (resolution_maps t a c p dk dw mk y) as (-> & -> & ->);
      match y with
      | firstResponse host _ _ _ _ _ _ _ ?x =>
          destruct (firstResponse_maps t a c p dk dw mk x)
            as (-> & -> & ->)
      end
  end.
  cbn [agents categories priorityAnalysis map_groups].
  repeat split.
Qed.

Lemma own_kept {A : Type} (k : string) (b : bool) (g : A -> A)
    (o : object A) :
  own k o <> None -> own k (if b then update k g o else o) <> None.
Proof. destruct b; [apply own_update | trivial]. Qed.

Lemma sum_when {A : Type} (f : A -> Z) (k : string) (b : bool)
    (g : A -> A) (o : object A) (d : Z) :
  (forall v, f (g v) = f v + d) ->
  sum f (if b then update k g o else o)
  = sum f o + (if b then match own k o with Some _ => d | None => 0 end
               else 0).
Proof.
  intros Hg. destruct b; [apply sum_update, Hg | lia].
Qed.

Lemma clean_when {A : Type} (k : string) (b : bool) (g : A -> A)
    (o : object A) :
  clean o -> clean (if b then update k g o else o).
Proof. destruct b; [apply clean_update | trivial]. Qed.

(** The sums over the agents after one more ticket. *)
Lemma processTicket_agent_sums (an an' : analysis) (index : nat)
    (ticket : object jsval) :
  processTicket host an index ticket = Returned an' ->
  sum agent_total (agents an') = sum agent_total (agents an) + 1
  /\ sum agent_responseViolations (agents an')
     = sum agent_responseViolations (agents an)
       + (if judged host Violation firstResponseColumns ticket
          then 1 else 0)
  /\ sum agent_resolutionViolations (agents an')
     = sum agent_resolutionViolations (agents an)
       + (if judged host Violation resolutionColumns ticket
          then 1 else 0).
Proof.
  intros H. apply processTicket_maps in H. cbv zeta in H.
  destruct H as (O1 & -> & _ & _).
  set (a := agent_of host ticket) in *.
  set (a0 := ensure a new_agent (agents an)) in *.
  assert (S0 : forall f, f new_agent = 0 -> sum f a0 = sum f (agents an))
    by (intros f Hf; apply sum_ensure, Hf).
  assert (O0 : own a a0 <> None).
  { intros C. apply O1. apply own_update_none, C. }
  set (a1 := update a agent_total_incr a0) in *.
  assert (S1 : forall f d, (forall v, f (agent_total_incr v) = f v + d) ->
                 sum f a1 = sum f a0 + d).
  { intros f d Hf. unfold a1. rewrite (sum_update f a _ a0 d Hf).
    destruct (own a a0); [reflexivity | congruence]. }
  set (hit1 := judged host Violation firstResponseColumns ticket).
  set (hit2 := judged host Violation resolutionColumns ticket).
  pose proof (own_kept a hit1 agent_response_incr a1 O1) as O2.
  set (a2 := if hit1 then update a agent_response_incr a1 else a1) in *.
  assert (S2 : forall f d, (forall v, f (agent_response_incr v) = f v + d) ->
                 sum f a2 = sum f a1 + (if hit1 then d else 0)).
  { intros f d Hf. unfold a2. rewrite (sum_when f a hit1 _ a1 d Hf).
    destruct (own a a1); [reflexivity | congruence]. }
  assert (S3 : forall f d,
                 (forall v, f (agent_resolution_incr v) = f v + d) ->
                 sum f (if hit2 then update a agent_resolution_incr a2
                        else a2)
                 = sum f a2 + (if hit2 then d else 0)).
  { intros f d Hf. rewrite (sum_when f a hit2 _ a2 d Hf).
    destruct (own a a2); [reflexivity | congruence]. }
  repeat split.
  - rewrite (S3 agent_total 0), (S2 agent_total 0), (S1 agent_total 1),
      (S0 agent_total) by (try reflexivity; intros v; cbn; lia).
    destruct hit1, hit2; lia.
  - rewrite (S3 agent_responseViolations 0),
      (S2 agent_responseViolations 1), (S1 agent_responseViolations 0),
      (S0 agent_responseViolations)
      by (try reflexivity; intros v; cbn; lia).
    destruct hit1, hit2; lia.
  - rewrite (S3 agent_resolutionViolations 1),
      (S2 agent_resolutionViolations 0),
      (S1 agent_resolutionViolations 0),
      (S0 agent_resolutionViolations)
      by (try reflexivity; intros v; cbn; lia).
    destruct hit1, hit2; lia.
Qed.

(** The totals of the categories and of the priorities after one more
    ticket. *)
Lemma processTicket_group_sums (an an' : analysis) (index : nat)
    (ticket : object jsval) :
  clean (categories an) -> clean (priorityAnalysis an) ->
  processTicket host an index ticket = Returned an' ->
  (sum group_total (categories an')
   = sum group_total (categories an)
     + (if category_counted host ticket then 1 else 0)
   /\ clean (categories an'))
  /\ (sum group_total (priorityAnalysis an')
      = sum group_total (priorityAnalysis an)
        + (if priority_counted host ticket then 1 else 0)
      /\ clean (priorityAnalysis an')).
Proof.
  intros Cc Cp H. apply processTicket_maps in H. cbv zeta in H.
  destruct H as (_ & _ & -> & ->).
  unfold category_counted, priority_counted.
  split; split.
  - rewrite (sum_when group_total _ _ group_resolution_incr _ 0)
      by (intros v; cbn; lia).
    rewrite (sum_when group_total _ _ group_response_incr _ 0)
      by (intros v; cbn; lia).
    rewrite (sum_counted group_total _ new_category group_total_incr _
               eq_refl ltac:(intros v; cbn; lia) Cc).
    repeat match goal with
           | |- context [match ?o with Some _ => _ | None => _ end] =>
               destruct o
           end;
      destruct (inherited _), (judged _ _ _ _), (judged _ _ _ _);
      cbn [negb]; lia.
  - apply clean_when, clean_when, clean_counted, Cc.
  - rewrite (sum_when group_total _ _ group_resolution_incr _ 0)
      by (intros v; cbn; lia).
    rewrite (sum_when group_total _ _ group_response_incr _ 0)
      by (intros v; cbn; lia).
    rewrite (sum_counted group_total _ new_priority group_total_incr _
               eq_refl ltac:(intros v; cbn; lia) Cp).
    repeat match goal with
           | |- context [match ?o with Some _ => _ | None => _ end] =>
               destruct o
           end;
      destruct (inherited _), (judged _ _ _ _), (judged _ _ _ _);
      cbn [negb]; lia.
  - apply clean_when, clean_when, clean_counted, Cp.
Qed.

Lemma forEach_agent_sums (tickets : list (object jsval)) :
  forall index an an',
    forEach host tickets index an = Returned an' ->
    sum agent_total (agents an')
    = sum agent_total (agents an) + Z.of_nat (length tickets)
    /\ sum agent_responseViolations (agents an')
       = sum agent_responseViolations (agents an)
         + count (judged host Violation firstResponseColumns) tickets
    /\ sum agent_resolutionViolations (agents an')
       = sum agent_resolutionViolations (agents an)
         + count (judged host Violation resolutionColumns) tickets.
Proof.
  induction tickets as [|ticket rest IH]; intros index an an'.
  - cbn [forEach]. intros H. injection H as <-.
    unfold count. cbn. repeat split; lia.
  - cbn [forEach bind].
    destruct (processTicket host an index ticket) as [an1|] eqn:E;
      [|discriminate].
    cbn [bind]. intros H. apply IH in H.
    apply processTicket_agent_sums in E.
    rewrite !count_cons. cbn [length].
    destruct H as (H1 & H2 & H3). destruct E as (E1 & E2 & E3).
    repeat split; lia.
Qed.

Lemma forEach_group_sums (tickets : list (object jsval)) :
  forall index an an',
    clean (categories an) -> clean (priorityAnalysis an) ->
    forEach host tickets index an = Returned an' ->
    sum group_total (categories an')
    = sum group_total (categories an)
      + count (category_counted host) tickets
    /\ sum group_total (priorityAnalysis an')
       = sum group_total (priorityAnalysis an)
         + count (priority_counted host) tickets.
Proof.
  induction tickets as [|ticket rest IH]; intros index an an' Cc Cp.
  - cbn [forEach]. intros H. injection H as <-.
    unfold count. cbn. split; lia.
  - cbn [forEach bind].
    destruct (processTicket host an index ticket) as [an1|] eqn:E;
      [|discriminate].
    cbn [bind]. intros H.
    apply (processTicket_group_sums _ _ _ _ Cc Cp) in E.
    destruct E as ((E1 & C1) & (E2 & C2)).
    apply (IH _ _ _ C1 C2) in H. destruct H as (H1 & H2).
    rewrite !count_cons. split; lia.
Qed.

Lemma sum_finish_agents (f : agent_stats -> Z) (o : object agent_stats) :
  sum f (finish_all (finish_agent host) o)
  = sum (fun a => f (finish_agent host a)) o.
Proof.
  induction o as [|[k v] o IH];
    cbn [finish_all map sum fold_right snd fst]; [reflexivity|].
  fold (finish_all (finish_agent host) o).
  fold (sum f (finish_all (finish_agent host) o)).
  fold (sum (fun a => f (finish_agent host a)) o).
  rewrite IH. reflexivity.
Qed.

Lemma sum_plus {A : Type} (f g : A -> Z) (o : object A) :
  sum (fun a => f a + g a) o = sum f o + sum g o.
Proof.
  induction o as [|[k v] o IH]; cbn [sum fold_right snd]; [reflexivity|].
  fold (sum f o) (sum g o) (sum (fun a => f a + g a) o). lia.
Qed.

Lemma processTicket_totalTickets (an an' : analysis) (index : nat)
    (ticket : object jsval) :
  processTicket host an index ticket = Returned an' ->
  totalTickets an' = totalTickets an.
Proof.
  unfold processTicket.
  destruct (createdDate_of host index ticket); try discriminate.
  destruct (own _ _); [|discriminate].
  intros H. injection H as <-.
  unfold resolution, firstResponse.
  repeat match goal with
         | |- context [if ?b then _ else _] => destruct b
         | |- context [match classify ?h ?s with _ => _ end] =>
             destruct (classify h s)
         end; reflexivity.
Qed.

Lemma forEach_totalTickets (tickets : list (object jsval)) :
  forall index an an',
    forEach host tickets index an = Returned an' ->
    totalTickets an' = totalTickets an.
Proof.
  induction tickets as [|ticket rest IH]; intros index an an'.
  - cbn [forEach]. intros H. injection H as <-. reflexivity.
  - cbn [forEach bind].
    destruct (processTicket host an index ticket) as [an1|] eqn:E;
      [|discriminate].
    cbn [bind]. intros H. apply IH in H.
    apply processTicket_totalTickets in E. congruence.
Qed.
End WithHost.
End TotalsFacts.

(* ===================================================================== *)
(** * The range of the rates, and what the insights make of them *)
(* ===================================================================== *)

Module RangeFacts.
Import Double DoubleFacts PercentFacts Server Spec AnalyzerFacts.
Import InsightFacts SortFacts KeyFacts AgentFacts RateFacts Totals.

Lemma signed_percent_ok_all :
  forallb (fun k => signed_percent_ok (tenths (Z.of_nat k))
                    && signed_percent_ok ("-" ++ tenths (Z.of_nat k)))
    (seq 0 1001) = true.
Proof. vm_compute. reflexivity. Qed.

Lemma signed_percent_ok_range (s : string) :
  signed_percent_ok s = true ->
  exists q, parseFloat s = Finite q /\ (- (100) <= q <= 100)%Q.
Proof.
  unfold signed_percent_ok.
  destruct (parseFloat s) as [q| |]; try discriminate.
  intros H. apply andb_true_iff in H. destruct H as [H1 H2].
  exists q. split; [reflexivity|].
  split; apply Qle_bool_iff; assumption.
Qed.

Lemma tenths_signed_range (n : Z) :
  0 <= n <= 1000 ->
  (exists q, parseFloat (tenths n) = Finite q /\ (- (100) <= q <= 100)%Q)
  /\ (exists q, parseFloat ("-" ++ tenths n) = Finite q
                /\ (- (100) <= q <= 100)%Q).
Proof.
  intros Hn. pose proof signed_percent_ok_all as H.
  rewrite forallb_forall in H.
  specialize (H (Z.to_nat n)). rewrite Z2Nat.id in H by lia.
  assert (Hin : In (Z.to_nat n) (seq 0 1001)) by (apply in_seq; lia).
  apply H in Hin. apply andb_true_iff in Hin.
  split; apply signed_percent_ok_range; tauto.
Qed.

Section WithHost.
Variable host : Host.

(** All of a positive count is 100.0 percent of it. *)
Lemma percentage_all (t : Z) :
  0 < t < 2 ^ 53 -> percentage host t t = "100.0".
Proof.
  intros Ht.
  destruct (percentage_tenths host t t) as (n & -> & Hn & D); try lia.
  assert (E : (exact_percentage t t == 100)%Q).
  { unfold exact_percentage.
    assert (0 < inject_Z t)%Q by (unfold Qlt, inject_Z; simpl; lia).
    change (inject_Z 100) with 100%Q. field. lra. }
  rewrite E in D. apply Qabs_le_iff in D.
  assert (Hq : (inject_Z n / 10 == inject_Z n * (1 # 10))%Q)
    by reflexivity.
  rewrite Hq in D.
  assert (999 < n).
  { rewrite Zlt_Qlt. change (inject_Z 999) with 999%Q.
    change (2 ^ 45)%positive with 35184372088832%positive in D. lra. }
  replace n with 1000 by lia. reflexivity.
Qed.

(** The rate of a counted agent lies between -100 and 100. *)
Lemma counted_rate_range (k : Z) (a : agent_stats) :
  k < 2 ^ 53 -> agent_counted k a ->
  exists q,
    parseFloat_of host (agent_complianceRate (finish_agent host a))
    = Finite q
    /\ (- (100) <= q <= 100)%Q
    /\ (totalViolations (finish_agent host a) <= agent_total a ->
        (0 <= q)%Q).
Proof.
  intros Hk (Hr & Hs & Ht).
  cbn [finish_agent agent_complianceRate totalViolations]. unfold rate.
  replace (0 <? agent_total a) with true
    by (symmetry; apply Z.ltb_lt; lia).
  cbn [parseFloat_of toString].
  set (v := agent_responseViolations a + agent_resolutionViolations a).
  destruct (Z_le_gt_dec v (agent_total a)) as [L|G].
  - destruct (percentage_tenths host (agent_total a - v) (agent_total a))
      as (n & -> & Hn & _); try (unfold v; lia).
    destruct (tenths_in_range n Hn) as (q & E & Hq).
    exists q. split; [exact E|]. split; [lra|]. intros _. lra.
  - destruct (percentage_signed host (agent_total a - v) (agent_total a))
      as (n & Hn & [-> | ->]); try (unfold v; lia);
      destruct (tenths_signed_range n Hn) as [(q & E & Hq) (q' & E' & Hq')].
    + exists q. split; [exact E|]. split; [exact Hq|]. lia.
    + exists q'. split; [exact E'|]. split; [exact Hq'|]. lia.
Qed.

Lemma firstn_filter_sub {A : Type} (p : A -> bool) (l : list A) (n : nat) :
  (length l <= n)%nat -> firstn n (filter p l) = filter p l.
Proof.
  intros H. apply firstn_all2.
  pose proof (filter_length_le p l). lia.
Qed.
End WithHost.
End RangeFacts.

(* ===================================================================== *)
(** * Products that round to an integer *)
(* ===================================================================== *)

Module ExactFacts.
Import Double DoubleFacts DoubleOrder PercentFacts.

Lemma floor_log2_upper (n d : Z) :
  0 < n -> 0 < d ->
  (0 <= floor_log2 n d + 1 -> n < d * 2 ^ (floor_log2 n d + 1))
  /\ (floor_log2 n d + 1 < 0 -> n * 2 ^ (- (floor_log2 n d + 1)) < d).
Proof.
  intros Hn Hd. unfold floor_log2.
  pose proof (Z.log2_spec n Hn) as [Ln Un].
  pose proof (Z.log2_spec d Hd) as [Ld Ud].
  pose proof (Z.log2_nonneg n) as Nn. pose proof (Z.log2_nonneg d) as Nd.
  rewrite <- Z.add_1_r in Un, Ud.
  set (ln := Z.log2 n) in *. set (ld := Z.log2 d) in *.
  clearbody ln ld.
  destruct (Z.leb_spec 0 (ln - ld)) as [Hk|Hk].
  - destruct (Z.leb_spec (d * 2 ^ (ln - ld)) n) as [T|T].
    + split; intros H; [|lia].
      assert (E : 2 ^ (ln + 1) = 2 ^ ld * 2 ^ (ln - ld + 1))
        by (rewrite <- Z.pow_add_r by lia; apply f_equal; lia).
      assert (0 < 2 ^ (ln - ld + 1)) by (apply Z.pow_pos_nonneg; lia).
      nia.
    + split; intros H; [|lia].
      replace (ln - ld - 1 + 1) with (ln - ld) by lia. exact T.
  - destruct (Z.leb_spec d (n * 2 ^ (- (ln - ld)))) as [T|T].
    + split; intros H.
      * assert (ln - ld = -1) by lia.
        replace (ln - ld + 1) with 0 by lia. simpl (2 ^ 0).
        assert (E : ld = ln + 1) by lia. subst ld. lia.
      * assert (E : 2 ^ ld = 2 ^ (ln + 1) * 2 ^ (- (ln - ld + 1)))
          by (rewrite <- Z.pow_add_r by lia; apply f_equal; lia).
        assert (0 < 2 ^ (- (ln - ld + 1))) by (apply Z.pow_pos_nonneg; lia).
        nia.
    + split; intros H; [lia|].
      replace (- (ln - ld - 1 + 1)) with (- (ln - ld)) by lia. exact T.
Qed.

(** A positive rational within a relative [2 ^ -54] above the integer
    [k] rounds to [k]. *)
Lemma round_pos_near_integer (n d k : Z) :
  0 < d -> 0 < k < 2 ^ 52 ->
  k * d <= n -> (n - k * d) * 2 ^ 54 <= k * d ->
  exists q, round_pos n d = Some q /\ (q == inject_Z k)%Q.
Proof.
  intros Hd Hk Hlo Hhi.
  assert (Hn : 0 < n) by nia.
  destruct (floor_log2_upper n d Hn Hd) as [U1 U2].
  assert (Hfl0 : 0 <= floor_log2 n d).
  { destruct (Z_lt_le_dec (floor_log2 n d) 0) as [C|C]; [|exact C].
    exfalso. destruct (Z.eq_dec (floor_log2 n d) (-1)) as [E|E].
    - rewrite E in U1. simpl in U1. specialize (U1 ltac:(lia)). nia.
    - assert (P : 0 < 2 ^ (- (floor_log2 n d + 1)))
        by (apply Z.pow_pos_nonneg; lia).
      specialize (U2 ltac:(lia)). nia. }
  assert (Hfl1 : floor_log2 n d <= 51).
  { apply floor_log2_below; try lia.
    replace (51 + 1) with 52 by lia.
    assert (n * 2 ^ 54 <= k * d * (2 ^ 54 + 1)) by lia.
    assert (k * d <= (2 ^ 52 - 1) * d) by nia.
    assert ((2 ^ 52 - 1) * (2 ^ 54 + 1) < 2 ^ 52 * 2 ^ 54) by reflexivity.
    nia. }
  specialize (U1 ltac:(lia)). clear U2.
  unfold round_pos, ulp_exponent.
  rewrite Z.max_l by lia.
  set (fl := floor_log2 n d) in *. clearbody fl.
  replace (971 <? fl - 52) with false by (symmetry; apply Z.ltb_ge; lia).
  replace (fl - 52 =? 971) with false by (symmetry; apply Z.eqb_neq; lia).
  cbn [orb andb]. eexists; split; [reflexivity|].
  unfold scale, significand.
  replace (fl - 52 <? 0) with true by (symmetry; apply Z.ltb_lt; lia).
  replace (- (fl - 52)) with (52 - fl) by lia.
  assert (Hp : 0 < 2 ^ (52 - fl)) by (apply Z.pow_pos_nonneg; lia).
  assert (Hkp : k * 2 ^ (52 - fl) < 2 ^ 53).
  { assert (k < 2 ^ (fl + 1)) by nia.
    assert (E : 2 ^ 53 = 2 ^ (fl + 1) * 2 ^ (52 - fl))
      by (rewrite <- Z.pow_add_r by lia; apply f_equal; lia).
    rewrite E. nia. }
  set (p := 2 ^ (52 - fl)) in *. clearbody p.
  pose proof (div_nearest_even_error (n * p) d Hd) as Hm.
  set (m := div_nearest_even (n * p) d) in *. clearbody m.
  assert (Hnear : 2 * (n * p - k * p * d) < d).
  { assert (A : (n - k * d) * p * 2 ^ 54 <= k * p * d) by nia.
    assert (B : k * p * d < 2 ^ 53 * d) by nia.
    change (2 ^ 54) with (2 * 2 ^ 53) in A.
    assert (0 < 2 ^ 53) by reflexivity.
    set (G := 2 ^ 53) in *. clearbody G. nia. }
  assert (Em : m = k * p).
  { assert (m < k * p + 1) by nia.
    assert (k * p - 1 < m) by nia. lia. }
  rewrite Qred_correct, Em.
  unfold Qeq, inject_Z; cbn [Qnum Qden].
  rewrite Z2Pos.id by lia. ring.
Qed.

Lemma round_near_integer (x : Q) (k : Z) :
  0 < k < 2 ^ 52 ->
  (inject_Z k <= x)%Q ->
  (x <= inject_Z k * (1 + (1 # 2 ^ 54)))%Q ->
  exists q, round x = Finite q /\ (q == inject_Z k)%Q.
Proof.
  intros Hk Hlo Hhi. unfold round.
  destruct x as [n d].
  assert (Hlo' : k * Z.pos d <= n).
  { unfold Qle, inject_Z in Hlo; cbn [Qnum Qden] in Hlo. lia. }
  assert (Hhi' : (n - k * Z.pos d) * 2 ^ 54 <= k * Z.pos d).
  { unfold Qle, inject_Z, Qmult, Qplus in Hhi; cbn [Qnum Qden] in Hhi.
    change (Z.pos (2 ^ 54)) with (2 ^ 54) in Hhi.
    rewrite !Pos2Z.inj_mul in Hhi.
    change (Z.pos (2 ^ 54)) with (2 ^ 54) in Hhi.
    set (G := 2 ^ 54) in *. assert (0 < G) by reflexivity. clearbody G.
    nia. }
  cbn [Qnum Qden].
  destruct (Z.compare_spec n 0) as [E|E|E]; try nia.
  destruct (round_pos_near_integer n (Z.pos d) k) as (q & -> & Hq);
    try lia.
  exists q. split; [reflexivity | exact Hq].
Qed.

Lemma num_0_8_value :
  exists q, num_0_8 = Finite q
            /\ (q == (4 # 5) * (1 + (1 # 2 ^ 54)))%Q.
Proof. eexists. split; [vm_compute; reflexivity | reflexivity]. Qed.

Lemma ltb_Finite (p q : Q) : ltb (Finite p) (Finite q) = true <-> (p < q)%Q.
Proof.
  cbn [ltb]. rewrite Qlt_alt.
  destruct (p ?= q)%Q; split; congruence.
Qed.

(** [c < n * 0.8] in doubles is [5 c < 4 n] in integers. *)
Lemma below_four_fifths (c n : Z) :
  0 <= c < 2 ^ 53 -> 0 <= n < 2 ^ 32 ->
  ltb (of_Z c) (mul (of_Z n) num_0_8) = true <-> 5 * c < 4 * n.
Proof.
  intros Hc Hn.
  destruct (of_Z_exact c) as (qc & -> & Ec); [lia|].
  destruct (of_Z_exact n) as (qn & -> & En); [lia|].
  destruct num_0_8_value as (q8 & -> & E8).
  unfold mul.
  assert (Ex : (qn * q8 == inject_Z n * (4 # 5) * (1 + (1 # 2 ^ 54)))%Q)
    by (rewrite En, E8; ring).
  set (x := (qn * q8)%Q) in *.
  assert (Q4 : (inject_Z (4 * n) == 4 * inject_Z n)%Q)
    by (rewrite inject_Z_mult; reflexivity).
  pose proof (Z.div_mod (4 * n) 5 ltac:(lia)) as Dm.
  pose proof (Z.mod_pos_bound (4 * n) 5 ltac:(lia)) as Bm.
  set (k := 4 * n / 5) in *. set (f := (4 * n) mod 5) in *.
  assert (Hk : 0 <= k < 2 ^ 32) by lia.
  assert (Q5 : (4 * inject_Z n == 5 * inject_Z k + inject_Z f)%Q).
  { rewrite <- Q4, Dm, inject_Z_plus, inject_Z_mult. reflexivity. }
  clearbody k f. clear Q4.
  assert (Qk : (0 <= inject_Z k)%Q) by (rewrite <- (Zle_Qle 0); lia).
  assert (Qk' : (inject_Z k <= 4294967295)%Q).
  { change 4294967295%Q with (inject_Z 4294967295).
    rewrite <- Zle_Qle. lia. }
  change (2 ^ 54)%positive with 18014398509481984%positive in *.
  destruct (Z.eq_dec f 0) as [F0|F0].
  - (* a multiple of 5: the product rounds to [4 n / 5] *)
    rewrite F0 in Q5. change (inject_Z 0) with 0%Q in Q5.
    destruct (Z.eq_dec k 0) as [K0|K0].
    + assert (n = 0) by lia. subst n.
      assert (Qnum x = 0).
      { unfold x. cbn [Qmult Qnum].
        unfold Qeq in En; cbn [inject_Z Qnum Qden] in En. nia. }
      unfold round. rewrite H. cbn [Z.compare].
      rewrite ltb_Finite, Ec. change 0%Q with (inject_Z 0).
      rewrite <- Zlt_Qlt. lia.
    + clearbody x.
      destruct (round_near_integer x k) as (q & -> & Eq); try lia.
      * lra.
      * change (2 ^ 54)%positive with 18014398509481984%positive. lra.
      * rewrite ltb_Finite, Ec, Eq, <- Zlt_Qlt. lia.
  - (* otherwise it stays strictly between two integers *)
    assert (Qf : (1 <= inject_Z f <= 4)%Q).
    { change 1%Q with (inject_Z 1). change 4%Q with (inject_Z 4).
      rewrite <- !Zle_Qle. lia. }
    clearbody x.
    destruct (round_between x k (k + 1)) as (q & E1 & B1); try lia.
    { rewrite inject_Z_plus. change (inject_Z 1) with 1%Q. split; lra. }
    destruct (round_error x 31) as (q' & E2 & B2); try lia.
    { lra. }
    { change (inject_Z (2 ^ (31 + 1))) with 4294967296%Q. lra. }
    rewrite E1 in E2. injection E2 as <-. rewrite E1.
    rewrite inject_Z_plus in B1. change (inject_Z 1) with 1%Q in B1.
    apply Qabs_le_iff in B2.
    change (Z.to_pos (2 ^ (53 - 31))) with 4194304%positive in B2.
    rewrite ltb_Finite, Ec.
    split.
    + intros L. destruct (Z_le_gt_dec c k) as [C|C]; [lia|].
      exfalso. assert (k + 1 <= c) by lia.
      rewrite Zle_Qle, inject_Z_plus in H.
      change (inject_Z 1) with 1%Q in H. lra.
    + intros L. assert (C : c <= k) by lia.
      rewrite Zle_Qle in C. lra.
Qed.
End ExactFacts.

Module CleanerFacts.
Import DataUtils Spec.

Section WithHost.
Variable host : Host.

(** The normalizer never turns a cell that is not blank into null. *)
Lemma convertValue_not_null (value : jsval) :
  is_blank value = false -> convertValue host value <> VNull.
Proof.
  destruct value as [| |b|n|s|c r]; cbn [is_blank convertValue];
    try discriminate.
  intros _.
  destruct (Str.is_integer_literal _); [discriminate|].
  destruct (Str.is_decimal_literal _); [discriminate|].
  destruct (moment_strict host _); [discriminate|].
  destruct (existsb _ _); [discriminate|].
  destruct (existsb _ _); discriminate.
Qed.

Lemma normalize_null (value : jsval) :
  match normalize host value with VNull => true | _ => false end
  = is_blank value.
Proof.
  unfold normalize. destruct (is_blank value) eqn:E; [reflexivity|].
  pose proof (convertValue_not_null value E).
  destruct (convertValue host value); congruence.
Qed.

Lemma cleanRow_flag_from (row : object jsval) (columns : list string) :
  forall st,
    snd (fold_left (cleanCell host row) columns st)
    = snd st || negb (all_null host columns row).
Proof.
  induction columns as [|col columns IH]; intros [cleanedRow flag].
  - cbn. rewrite orb_false_r. reflexivity.
  - cbn [fold_left all_null forallb]. rewrite IH.
    fold (all_null host columns row).
    rewrite normalize_null. unfold cleanCell.
    destruct (is_blank (Obj.get row col)); cbn [snd andb negb].
    + reflexivity.
    + rewrite orb_true_r. reflexivity.
Qed.

(** [hasValidData] is set exactly on the rows that are not all null. *)
Lemma cleanRow_flag (columns : list string) (row : object jsval) :
  snd (cleanRow host columns row) = negb (all_null host columns row).
Proof. unfold cleanRow. rewrite cleanRow_flag_from. reflexivity. Qed.

Lemma cleanRows_length (columns : list string) (rows : list (object jsval)) :
  forall index,
    length (fst (cleanRows host columns rows index))
    = length (filter (fun row => negb (all_null host columns row)) rows).
Proof.
  induction rows as [|row rows IH]; intros index; [reflexivity|].
  cbn [cleanRows filter].
  pose proof (cleanRow_flag columns row) as F.
  destruct (cleanRow host columns row) as [cleanedRow flag].
  cbn [snd] in F. subst flag.
  specialize (IH (S index)).
  destruct (cleanRows host columns rows (S index)) as [kept warned].
  cbn [fst] in IH.
  destruct (all_null host columns row); cbn [negb fst length];
    rewrite IH; reflexivity.
Qed.

(** One warning per dropped row. *)
Lemma cleanRows_warnings (columns : list string) (rows : list (object jsval)) :
  forall index,
    length (snd (cleanRows host columns rows index))
    = length (filter (all_null host columns) rows).
Proof.
  induction rows as [|row rows IH]; intros index; [reflexivity|].
  cbn [cleanRows filter].
  pose proof (cleanRow_flag columns row) as F.
  destruct (cleanRow host columns row) as [cleanedRow flag].
  cbn [snd] in F. subst flag.
  specialize (IH (S index)).
  destruct (cleanRows host columns rows (S index)) as [kept warned].
  cbn [snd] in IH.
  destruct (all_null host columns row); cbn [negb snd length];
    rewrite IH; reflexivity.
Qed.

Lemma kept_plus_dropped (columns : list string) (rows : list (object jsval)) :
  (length (filter (fun row => negb (all_null host columns row)) rows)
   + length (filter (all_null host columns) rows)
   = length rows)%nat.
Proof.
  induction rows as [|row rows IH]; [reflexivity|].
  cbn [filter]. destruct (all_null host columns row);
    cbn [negb length]; lia.
Qed.

Lemma all_null_no_columns (rows : list (object jsval)) :
  filter (all_null host []) rows = rows.
Proof.
  induction rows as [|row rows IH]; [reflexivity|].
  cbn. cbn in IH. rewrite IH. reflexivity.
Qed.

(** The rows kept, for every input. *)
Lemma cleanData_kept (data : argument) :
  (length (DataUtils.data (cleanData host data)) + all_null_rows host data
   = length (rows_of data))%nat.
Proof.
  unfold all_null_rows, declared_columns.
  destruct data as [v|[|first rest]]; try reflexivity.
  cbn [rows_of cleanData].
  destruct (Obj.keys first) as [|col cols] eqn:K.
  - cbn [DataUtils.data length]. rewrite all_null_no_columns. reflexivity.
  - pose proof (cleanRows_length (col :: cols) (first :: rest) 0%nat) as L.
    destruct (cleanRows host (col :: cols) (first :: rest) 0) as [kept warned].
    cbn [fst] in L. cbn [DataUtils.data]. rewrite L.
    apply kept_plus_dropped.
Qed.

Lemma cleanData_counts (data : argument) :
  (originalCount (cleanData host data) = None
   /\ cleanedCount (cleanData host data) = None)
  \/ (originalCount (cleanData host data) = Some (length (rows_of data))
      /\ cleanedCount (cleanData host data)
         = Some (length (DataUtils.data (cleanData host data)))).
Proof.
  destruct data as [v|[|first rest]]; try (left; split; reflexivity).
  cbn [rows_of cleanData].
  destruct (Obj.keys first) as [|col cols]; [left; split; reflexivity|].
  destruct (cleanRows host (col :: cols) (first :: rest) 0) as [kept warned].
  right. split; reflexivity.
Qed.
End WithHost.

Lemma example_moment_needs_digit : moment_needs_digit ExampleHost.host.
Proof.
  intros s iso. cbn [moment_strict ExampleHost.host].
  destruct s as [|c rest].
  - discriminate.
  - intros H. exists c, rest. split; [reflexivity|].
    destruct (Str.is_digit c) eqn:D; [reflexivity|].
    unfold ExampleHost.moment in H. cbn [ExampleHost.shaped] in H.
    cbn [Ascii.eqb Bool.eqb] in H. rewrite D in H. cbn [andb] in H.
    discriminate.
Qed.
End CleanerFacts.

Import DataUtils Spec CleanerFacts.

(* ===================================================================== *)
(** * The cleaner: warnings, shape of the rows, idempotence *)
(* ===================================================================== *)

Module CleaningFacts.
Import Obj ObjFacts KeyFacts DataUtils Spec CleanerFacts ExactFacts.
Import Cleaning.

Section Keys.
Context {A : Type}.

Lemma keys_add_index_indep (i : N) (k : string) (v v' : A)
    (o o' : object A) :
  keys o = keys o' ->
  keys (add_index i k v o) = keys (add_index i k v' o').
Proof.
  revert o'. induction o as [|[k1 v1] o IH]; intros [|[k2 v2] o'];
    cbn [keys map fst add_index]; try discriminate; [reflexivity|].
  intros H. injection H as <- H.
  destruct (array_index k1) as [j|].
  - destruct (j <? i)%N; cbn [keys map fst].
    + f_equal. apply IH, H.
    + f_equal. f_equal. exact H.
  - cbn [keys map fst]. f_equal. f_equal. exact H.
Qed.

Lemma own_keys_indep (k : string) (o o' : object A) :
  keys o = keys o' -> (own k o = None <-> own k o' = None).
Proof. intros H. rewrite !own_None_keys, H. reflexivity. Qed.

(** The keys after [o[k] = v] depend on the keys before, not on the
    values. *)
Lemma keys_set_indep (k : string) (v v' : A) (o o' : object A) :
  keys o = keys o' -> keys (set k v o) = keys (set k v' o').
Proof.
  intros H. pose proof (own_keys_indep k o o' H) as E. unfold set.
  destruct (own k o) eqn:E1, (own k o') eqn:E2.
  - rewrite !keys_replace. exact H.
  - exfalso. assert (C : Some a = None) by (apply E; reflexivity).
    discriminate C.
  - exfalso. assert (C : Some a = None) by (apply E; reflexivity).
    discriminate C.
  - destruct (String.eqb k "__proto__"); [exact H|].
    destruct (array_index k).
    + apply keys_add_index_indep, H.
    + unfold keys. rewrite !map_app. cbn [map fst]. f_equal. exact H.
Qed.

Lemma In_keys_set (k k' : string) (v : A) (o : object A) :
  In k (keys (set k' v o))
  <-> In k (keys o) \/ (k = k' /\ String.eqb k' "__proto__" = false).
Proof.
  unfold set. destruct (own k' o) eqn:E.
  - rewrite keys_replace. split; [tauto|].
    intros [H|[-> _]]; [exact H|].
    destruct (in_dec string_dec k' (keys o)) as [I|I]; [exact I|].
    apply own_None_keys in I. congruence.
  - destruct (String.eqb k' "__proto__") eqn:P.
    + split; [tauto|]. intros [H|[_ C]]; [exact H | discriminate C].
    + destruct (array_index k').
      * split.
        -- intros H.
           apply (Permutation_in _ (keys_add_index _ _ _ _)) in H.
           destruct H as [<-|H]; [right; split; reflexivity | left; exact H].
        -- intros H.
           apply (Permutation_in _
                    (Permutation_sym (keys_add_index _ _ _ _))).
           destruct H as [H|[-> _]]; [right; exact H | left; reflexivity].
      * unfold keys. rewrite map_app, in_app_iff. cbn [map fst In].
        split.
        -- intros [H|[<-|[]]]; [left; exact H | right; split; reflexivity].
        -- intros [H|[-> _]]; [left; exact H | right; left; reflexivity].
Qed.
End Keys.

Section WithHost.
Variable host : Host.

Lemma cleanCell_keys (row row' : object jsval)
    (st st' : object jsval * bool) (col : string) :
  keys (fst st) = keys (fst st') ->
  keys (fst (cleanCell host row st col))
  = keys (fst (cleanCell host row' st' col)).
Proof.
  destruct st as [o f], st' as [o' f']. cbn [fst]. intros H.
  unfold cleanCell.
  destruct (is_blank (get row col)), (is_blank (get row' col));
    cbn [fst]; apply keys_set_indep, H.
Qed.

Lemma cleanRow_keys_from (columns : list string)
    (row row' : object jsval) :
  forall st st',
    keys (fst st) = keys (fst st') ->
    keys (fst (fold_left (cleanCell host row) columns st))
    = keys (fst (fold_left (cleanCell host row') columns st')).
Proof.
  induction columns as [|col columns IH]; intros st st' H; [exact H|].
  cbn [fold_left]. apply IH, cleanCell_keys, H.
Qed.

(** The keys of a cleaned row depend on the columns alone. *)
Lemma cleanRow_keys (columns : list string) (row row' : object jsval) :
  keys (fst (cleanRow host columns row))
  = keys (fst (cleanRow host columns row')).
Proof. apply cleanRow_keys_from. reflexivity. Qed.

Lemma cleanRow_In_from (columns : list string) (row : object jsval)
    (k : string) :
  forall st,
    In k (keys (fst (fold_left (cleanCell host row) columns st)))
    <-> In k (keys (fst st)) \/ In k (settable columns).
Proof.
  induction columns as [|col columns IH]; intros [o f];
    cbn [fold_left settable filter].
  - cbn [In]. tauto.
  - rewrite IH. fold (settable columns).
    assert (E : In k (keys (fst (cleanCell host row (o, f) col)))
                <-> In k (keys o)
                    \/ (k = col /\ String.eqb col "__proto__" = false)).
    { unfold cleanCell. destruct (is_blank _); cbn [fst];
        apply In_keys_set. }
    rewrite E. cbn [fst].
    destruct (String.eqb col "__proto__") eqn:P; cbn [negb In].
    + split; [intros [[H|[_ C]]|H]; [tauto | discriminate C | tauto]
             | tauto].
    + split; [intros [[H|[-> _]]|H]; tauto|].
      intros [H|[<-|H]]; [tauto | left; right; split; reflexivity | tauto].
Qed.

Lemma cleanRow_In (columns : list string) (row : object jsval)
    (k : string) :
  In k (keys (fst (cleanRow host columns row)))
  <-> In k (settable columns).
Proof.
  unfold cleanRow. rewrite cleanRow_In_from. cbn [fst keys map In]. tauto.
Qed.

Lemma cleanRow_NoDup_from (columns : list string) (row : object jsval) :
  forall st,
    NoDup (keys (fst st)) ->
    NoDup (keys (fst (fold_left (cleanCell host row) columns st))).
Proof.
  induction columns as [|col columns IH]; intros [o f] H; [exact H|].
  cbn [fold_left]. apply IH. unfold cleanCell.
  destruct (is_blank _); cbn [fst] in *; apply NoDup_keys_set, H.
Qed.

(** Every row the cleaner keeps is the cleaned form of an input row. *)
Lemma cleanRows_In (columns : list string) (rows : list (object jsval)) :
  forall index r,
    In r (fst (cleanRows host columns rows index)) ->
    exists row, In row rows /\ r = fst (cleanRow host columns row).
Proof.
  induction rows as [|row rows IH]; intros index r; [intros []|].
  cbn [cleanRows].
  destruct (cleanRow host columns row) as [cleanedRow flag] eqn:E.
  destruct (cleanRows host columns rows (S index)) as [kept ws] eqn:E'.
  assert (IH' : In r kept ->
                exists row0, In row0 rows
                             /\ r = fst (cleanRow host columns row0)).
  { intros H. apply (IH (S index)). rewrite E'. exact H. }
  destruct flag; cbn [fst In].
  - intros [<-|H].
    + exists row. split; [left; reflexivity|]. rewrite E. reflexivity.
    + destruct (IH' H) as (row0 & I & ->). exists row0.
      split; [right; exact I | reflexivity].
  - intros H. destruct (IH' H) as (row0 & I & ->). exists row0.
    split; [right; exact I | reflexivity].
Qed.

(** The warnings of the loop: one per dropped row, in order. *)
Lemma cleanRows_row_warnings (columns : list string)
    (rows : list (object jsval)) :
  forall index,
    snd (cleanRows host columns rows index)
    = map row_warning (blank_rows host columns rows index).
Proof.
  induction rows as [|row rows IH]; intros index; [reflexivity|].
  cbn [cleanRows blank_rows].
  pose proof (cleanRow_flag host columns row) as F.
  destruct (cleanRow host columns row) as [cleanedRow flag].
  cbn [snd] in F. subst flag.
  specialize (IH (S index)).
  destruct (cleanRows host columns rows (S index)) as [kept ws].
  cbn [snd] in IH. subst ws.
  destruct (all_null host columns row); cbn [negb snd map];
    reflexivity.
Qed.

Lemma data_of_cleanData (first : object jsval)
    (rest : list (object jsval)) :
  keys first <> [] ->
  DataUtils.data (cleanData host (Array (first :: rest)))
  = fst (cleanRows host (keys first) (first :: rest) 0).
Proof.
  intros H. cbn [cleanData].
  destruct (keys first) as [|col cols] eqn:K; [congruence|].
  destruct (cleanRows host (col :: cols) (first :: rest) 0).
  reflexivity.
Qed.
End WithHost.

(** [trim] leaves a trimmed string as it is. *)
Lemma trimEnd_nonempty (c : ascii) (s : string) :
  Str.is_space c = false -> Str.trimEnd (String c s) <> "".
Proof.
  intros H. cbn [Str.trimEnd].
  destruct (Str.trimEnd s); [rewrite H|]; discriminate.
Qed.

Lemma trimEnd_head (s : string) (c : ascii) (t : string) :
  Str.trimEnd s = String c t -> exists s', s = String c s'.
Proof.
  destruct s as [|c' s']; cbn [Str.trimEnd]; [discriminate|].
  destruct (Str.trimEnd s').
  - destruct (Str.is_space c'); [discriminate|].
    intros H. injection H as <- _. eexists. reflexivity.
  - intros H. injection H as <- _. eexists. reflexivity.
Qed.

Lemma trimEnd_idem (s : string) : Str.trimEnd (Str.trimEnd s) = Str.trimEnd s.
Proof.
  induction s as [|c s IH]; [reflexivity|].
  cbn [Str.trimEnd].
  destruct (Str.trimEnd s) as [|c' t] eqn:E.
  - destruct (Str.is_space c) eqn:Sp; [reflexivity|].
    cbn [Str.trimEnd]. rewrite Sp. reflexivity.
  - cbn [Str.trimEnd] in *. rewrite IH. reflexivity.
Qed.

Lemma trimStart_head (s : string) (c : ascii) (t : string) :
  Str.trimStart s = String c t -> Str.is_space c = false.
Proof.
  induction s as [|c' s IH]; cbn [Str.trimStart]; [discriminate|].
  destruct (Str.is_space c') eqn:Sp; [exact IH|].
  intros H. injection H as <- _. exact Sp.
Qed.

Lemma trim_idem (s : string) : Str.trim (Str.trim s) = Str.trim s.
Proof.
  unfold Str.trim.
  destruct (Str.trimEnd (Str.trimStart s)) as [|c t] eqn:E; [reflexivity|].
  destruct (trimEnd_head _ _ _ E) as (s' & Es).
  pose proof (trimStart_head _ _ _ Es) as Sp.
  cbn [Str.trimStart]. rewrite Sp, <- E. apply trimEnd_idem.
Qed.
End CleaningFacts.

(* ===================================================================== *)
(** * The column profiles of [analyzeDataStructure] *)
(* ===================================================================== *)

Module ProfileFacts.
Import Double DoubleFacts PercentFacts Obj ObjFacts KeyFacts Server Spec.
Import ExactFacts RangeFacts Num Profile.

Section Entries.
Context {A : Type}.

Lemma In_replace (k k' : string) (v v' : A) (o : object A) :
  In (k, v) (replace k' v' o) -> (k = k' /\ v = v') \/ In (k, v) o.
Proof.
  induction o as [|[k2 v2] o IH]; cbn [replace In]; [tauto|].
  destruct (String.eqb k' k2); cbn [In].
  - intros [E|H]; [injection E as <- <-; left; split; reflexivity|].
    right. right. exact H.
  - intros [E|H]; [right; left; exact E|].
    destruct (IH H) as [L|R]; [left; exact L | right; right; exact R].
Qed.

Lemma In_add_index (i : N) (k k' : string) (v v' : A) (o : object A) :
  In (k, v) (add_index i k' v' o) <-> (k, v) = (k', v') \/ In (k, v) o.
Proof.
  induction o as [|[k2 v2] o IH]; cbn [add_index In].
  - split; [intros [E|[]]; left; congruence | intros [E|[]]; left; congruence].
  - destruct (array_index k2) as [j|].
    + destruct (j <? i)%N; cbn [In].
      * rewrite IH. split; [intros [E|[E|H]] | intros [E|[E|H]]]; tauto.
      * split; [intros [E|H]; [left; congruence | right; exact H]
               | intros [E|H]; [left; congruence | right; exact H]].
    + cbn [In].
      split; [intros [E|H]; [left; congruence | right; exact H]
             | intros [E|H]; [left; congruence | right; exact H]].
Qed.

Lemma In_set (k k' : string) (v v' : A) (o : object A) :
  In (k, v) (set k' v' o) -> (k = k' /\ v = v') \/ In (k, v) o.
Proof.
  unfold set. destruct (own k' o).
  - apply In_replace.
  - destruct (String.eqb k' "__proto__"); [tauto|].
    destruct (array_index k').
    + rewrite In_add_index. intros [E|H]; [left|right; exact H].
      injection E as -> ->. split; reflexivity.
    + rewrite in_app_iff. cbn [In].
      intros [H|[E|[]]]; [right; exact H | left].
      injection E as -> ->. split; reflexivity.
Qed.

Lemma In_replace_same (k : string) (v : A) (o : object A) :
  own k o <> None -> In (k, v) (replace k v o).
Proof.
  induction o as [|[k2 v2] o IH]; cbn [own replace]; [congruence|].
  destruct (String.eqb k k2); cbn [In]; [left; reflexivity|].
  intros H. right. apply IH, H.
Qed.

Lemma In_replace_other (k k' : string) (v v' : A) (o : object A) :
  k <> k' -> In (k, v) o -> In (k, v) (replace k' v' o).
Proof.
  intros N. induction o as [|[k2 v2] o IH]; cbn [replace In]; [tauto|].
  destruct (String.eqb_spec k' k2) as [E|E]; cbn [In].
  - intros [C|H]; [injection C as -> _; congruence | right; exact H].
  - intros [C|H]; [left; exact C | right; apply IH, H].
Qed.

Lemma In_set_same (k : string) (v : A) (o : object A) :
  String.eqb k "__proto__" = false -> In (k, v) (set k v o).
Proof.
  intros P. unfold set. destruct (own k o) eqn:E.
  - apply In_replace_same. congruence.
  - rewrite P. destruct (array_index k).
    + apply In_add_index. left. reflexivity.
    + apply in_app_iff. right. left. reflexivity.
Qed.

Lemma In_set_other (k k' : string) (v v' : A) (o : object A) :
  k <> k' -> In (k, v) o -> In (k, v) (set k' v' o).
Proof.
  intros N H. unfold set. destruct (own k' o).
  - apply In_replace_other; assumption.
  - destruct (String.eqb k' "__proto__"); [exact H|].
    destruct (array_index k').
    + apply In_add_index. right. exact H.
    + apply in_app_iff. left. exact H.
Qed.

(** The entries of an object filled by [columns.forEach(col => o[col]
    = F(col))]. *)
Lemma In_filled (F : string -> A) (cols : list string) :
  forall (o : object A) k v,
    In (k, v) (fold_left (fun o col => set col (F col) o) cols o) ->
    v = F k \/ In (k, v) o.
Proof.
  induction cols as [|col cols IH]; intros o k v; cbn [fold_left];
    [tauto|].
  intros H. destruct (IH _ _ _ H) as [E|H']; [left; exact E|].
  destruct (In_set _ _ _ _ _ H') as [[-> ->]|H2];
    [left; reflexivity | right; exact H2].
Qed.

Lemma filled_In (F : string -> A) (cols : list string) :
  forall (o : object A) k,
    String.eqb k "__proto__" = false ->
    In k cols \/ In (k, F k) o ->
    In (k, F k) (fold_left (fun o col => set col (F col) o) cols o).
Proof.
  induction cols as [|col cols IH]; intros o k P; cbn [fold_left In].
  - intros [[]|H]. exact H.
  - intros H. apply IH; [exact P|].
    destruct (string_dec k col) as [<-|N].
    + right. apply In_set_same, P.
    + destruct H as [[E|H]|H]; [congruence | left; exact H|].
      right. apply In_set_other; assumption.
Qed.
End Entries.

Lemma distinct_cells_length (col : string) (rows : list (object jsval)) :
  (length (distinct_cells col rows) <= length rows)%nat
  /\ (rows <> [] -> 1 <= length (distinct_cells col rows))%nat.
Proof.
  split.
  - induction rows as [|r rows IH]; cbn [distinct_cells length]; [lia|].
    pose proof (filter_length_le
                  (fun r' => negb (same_cell col r r'))
                  (distinct_cells col rows)). lia.
  - destruct rows; [congruence|]. intros _. cbn [distinct_cells length]. lia.
Qed.

Lemma completeness_ok_all :
  forallb (fun k => completeness_ok (tenths (Z.of_nat k))) (seq 0 1001)
  = true.
Proof. vm_compute. reflexivity. Qed.

Lemma flagged_all :
  forallb (fun k => Bool.eqb (flagged (tenths (Z.of_nat k)))
                      (500 <? Z.of_nat k))
    (seq 0 1001) = true.
Proof. vm_compute. reflexivity. Qed.

Lemma tenths_completeness (n : Z) :
  0 <= n <= 1000 ->
  exists c, sub num_100 (toNumber (tenths n)) = Finite c
            /\ (0 <= c <= 100)%Q.
Proof.
  intros Hn. pose proof completeness_ok_all as H.
  rewrite forallb_forall in H.
  specialize (H (Z.to_nat n)). rewrite Z2Nat.id in H by lia.
  assert (Hin : In (Z.to_nat n) (seq 0 1001)) by (apply in_seq; lia).
  apply H in Hin. unfold completeness_ok in Hin.
  destruct (sub num_100 (toNumber (tenths n))) as [c| |];
    try discriminate.
  apply andb_true_iff in Hin. destruct Hin as [H1 H2].
  exists c. split; [reflexivity|].
  split; apply Qle_bool_iff; assumption.
Qed.

Lemma tenths_flagged (n : Z) :
  0 <= n <= 1000 -> flagged (tenths n) = (500 <? n).
Proof.
  intros Hn. pose proof flagged_all as H.
  rewrite forallb_forall in H.
  specialize (H (Z.to_nat n)). rewrite Z2Nat.id in H by lia.
  assert (Hin : In (Z.to_nat n) (seq 0 1001)) by (apply in_seq; lia).
  apply H in Hin. apply eqb_prop in Hin. exact Hin.
Qed.

Section WithHost.
Variable host : Host.

(** None of a positive count is 0.0 percent of it. *)
Lemma percentage_none (t : Z) :
  0 < t < 2 ^ 53 -> percentage host 0 t = "0.0".
Proof.
  intros Ht. unfold percentage.
  destruct (of_Z_exact t) as (qt & -> & Et); [lia|].
  change (of_Z 0) with (Finite 0).
  assert (Hz : is_zero qt = false).
  { unfold is_zero. apply Z.eqb_neq.
    assert (0 < qt)%Q
      by (rewrite Et; unfold Qlt, inject_Z; simpl; lia).
    unfold Qlt in H; simpl in H. lia. }
  unfold div. rewrite Hz.
  assert (E : round (0 / qt) = Finite 0).
  { unfold round. cbn [Qnum Qdiv Qmult].
    rewrite Z.mul_0_l. reflexivity. }
  rewrite E. reflexivity.
Qed.

(** The percentage string of a count in a larger count, as a number
    of tenths. *)
Lemma pattern_tenths (c t : nat) :
  (c <= t)%nat -> (0 < t)%nat -> Z.of_nat t < 2 ^ 32 ->
  exists n, percentage host (Z.of_nat c) (Z.of_nat t) = tenths n
    /\ 0 <= n <= 1000
    /\ (Qabs (inject_Z n / 10
              - exact_percentage (Z.of_nat c) (Z.of_nat t))
        <= (1 # 20) + (1 # 2 ^ 45))%Q.
Proof. intros. apply percentage_tenths; lia. Qed.

Lemma nullCount_le (data : list (object jsval)) (col : string) :
  (nullCount (columnPattern host data col) <= length data)%nat.
Proof. cbn [columnPattern nullCount]. apply filter_length_le. Qed.

(** The entries of the two maps of a report. *)
Lemma report_entries (data : argument) (r : report) :
  analyzeDataStructure host data = Returned (Some r) ->
  rows_of data <> []
  /\ columns (structure r) = DataUtils.declared_columns data
  /\ totalRows (structure r) = length (rows_of data)
  /\ columnPatterns r
     = fold_left
         (fun o col => set col (columnPattern host (rows_of data) col) o)
         (columns (structure r)) []
  /\ dataQuality r
     = fold_left
         (fun o col => set col (columnQuality host (rows_of data) col) o)
         (columns (structure r)) []
  /\ qualityScore r = calculateDataQualityScore host (dataQuality r)
  /\ dataRecommendations r
     = generateDataRecommendations (columnPatterns r)
         (dateColumns (structure r)) (statusColumns (structure r))
         (userColumns (structure r)).
Proof.
  unfold analyzeDataStructure.
  destruct data as [v|[|first rest]]; cbn [Server.analyzeDataStructure].
  - destruct (truthy v); [destruct v|]; discriminate.
  - discriminate.
  - cbn [bind rows_of]. intros H. injection H as <-.
    cbn [structure columnPatterns dataQuality qualityScore
         dataRecommendations columns totalRows dateColumns statusColumns
         userColumns DataUtils.declared_columns rows_of].
    repeat split. discriminate.
Qed.

Lemma pattern_of_entry (data : argument) (r : report) (col : string)
    (p : pattern) :
  analyzeDataStructure host data = Returned (Some r) ->
  In (col, p) (columnPatterns r) ->
  p = columnPattern host (rows_of data) col.
Proof.
  intros H Hin.
  destruct (report_entries data r H) as (_ & _ & _ & E & _).
  rewrite E in Hin. apply In_filled in Hin.
  destruct Hin as [Hp|[]]. exact Hp.
Qed.

Lemma quality_of_entry (data : argument) (r : report) (col : string)
    (q : quality) :
  analyzeDataStructure host data = Returned (Some r) ->
  In (col, q) (dataQuality r) ->
  q = columnQuality host (rows_of data) col.
Proof.
  intros H Hin.
  destruct (report_entries data r H) as (_ & _ & _ & _ & E & _).
  rewrite E in Hin. apply In_filled in Hin.
  destruct Hin as [Hp|[]]. exact Hp.
Qed.

Lemma entries_of_column (data : argument) (r : report) (col : string) :
  analyzeDataStructure host data = Returned (Some r) ->
  In col (columns (structure r)) ->
  String.eqb col "__proto__" = false ->
  In (col, columnPattern host (rows_of data) col) (columnPatterns r)
  /\ In (col, columnQuality host (rows_of data) col) (dataQuality r).
Proof.
  intros H Hin P.
  destruct (report_entries data r H) as (_ & _ & _ & -> & -> & _).
  split.
  - apply (filled_In (fun c => columnPattern host (rows_of data) c));
      [exact P | left; exact Hin].
  - apply (filled_In (fun c => columnQuality host (rows_of data) c));
      [exact P | left; exact Hin].
Qed.

(** The share of missing cells behind a percentage string. *)
Lemma tenths_share (c t : nat) (n : Z) :
  (0 < t)%nat ->
  (Qabs (inject_Z n / 10 - exact_percentage (Z.of_nat c) (Z.of_nat t))
   <= (1 # 20) + (1 # 2 ^ 45))%Q ->
  (500 < n -> Z.of_nat t < 2 * Z.of_nat c)
  /\ (501 * Z.of_nat t <= 1000 * Z.of_nat c -> 500 < n).
Proof.
  intros Ht D. apply Qabs_le_iff in D.
  set (e := exact_percentage (Z.of_nat c) (Z.of_nat t)) in *.
  assert (Tp : (0 < inject_Z (Z.of_nat t))%Q).
  { change 0%Q with (inject_Z 0). rewrite <- Zlt_Qlt. lia. }
  assert (E : (e * inject_Z (Z.of_nat t) == 100 * inject_Z (Z.of_nat c))%Q).
  { unfold e, exact_percentage. change (inject_Z 100) with 100%Q.
    field. lra. }
  assert (Hq : (inject_Z n / 10 == inject_Z n * (1 # 10))%Q)
    by reflexivity.
  rewrite Hq in D. clearbody e.
  change (2 ^ 45)%positive with 35184372088832%positive in D.
  set (T := inject_Z (Z.of_nat t)) in *.
  set (C := inject_Z (Z.of_nat c)) in *.
  split.
  - intros Hn. assert (Hn' : 501 <= n) by lia.
    rewrite Zle_Qle in Hn'. change (inject_Z 501) with 501%Q in Hn'.
    assert (L : (50 < e)%Q) by lra.
    assert (M : (50 * T < e * T)%Q)
      by (apply Qmult_lt_compat_r; assumption).
    assert (R : (T < 2 * C)%Q) by lra.
    unfold T, C in R.
    change 2%Q with (inject_Z 2) in R.
    rewrite <- inject_Z_mult, <- Zlt_Qlt in R. exact R.
  - intros Hc.
    assert (Hc' : (501 * T <= 1000 * C)%Q).
    { unfold T, C. change 501%Q with (inject_Z 501).
      change 1000%Q with (inject_Z 1000).
      rewrite <- !inject_Z_mult, <- Zle_Qle. exact Hc. }
    assert (L : ((501 # 10) <= e)%Q).
    { destruct (Qlt_le_dec e (501 # 10)) as [X|X]; [|exact X].
      exfalso.
      assert (M : (e * T < (501 # 10) * T)%Q)
        by (apply Qmult_lt_compat_r; assumption).
      lra. }
    assert (N : 500 < n); [|exact N].
    rewrite Zlt_Qlt. change (inject_Z 500) with 500%Q. lra.
Qed.

Lemma sum_hundreds (l : list number) :
  Forall (fun x => x = Finite 100) l ->
  forall j s,
    0 <= j -> j + Z.of_nat (length l) < 2 ^ 32 ->
    (s == inject_Z (100 * j))%Q ->
    exists s', fold_left add l (Finite s) = Finite s'
               /\ (s' == inject_Z (100 * (j + Z.of_nat (length l))))%Q.
Proof.
  induction 1 as [|x l Hx Hl IH]; intros j s Hj Hb Es.
  - exists s. split; [reflexivity|]. cbn [length].
    rewrite Z.add_0_r. exact Es.
  - subst x. cbn [fold_left add length] in *.
    destruct (round_between (s + 100) (100 * (j + 1)) (100 * (j + 1)))
      as (s1 & E1 & B1); try lia.
    { assert (Q : (inject_Z (100 * (j + 1)) == inject_Z (100 * j) + 100)%Q).
      { replace (100 * (j + 1)) with (100 * j + 100) by lia.
        rewrite inject_Z_plus. reflexivity. }
      rewrite Q, Es. split; apply Qle_refl. }
    rewrite E1.
    destruct (IH (j + 1) s1) as (s' & E' & B'); try lia.
    { apply Qle_antisym; tauto. }
    exists s'. split; [exact E'|].
    rewrite B'. replace (j + 1 + Z.of_nat (length l))
      with (j + Z.of_nat (S (length l))) by lia.
    reflexivity.
Qed.

Lemma sum_zeros (l : list number) :
  Forall (fun x => x = Finite 0) l ->
  fold_left add l (Finite 0) = Finite 0.
Proof.
  induction 1 as [|x l Hx Hl IH]; [reflexivity|].
  subst x. cbn [fold_left add]. exact IH.
Qed.

Lemma filled_length {A : Type} (F : string -> A) (cols : list string) :
  forall o : object A,
    (length (fold_left (fun o col => set col (F col) o) cols o)
     <= length o + length cols)%nat.
Proof.
  induction cols as [|col cols IH]; intros o; cbn [fold_left length];
    [lia|].
  specialize (IH (set col (F col) o)).
  assert (L : (length (set col (F col) o) <= S (length o))%nat).
  { rewrite <- (length_map fst (set col (F col) o)).
    rewrite <- (length_map fst o).
    change (length (keys (set col (F col) o)) <= S (length (keys o)))%nat.
    unfold set. destruct (own col o).
    - rewrite keys_replace. lia.
    - destruct (String.eqb col "__proto__"); [lia|].
      destruct (array_index col).
      + rewrite (Permutation_length (keys_add_index _ _ _ _)).
        cbn [length]. lia.
      + unfold keys. rewrite map_app, length_app. cbn [map length]. lia. }
  lia.
Qed.

(** The score of a map of qualities that are all complete, or all
    empty. *)
Lemma score_uniform (dq : object quality) :
  dq <> [] -> Z.of_nat (length dq) < 2 ^ 32 ->
  (Forall (fun e => completeness (snd e) = Finite 100) dq ->
   calculateDataQualityScore host dq = "Excellent")
  /\ (Forall (fun e => completeness (snd e) = Finite 0) dq ->
      calculateDataQualityScore host dq = "Poor").
Proof.
  intros Hne Hlen. unfold calculateDataQualityScore.
  cbn [parseFloat_of].
  set (scores := map (fun entry => completeness (snd entry)) dq).
  assert (Ls : length scores = length dq) by apply length_map.
  assert (Lp : 0 < Z.of_nat (length dq))
    by (destruct dq; [congruence | cbn [length]; lia]).
  destruct (of_Z_exact (Z.of_nat (length scores))) as (qm & Em & Eq);
    [lia|].
  rewrite Em.
  assert (Hz : is_zero qm = false).
  { unfold is_zero. apply Z.eqb_neq.
    assert (0 < qm)%Q.
    { rewrite Eq. change 0%Q with (inject_Z 0).
      rewrite <- Zlt_Qlt. lia. }
    unfold Qlt in H; simpl in H. lia. }
  split; intros Hall.
  - assert (Hs : Forall (fun x => x = Finite 100) scores).
    { unfold scores. apply Forall_map. exact Hall. }
    change num_0 with (Finite 0).
    destruct (sum_hundreds scores Hs 0 0) as (s & -> & Es);
      try lia; [reflexivity|].
    unfold div. rewrite Hz.
    destruct (round_between (s / qm) 100 100) as (a & -> & Ba);
      try lia.
    { assert (X : (s / qm == 100)%Q).
      { rewrite Es, Eq, Z.add_0_l, inject_Z_mult.
        change (inject_Z 100) with 100%Q. field.
        intros C. rewrite <- Eq in C.
        unfold is_zero in Hz. apply Z.eqb_neq in Hz.
        unfold Qeq in C; simpl in C. lia. }
      rewrite X. split; apply Qle_refl. }
    change (inject_Z 100) with 100%Q in Ba.
    change (of_Z 95) with (Finite 95).
    cbn [geb ltb].
    destruct (Qcompare_spec a 95) as [C|C|C]; try reflexivity; lra.
  - assert (Hs : Forall (fun x => x = Finite 0) scores).
    { unfold scores. apply Forall_map. exact Hall. }
    change num_0 with (Finite 0). rewrite (sum_zeros scores Hs).
    unfold div. rewrite Hz.
    assert (E : round (0 / qm) = Finite 0).
    { unfold round. cbn [Qnum Qdiv Qmult].
      rewrite Z.mul_0_l. reflexivity. }
    rewrite E. reflexivity.
Qed.
End WithHost.
End ProfileFacts.

Module TypeFacts.
Import Server.

Lemma distinct_In (x : string) (l : list string) :
  In x (distinct l) <-> In x l.
Proof.
  induction l as [|y l IH]; cbn [distinct In]; [tauto|].
  rewrite filter_In, IH.
  destruct (String.eqb_spec y x) as [E|N]; cbn [negb].
  - split; [tauto | intros _; left; exact E].
  - split; [tauto|]. intros [H|H]; [tauto | right; split; [exact H | reflexivity]].
Qed.

Lemma distinct_uniform (t : string) (l : list string) :
  l <> [] -> (forall x, In x l -> x = t) -> distinct l = [t].
Proof.
  induction l as [|y l IH]; [congruence|]. intros _ H.
  cbn [distinct]. rewrite (H y (or_introl eq_refl)).
  destruct l as [|z l]; [reflexivity|].
  rewrite IH; [| discriminate | intros x Hx; apply H; right; exact Hx].
  cbn [filter]. rewrite String.eqb_refl. reflexivity.
Qed.

Lemma distinct_head (l : list string) :
  match l with
  | [] => distinct l = []
  | x :: _ => exists r, distinct l = x :: r /\ ~ In x r
  end.
Proof.
  destruct l as [|x l]; [reflexivity|].
  cbn [distinct]. eexists. split; [reflexivity|].
  rewrite filter_In. intros [_ H]. rewrite String.eqb_refl in H. discriminate.
Qed.

(** A column without samples, with samples of one type, with samples of
    two types. *)
Lemma columnType_no_samples (data : list (object jsval)) (col : string) :
  sampleValues data col = [] -> columnType data col = "mixed".
Proof. intros H. unfold columnType. rewrite H. reflexivity. Qed.

Lemma columnType_uniform (data : list (object jsval)) (col t : string) :
  sampleValues data col <> [] ->
  (forall v, In v (sampleValues data col) -> typeof v = t) ->
  columnType data col = t.
Proof.
  intros Hn Ht. unfold columnType.
  rewrite (distinct_uniform t); [reflexivity | |].
  - destruct (sampleValues data col); [congruence | discriminate].
  - intros x Hx. apply in_map_iff in Hx. destruct Hx as (v & <- & Hv).
    apply Ht, Hv.
Qed.

Lemma columnType_mixed (data : list (object jsval)) (col : string)
    (v w : jsval) :
  In v (sampleValues data col) -> In w (sampleValues data col) ->
  typeof v <> typeof w ->
  columnType data col = "mixed".
Proof.
  intros Hv Hw Hd. unfold columnType.
  assert (Iv : In (typeof v) (distinct (map typeof (sampleValues data col))))
    by (apply distinct_In, in_map, Hv).
  assert (Iw : In (typeof w) (distinct (map typeof (sampleValues data col))))
    by (apply distinct_In, in_map, Hw).
  destruct (distinct _) as [|a [|b r]]; try reflexivity.
  cbn [In] in Iv, Iw. destruct Iv as [Ev|[]]. destruct Iw as [Ew|[]].
  congruence.
Qed.
End TypeFacts.

Module LegacyFacts.
Import Server Spec.

Section WithHost.
Variable host : Host.

Lemma count_conserved (status : jsval) (b : Legacy.bucket) :
  legacy_conserved b -> legacy_conserved (fst (Legacy.count host status b)).
Proof.
  unfold legacy_conserved, Legacy.count. intros (H1 & H2 & H3).
  destruct (truthy status); [|cbn; tauto].
  destruct (Legacy.classify host status); cbn; lia.
Qed.

Lemma processTicket_conserved (an : Legacy.analysis) (ticket : object jsval) :
  legacy_conserved (Legacy.firstResponseSLA an) ->
  legacy_conserved (Legacy.resolutionSLA an) ->
  legacy_conserved
    (Legacy.firstResponseSLA (Legacy.processTicket host an ticket))
  /\ legacy_conserved
       (Legacy.resolutionSLA (Legacy.processTicket host an ticket)).
Proof.
  intros H1 H2. unfold Legacy.processTicket.
  match goal with
  | |- context [Legacy.count host ?s (Legacy.firstResponseSLA an)] =>
      pose proof (count_conserved s _ H1) as C1;
      destruct (Legacy.count host s (Legacy.firstResponseSLA an))
  end.
  match goal with
  | |- context [Legacy.count host ?s (Legacy.resolutionSLA an)] =>
      pose proof (count_conserved s _ H2) as C2;
      destruct (Legacy.count host s (Legacy.resolutionSLA an))
  end.
  split; assumption.
Qed.

Lemma fold_conserved (tickets : list (object jsval)) :
  forall an,
    legacy_conserved (Legacy.firstResponseSLA an) ->
    legacy_conserved (Legacy.resolutionSLA an) ->
    legacy_conserved
      (Legacy.firstResponseSLA
         (fold_left (Legacy.processTicket host) tickets an))
    /\ legacy_conserved
         (Legacy.resolutionSLA
            (fold_left (Legacy.processTicket host) tickets an)).
Proof.
  induction tickets as [|ticket rest IH]; intros an H1 H2; cbn [fold_left].
  - split; assumption.
  - destruct (processTicket_conserved an ticket H1 H2).
    apply IH; assumption.
Qed.

Lemma finish_bucket_conserved (b : Legacy.bucket) :
  legacy_conserved b -> legacy_conserved (Legacy.finish_bucket host b).
Proof.
  unfold Legacy.finish_bucket, legacy_conserved.
  destruct (0 <? Legacy.total b); cbn; tauto.
Qed.
End WithHost.
End LegacyFacts.

Import Server Spec TypeFacts LegacyFacts.

(* ===================================================================== *)
(** * [DataUtils.inferDataType] and [DataUtils.analyzeDataQuality] *)
(* ===================================================================== *)

Module QualityFacts.
Import Double DoubleFacts PercentFacts Obj ObjFacts KeyFacts Spec.
Import ExactFacts TypeFacts Num ProfileFacts DataQuality.

Lemma num_0_5_value :
  exists q, num_0_5 = Finite q /\ (q == 1 # 2)%Q.
Proof. eexists. split; [vm_compute; reflexivity | reflexivity]. Qed.

Lemma gtb_Finite (p q : Q) : gtb (Finite p) (Finite q) = true <-> (q < p)%Q.
Proof. unfold gtb. apply ltb_Finite. Qed.

(** [c > n * 0.5] in doubles is [n < 2 c] in integers. *)
Lemma above_half (c n : Z) :
  0 <= c < 2 ^ 53 -> 0 <= n < 2 ^ 32 ->
  gtb (of_Z c) (mul (of_Z n) num_0_5) = true <-> n < 2 * c.
Proof.
  intros Hc Hn.
  destruct (of_Z_exact c) as (qc & -> & Ec); [lia|].
  destruct (of_Z_exact n) as (qn & -> & En); [lia|].
  destruct num_0_5_value as (q5 & -> & E5).
  unfold mul.
  assert (Ex : (qn * q5 == inject_Z n * (1 # 2))%Q)
    by (rewrite En, E5; reflexivity).
  set (x := (qn * q5)%Q) in *.
  pose proof (Z.div_mod n 2 ltac:(lia)) as Dm.
  pose proof (Z.mod_pos_bound n 2 ltac:(lia)) as Bm.
  set (k := n / 2) in *. set (f := n mod 2) in *.
  assert (Hk : 0 <= k < 2 ^ 32) by lia.
  assert (Q5 : (inject_Z n == 2 * inject_Z k + inject_Z f)%Q).
  { rewrite Dm at 1. rewrite inject_Z_plus, inject_Z_mult. reflexivity. }
  clearbody k f.
  assert (Qk : (0 <= inject_Z k)%Q) by (rewrite <- (Zle_Qle 0); lia).
  assert (Qk' : (inject_Z k <= 4294967295)%Q).
  { change 4294967295%Q with (inject_Z 4294967295).
    rewrite <- Zle_Qle. lia. }
  destruct (Z.eq_dec f 0) as [F0|F0].
  - rewrite F0 in Q5. change (inject_Z 0) with 0%Q in Q5.
    destruct (Z.eq_dec k 0) as [K0|K0].
    + assert (N0 : n = 0) by lia.
      assert (X0 : Qnum x = 0).
      { unfold x. cbn [Qmult Qnum]. rewrite N0 in En.
        unfold Qeq in En; cbn [inject_Z Qnum Qden] in En. nia. }
      unfold round. rewrite X0. cbn [Z.compare].
      rewrite gtb_Finite, Ec. change 0%Q with (inject_Z 0).
      rewrite <- Zlt_Qlt. lia.
    + clearbody x.
      destruct (round_near_integer x k) as (q & -> & Eq); try lia.
      * lra.
      * change (2 ^ 54)%positive with 18014398509481984%positive. lra.
      * rewrite gtb_Finite, Ec, Eq, <- Zlt_Qlt. lia.
  - assert (f = 1) by lia. subst f. change (inject_Z 1) with 1%Q in Q5.
    clearbody x.
    destruct (round_between x k (k + 1)) as (q & E1 & B1); try lia.
    { rewrite inject_Z_plus. change (inject_Z 1) with 1%Q. split; lra. }
    destruct (round_error x 31) as (q' & E2 & B2); try lia.
    { lra. }
    { change (inject_Z (2 ^ (31 + 1))) with 4294967296%Q. lra. }
    rewrite E1 in E2. injection E2 as <-. rewrite E1.
    rewrite inject_Z_plus in B1. change (inject_Z 1) with 1%Q in B1.
    apply Qabs_le_iff in B2.
    change (Z.to_pos (2 ^ (53 - 31))) with 4194304%positive in B2.
    rewrite gtb_Finite, Ec.
    split.
    + intros L. destruct (Z_le_gt_dec c k) as [C|C]; [|lia].
      exfalso. rewrite Zle_Qle in C. lra.
    + intros L. assert (C : k + 1 <= c) by lia.
      rewrite Zle_Qle, inject_Z_plus in C.
      change (inject_Z 1) with 1%Q in C. lra.
Qed.

Lemma date_threshold_all :
  forallb (fun l => forallb (date_threshold_ok l) (seq 0 11)) (seq 0 11)
  = true.
Proof. vm_compute. reflexivity. Qed.

(** [c > l * 0.7] in doubles is [7 l < 10 c], for the counts of at most
    ten samples. *)
Lemma date_threshold (l c : nat) :
  (l <= 10)%nat -> (c <= 10)%nat ->
  gtb (of_Z (Z.of_nat c)) (mul (of_Z (Z.of_nat l)) num_0_7)
  = (7 * Z.of_nat l <? 10 * Z.of_nat c).
Proof.
  intros Hl Hc. pose proof date_threshold_all as H.
  rewrite forallb_forall in H.
  specialize (H l ltac:(apply in_seq; lia)).
  rewrite forallb_forall in H.
  specialize (H c ltac:(apply in_seq; lia)).
  apply eqb_prop in H. exact H.
Qed.

Section WithMoment.
Variable isoValid : string -> bool.

Lemma fold_columnAnalysis (rows : list (object jsval))
    (cols : list string) :
  forall o s q,
    fst (fst (fold_left (analyzeStep isoValid rows) cols (o, s, q)))
    = fold_left (fun o col => set col (analyzeColumn isoValid rows col) o)
        cols o.
Proof.
  induction cols as [|col cols IH]; intros o s q; [reflexivity|].
  cbn [fold_left]. unfold analyzeStep at 2.
  destruct (mostly_null rows _); destruct (single_valued _ _ _);
    apply IH.
Qed.

(** The grade the loop leaves: "warning" as soon as one column is
    mostly null. *)
Lemma fold_quality (rows : list (object jsval)) (cols : list string) :
  forall o s q,
    snd (fold_left (analyzeStep isoValid rows) cols (o, s, q))
    = if existsb (fun col => mostly_null rows
                               (analyzeColumn isoValid rows col)) cols
      then "warning" else q.
Proof.
  induction cols as [|col cols IH]; intros o s q; [reflexivity|].
  cbn [fold_left existsb]. unfold analyzeStep at 2.
  destruct (mostly_null rows _); destruct (single_valued _ _ _);
    rewrite IH; cbn [orb]; try reflexivity;
    destruct (existsb _ cols); reflexivity.
Qed.

Lemma fold_suggestions (rows : list (object jsval)) (cols : list string)
    (m : string) :
  forall o s q,
    In m s ->
    In m (snd (fst (fold_left (analyzeStep isoValid rows) cols
                      (o, s, q)))).
Proof.
  induction cols as [|col cols IH]; intros o s q H; [exact H|].
  cbn [fold_left]. unfold analyzeStep at 2.
  destruct (mostly_null rows _); destruct (single_valued _ _ _);
    apply IH; repeat (apply in_app_iff; left); exact H.
Qed.

Lemma fold_flags (rows : list (object jsval)) (cols : list string)
    (col : string) :
  In col cols ->
  mostly_null rows (analyzeColumn isoValid rows col) = true ->
  forall o s q,
    In (more_than_half_message col)
      (snd (fst (fold_left (analyzeStep isoValid rows) cols (o, s, q)))).
Proof.
  induction cols as [|c cols IH]; intros Hin Hm o s q; [destruct Hin|].
  cbn [fold_left].
  destruct (string_dec c col) as [->|N].
  - unfold analyzeStep at 2. rewrite Hm.
    destruct (single_valued _ _ _); apply fold_suggestions;
      repeat rewrite in_app_iff; cbn [In]; tauto.
  - destruct Hin as [E|Hin]; [congruence|].
    destruct (analyzeStep isoValid rows (o, s, q) c) as [[o' s'] q'].
    apply IH; assumption.
Qed.

Lemma valued_length (col : string) (rows : list (object jsval)) :
  (length (valued col rows) <= length rows)%nat.
Proof. apply filter_length_le. Qed.

Lemma valued_none (col : string) (rows : list (object jsval)) :
  (forall row, In row rows -> is_value (get row col) = false) ->
  valued col rows = [].
Proof.
  intros H. unfold valued. induction rows as [|row rows IH];
    [reflexivity|].
  cbn [filter]. rewrite (H row (or_introl eq_refl)).
  apply IH. intros row' Hin. apply H. right. exact Hin.
Qed.

(** What [analyzeDataQuality] returns for a non-empty array, in terms
    of the state the loop over the columns leaves. *)
Lemma analyze_nonempty (first : object jsval)
    (rest : list (object jsval)) :
  let rows := first :: rest in
  let F := fold_left (analyzeStep isoValid rows) (keys first)
             ([], [], "good") in
  exists r,
    analyzeDataQuality isoValid (Array rows) = Returned r
    /\ columnAnalysis r = Some (fst (fst F))
    /\ (forall m, In m (snd (fst F)) -> In m (suggestions r))
    /\ quality r
       = if (length rows <? 10)%nat then "poor"
         else if (length rows <? 100)%nat then "warning"
         else snd F.
Proof.
  cbv zeta. cbn [analyzeDataQuality].
  destruct (fold_left _ _ _) as [[o s] q]. cbn [fst snd].
  destruct (length (first :: rest) <? 10)%nat;
    [|destruct (length (first :: rest) <? 100)%nat];
    eexists; (split; [reflexivity|]);
    cbn [columnAnalysis suggestions quality];
    (split; [reflexivity|]); (split; [|reflexivity]);
    intros m Hm; rewrite ?in_app_iff; tauto.
Qed.

(** All of a positive count, as a percentage in doubles, is 100. *)
Lemma ratio_all (t : Z) :
  0 < t < 2 ^ 53 ->
  exists y, mul (div (of_Z t) (of_Z t)) num_100 = Finite y
            /\ (y == 100)%Q.
Proof.
  intros Ht.
  destruct (of_Z_exact t) as (qt & -> & Et); [lia|].
  assert (Hqt : (0 < qt)%Q).
  { rewrite Et. change 0%Q with (inject_Z 0). rewrite <- Zlt_Qlt. lia. }
  assert (Hz : is_zero qt = false).
  { unfold is_zero. apply Z.eqb_neq. unfold Qlt in Hqt; simpl in Hqt.
    lia. }
  unfold div. rewrite Hz.
  assert (E1 : (qt / qt == 1)%Q) by (field; lra).
  destruct (round_between (qt / qt) 1 1) as (q1 & -> & B1); try lia.
  { rewrite E1. split; apply Qle_refl. }
  change (inject_Z 1) with 1%Q in B1.
  rewrite num_100_value. unfold mul.
  destruct (round_between (q1 * 100) 100 100) as (y & -> & By); try lia.
  { change (inject_Z 100) with 100%Q. split; lra. }
  change (inject_Z 100) with 100%Q in By.
  exists y. split; [reflexivity|]. apply Qle_antisym; tauto.
Qed.

Lemma typeof_string (v : jsval) :
  typeof v = "string" -> exists s, v = VStr s.
Proof.
  destruct v as [| |b|n|s|c r]; try discriminate.
  - intros _. exists s. reflexivity.
  - cbn [typeof]. destruct c; discriminate.
Qed.
End WithMoment.
End QualityFacts.

(* ===================================================================== *)
(** * The earlier inspector, the fenced answer, the upload errors *)
(* ===================================================================== *)

Module ReportFacts.
Import Server CleaningFacts Report.

Lemma existsb_filter {A : Type} (p : A -> bool) (l : list A) :
  existsb p l = negb (Nat.eqb (length (filter p l)) 0).
Proof.
  induction l as [|x l IH]; [reflexivity|].
  cbn [existsb filter]. destruct (p x); [reflexivity|]. exact IH.
Qed.

Lemma mentions_more (ks ks' : list string) (col : string) :
  (forall k, In k ks -> In k ks') ->
  mentions ks col = true -> mentions ks' col = true.
Proof.
  unfold mentions. intros Hsub H.
  apply existsb_exists in H. destruct H as (k & Hk & Hm).
  apply existsb_exists. exists k. split; [apply Hsub, Hk | exact Hm].
Qed.

Lemma existsb_more {A : Type} (p p' : A -> bool) (l : list A) :
  (forall x, p x = true -> p' x = true) ->
  existsb p l = true -> existsb p' l = true.
Proof.
  intros Hp H. apply existsb_exists in H. destruct H as (x & Hx & Hm).
  apply existsb_exists. exists x. split; [exact Hx | apply Hp, Hm].
Qed.

Lemma trimEnd_app (s : string) (c : ascii) :
  Str.is_space c = false ->
  Str.trimEnd (s ++ String c "") = s ++ String c "".
Proof.
  intros Hc. induction s as [|a s IH]; cbn [append Str.trimEnd].
  - rewrite Hc. reflexivity.
  - rewrite IH. destruct s; reflexivity.
Qed.

Lemma append_assoc (a b c : string) : (a ++ b) ++ c = a ++ (b ++ c).
Proof.
  induction a as [|x a IH]; cbn [append]; [reflexivity|].
  rewrite IH. reflexivity.
Qed.

Lemma length_append (a b : string) :
  String.length (a ++ b) = (String.length a + String.length b)%nat.
Proof.
  induction a as [|x a IH]; cbn [append String.length]; [reflexivity|].
  rewrite IH. reflexivity.
Qed.

Lemma prefix_append (a b s : string) :
  String.prefix (a ++ b) s = true -> String.prefix a s = true.
Proof.
  revert s. induction a as [|x a IH]; intros s.
  - intros _. destruct s; reflexivity.
  - destruct s as [|y s]; simpl; [discriminate|].
    destruct (Ascii.ascii_dec x y); [apply IH | discriminate].
Qed.

Lemma substring_all (s : string) : String.substring 0 (String.length s) s = s.
Proof.
  induction s as [|c s IH]; cbn [String.substring String.length];
    [reflexivity|].
  rewrite IH. reflexivity.
Qed.

(** The suffix [\n```] goes, and nothing else. *)
Lemma strip_close_fenced (body : string) :
  strip_close (body ++ newline ++ fence) = body.
Proof.
  induction body as [|c body IH].
  - reflexivity.
  - cbn [append strip_close].
    replace (String.eqb (String c (body ++ newline ++ fence))
               (newline ++ fence)) with false.
    2:{ symmetry. apply String.eqb_neq. intros E.
        apply (f_equal String.length) in E.
        cbn [String.length append] in E.
        rewrite !length_append in E.
        cbn [String.length newline fence] in E. lia. }
    replace (String.eqb (String c (body ++ newline ++ fence)) fence)
      with false.
    2:{ symmetry. apply String.eqb_neq. intros E.
        apply (f_equal String.length) in E.
        cbn [String.length append] in E.
        rewrite !length_append in E.
        cbn [String.length newline fence] in E. lia. }
    cbn [orb]. rewrite IH. reflexivity.
Qed.

Lemma strip_close_other (s : string) :
  (forall t, s <> t ++ fence) -> strip_close s = s.
Proof.
  induction s as [|c s IH]; intros H; [reflexivity|].
  cbn [strip_close].
  destruct (String.eqb_spec (String c s) (newline ++ fence)) as [E|_].
  { exfalso. apply (H newline). exact E. }
  destruct (String.eqb_spec (String c s) fence) as [E|_].
  { exfalso. apply (H ""). exact E. }
  cbn [orb]. rewrite IH; [reflexivity|].
  intros t E. apply (H (String c t)). rewrite E. reflexivity.
Qed.

Lemma trim_fenced (tag body : string) :
  Str.trim (fenced tag body) = fenced tag body.
Proof.
  unfold Str.trim, fenced, fence.
  change (Str.trimStart ("```" ++ tag ++ newline ++ body ++ newline ++ "```"))
    with ("```" ++ tag ++ newline ++ body ++ newline ++ "```").
  replace ("```" ++ tag ++ newline ++ body ++ newline ++ "```")
    with (("```" ++ tag ++ newline ++ body ++ newline ++ "``")
          ++ String "`" "").
  - apply trimEnd_app. reflexivity.
  - rewrite !append_assoc. reflexivity.
Qed.
End ReportFacts.

(* ===================================================================== *)
(** * The buckets of the earlier analyzer *)
(* ===================================================================== *)

Module LegacyCounts.
Import Server Spec.

Lemma count_positive (p : object jsval -> bool) (t : object jsval)
    (l : list (object jsval)) :
  In t l -> p t = true -> 0 < Totals.count p l.
Proof.
  intros Hin Hp. unfold Totals.count.
  assert (H : In t (filter p l)) by (apply filter_In; tauto).
  destruct (filter p l); [destruct H | cbn [length]; lia].
Qed.

Lemma count_none (p : object jsval -> bool) (l : list (object jsval)) :
  (forall t, In t l -> p t = false) <-> Totals.count p l = 0.
Proof.
  unfold Totals.count. split.
  - intros H. induction l as [|t l IH]; [reflexivity|].
    cbn [filter]. rewrite (H t (or_introl eq_refl)).
    apply IH. intros u Hu. apply H. right. exact Hu.
  - intros H t Hin. destruct (p t) eqn:E; [|reflexivity].
    pose proof (count_positive p t l Hin E) as P.
    unfold Totals.count in P. lia.
Qed.

Lemma or_else_truthy (a b : jsval) :
  truthy (or_else a b) = truthy a || truthy b.
Proof. unfold or_else. destruct (truthy a) eqn:E; [exact E | reflexivity]. Qed.

(** Where the earlier analyzer finds a status, the enhanced one finds
    the same: its first four columns are the earlier ones. *)
Lemma found_four (ticket : object jsval) (c1 c2 c3 c4 : string)
    (more : list string) :
  let status :=
    or_else (or_else (or_else (Obj.get ticket c1) (Obj.get ticket c2))
               (Obj.get ticket c3)) (Obj.get ticket c4) in
  truthy status = true ->
  find_status ticket (c1 :: c2 :: c3 :: c4 :: more) = status.
Proof.
  cbv zeta. unfold or_else. cbn [find_status].
  destruct (truthy (Obj.get ticket c1)) eqn:E1;
    repeat (rewrite ?E1; cbv iota); [reflexivity|].
  destruct (truthy (Obj.get ticket c2)) eqn:E2;
    repeat (rewrite ?E2; cbv iota); [reflexivity|].
  destruct (truthy (Obj.get ticket c3)) eqn:E3;
    repeat (rewrite ?E3; cbv iota); [reflexivity|].
  intros E4. rewrite E4. reflexivity.
Qed.

Lemma firstResponse_found (ticket : object jsval) :
  truthy (LegacyTotals.firstResponseStatus ticket) = true ->
  find_status ticket firstResponseColumns
  = LegacyTotals.firstResponseStatus ticket.
Proof. apply found_four. Qed.

Lemma resolution_found (ticket : object jsval) :
  truthy (LegacyTotals.resolutionStatus ticket) = true ->
  find_status ticket resolutionColumns
  = LegacyTotals.resolutionStatus ticket.
Proof. apply found_four. Qed.

Section WithHost.
Variable host : Host.

(** The enhanced analyzer knows every keyword of the earlier one. *)
Lemma classify_neither (status : jsval) :
  classify host status = Neither ->
  Legacy.classify host status = Neither.
Proof.
  unfold classify, Legacy.classify, is_violation, is_compliant,
    Legacy.is_violation, Legacy.is_compliant, violation_keywords,
    compliance_keywords.
  cbn [existsb].
  set (s := Str.toLowerCase (toString host status)).
  destruct (Str.includes s "violated"); [discriminate|].
  destruct (Str.includes s "breach"); [discriminate|].
  destruct (Str.includes s "missed"); [discriminate|].
  destruct (Str.includes s "overdue"); [discriminate|].
  destruct (Str.includes s "fail"); [discriminate|].
  destruct (Str.includes s "within"); [discriminate|].
  destruct (Str.includes s "met"); [discriminate|].
  destruct (Str.includes s "compliant"); [discriminate|].
  reflexivity.
Qed.

(** What one ticket does to a bucket of the earlier analyzer. *)
Lemma count_counts (status : object jsval -> jsval)
    (ticket : object jsval) (b : Legacy.bucket) :
  LegacyTotals.stepped host status ticket b
    (fst (Legacy.count host (status ticket) b)).
Proof.
  unfold LegacyTotals.stepped, Legacy.count, LegacyTotals.evaluated,
    LegacyTotals.judged.
  destruct (truthy (status ticket)); cbn [andb fst];
    [|repeat split; lia].
  destruct (Legacy.classify host (status ticket));
    cbn [Totals.verdict_eqb fst Legacy.total Legacy.violations
         Legacy.compliance Legacy.compliancePercentage
         Legacy.violationPercentage];
    repeat split; lia.
Qed.

Lemma processTicket_counts (an : Legacy.analysis)
    (ticket : object jsval) :
  LegacyTotals.stepped host LegacyTotals.firstResponseStatus ticket
    (Legacy.firstResponseSLA an)
    (Legacy.firstResponseSLA (Legacy.processTicket host an ticket))
  /\ LegacyTotals.stepped host LegacyTotals.resolutionStatus ticket
       (Legacy.resolutionSLA an)
       (Legacy.resolutionSLA (Legacy.processTicket host an ticket)).
Proof.
  pose proof (count_counts LegacyTotals.firstResponseStatus ticket
                (Legacy.firstResponseSLA an)) as C1.
  pose proof (count_counts LegacyTotals.resolutionStatus ticket
                (Legacy.resolutionSLA an)) as C2.
  unfold Legacy.processTicket.
  unfold LegacyTotals.firstResponseStatus in C1 at 2.
  unfold LegacyTotals.resolutionStatus in C2 at 2.
  destruct (Legacy.count host _ (Legacy.firstResponseSLA an)).
  destruct (Legacy.count host _ (Legacy.resolutionSLA an)).
  split; assumption.
Qed.

Lemma fold_counts (tickets : list (object jsval)) :
  forall an,
    LegacyTotals.counted host LegacyTotals.firstResponseStatus tickets
      (Legacy.firstResponseSLA an)
      (Legacy.firstResponseSLA
         (fold_left (Legacy.processTicket host) tickets an))
    /\ LegacyTotals.counted host LegacyTotals.resolutionStatus tickets
         (Legacy.resolutionSLA an)
         (Legacy.resolutionSLA
            (fold_left (Legacy.processTicket host) tickets an)).
Proof.
  induction tickets as [|ticket rest IH]; intros an; cbn [fold_left].
  - unfold LegacyTotals.counted, Totals.count. cbn [filter length].
    repeat split; lia.
  - destruct (processTicket_counts an ticket) as [S1 S2].
    destruct (IH (Legacy.processTicket host an ticket)) as [H1 H2].
    unfold LegacyTotals.counted, LegacyTotals.stepped in *.
    rewrite !TotalsFacts.count_cons.
    destruct S1 as (A1 & A2 & A3 & A4 & A5).
    destruct S2 as (B1 & B2 & B3 & B4 & B5).
    destruct H1 as (C1 & C2 & C3 & C4 & C5).
    destruct H2 as (D1 & D2 & D3 & D4 & D5).
    repeat split; try lia; congruence.
Qed.

(** The buckets of a returned analysis are the finished counts of the
    loop. *)
Lemma analyze_counts (data : argument) (old : Legacy.analysis) :
  Legacy.analyzeSLAPerformance host data = Returned (Some old) ->
  exists b1 b2,
    LegacyTotals.counted host LegacyTotals.firstResponseStatus
      (rows_of data) Legacy.empty_bucket b1
    /\ LegacyTotals.counted host LegacyTotals.resolutionStatus
         (rows_of data) Legacy.empty_bucket b2
    /\ Legacy.firstResponseSLA old = Legacy.finish_bucket host b1
    /\ Legacy.resolutionSLA old = Legacy.finish_bucket host b2.
Proof.
  unfold Legacy.analyzeSLAPerformance.
  destruct data as [v|[|ticket rest]].
  - destruct (truthy v); discriminate.
  - discriminate.
  - intros H.
    destruct (fold_counts (ticket :: rest)
                {| Legacy.totalTickets :=
                     Z.of_nat (length (ticket :: rest));
                   Legacy.firstResponseSLA := Legacy.empty_bucket;
                   Legacy.resolutionSLA := Legacy.empty_bucket;
                   Legacy.agents := []; Legacy.categories := [] |})
      as [C1 C2].
    injection H as <-. cbn [rows_of].
    eexists. eexists.
    split; [exact C1|]. split; [exact C2|]. split; reflexivity.
Qed.

(** A bucket of the earlier analyzer has no [violationPercentage]
    exactly when no ticket has a status for it. *)
Lemma finish_without (status : object jsval -> jsval)
    (tickets : list (object jsval)) (b : Legacy.bucket) :
  LegacyTotals.counted host status tickets Legacy.empty_bucket b ->
  Legacy.violationPercentage (Legacy.finish_bucket host b) = None
  <-> (forall ticket, In ticket tickets ->
         LegacyTotals.evaluated status ticket = false).
Proof.
  intros (T & _ & _ & _ & V).
  cbn [Legacy.empty_bucket Legacy.total Legacy.violationPercentage]
    in T, V.
  rewrite count_none. unfold Legacy.finish_bucket.
  pose proof (TotalsFacts.count_le (LegacyTotals.evaluated status)
                tickets) as L.
  destruct (Z.ltb_spec 0 (Legacy.total b)) as [P|P];
    cbn [Legacy.violationPercentage].
  - split; [discriminate | lia].
  - split; [lia | intros _; exact V].
Qed.

(** With a status for some ticket and none that is compliant, the
    earlier analyzer reports a compliance of 0.0. *)
Lemma finish_not_compliant (status : object jsval -> jsval)
    (tickets : list (object jsval)) (b : Legacy.bucket) :
  LegacyTotals.counted host status tickets Legacy.empty_bucket b ->
  Z.of_nat (length tickets) < 2 ^ 32 ->
  (exists ticket, In ticket tickets
                  /\ LegacyTotals.evaluated status ticket = true) ->
  (forall ticket, In ticket tickets ->
     LegacyTotals.judged host Compliant status ticket = false) ->
  Legacy.compliancePercentage (Legacy.finish_bucket host b) = "0.0".
Proof.
  intros (T & _ & C & _ & _) Hn (ticket & Hin & He) Hc.
  cbn [Legacy.empty_bucket Legacy.total Legacy.compliance] in T, C.
  apply count_none in Hc. rewrite Hc in C.
  pose proof (count_positive _ _ _ Hin He) as P.
  pose proof (TotalsFacts.count_le (LegacyTotals.evaluated status)
                tickets) as L.
  unfold Legacy.finish_bucket.
  replace (0 <? Legacy.total b) with true
    by (symmetry; apply Z.ltb_lt; lia).
  cbn [Legacy.compliancePercentage]. rewrite C. cbn [Z.add].
  apply ProfileFacts.percentage_none.
  assert (2 ^ 32 < 2 ^ 53) by (apply Z.pow_lt_mono_r; lia). lia.
Qed.

(** With a status for some ticket and none that is a violation, the
    enhanced analyzer reports a compliance of 100.0. *)
Lemma finish_no_violation (cols : list string)
    (tickets : list (object jsval)) (b : bucket) :
  total b = Totals.count (Totals.evaluated cols) tickets ->
  violations b
  = Totals.count (Totals.judged host Violation cols) tickets ->
  Z.of_nat (length tickets) < 2 ^ 32 ->
  (exists ticket, In ticket tickets
                  /\ Totals.evaluated cols ticket = true) ->
  (forall ticket, In ticket tickets ->
     Totals.judged host Violation cols ticket = false) ->
  compliancePercentage (finish_bucket host b) = "100.0".
Proof.
  intros T V Hn (ticket & Hin & He) Hv.
  apply count_none in Hv. rewrite Hv in V.
  pose proof (count_positive _ _ _ Hin He) as P.
  pose proof (TotalsFacts.count_le (Totals.evaluated cols) tickets) as L.
  destruct (AnalyzerFacts.finish_bucket_percentages host b) as [E _];
    [lia|].
  rewrite E, V, Z.sub_0_r.
  apply RangeFacts.percentage_all.
  assert (2 ^ 32 < 2 ^ 53) by (apply Z.pow_lt_mono_r; lia). lia.
Qed.

(** A status without a keyword of the enhanced analyzer is no
    violation for it, and not compliant for the earlier one. *)
Lemma neither_judged (cols : list string)
    (status : object jsval -> jsval) (ticket : object jsval) :
  (truthy (status ticket) = true ->
   find_status ticket cols = status ticket) ->
  (Totals.evaluated cols ticket = true ->
   classify host (find_status ticket cols) = Neither) ->
  Totals.judged host Violation cols ticket = false
  /\ LegacyTotals.judged host Compliant status ticket = false.
Proof.
  unfold Totals.judged, Totals.evaluated, LegacyTotals.judged.
  intros F N. split.
  - destruct (truthy (find_status ticket cols)); [|reflexivity].
    rewrite N by reflexivity. reflexivity.
  - destruct (truthy (status ticket)) eqn:E; [|reflexivity].
    specialize (F eq_refl). rewrite F, E in N.
    rewrite (classify_neither _ (N eq_refl)). reflexivity.
Qed.

(** The two copies on one bucket. *)
Lemma bucket_differs (cols : list string)
    (status : object jsval -> jsval) (tickets : list (object jsval))
    (b : bucket) (b' : Legacy.bucket) :
  (forall ticket, truthy (status ticket) = true ->
                  find_status ticket cols = status ticket) ->
  total b = Totals.count (Totals.evaluated cols) tickets ->
  violations b
  = Totals.count (Totals.judged host Violation cols) tickets ->
  LegacyTotals.counted host status tickets Legacy.empty_bucket b' ->
  Z.of_nat (length tickets) < 2 ^ 32 ->
  (exists ticket, In ticket tickets
                  /\ LegacyTotals.evaluated status ticket = true) ->
  (forall ticket, In ticket tickets ->
     Totals.evaluated cols ticket = true ->
     classify host (find_status ticket cols) = Neither) ->
  compliancePercentage (finish_bucket host b) = "100.0"
  /\ Legacy.compliancePercentage (Legacy.finish_bucket host b')
     = "0.0".
Proof.
  intros F T V C Hn (ticket & Hin & He) N. split.
  - apply (finish_no_violation cols tickets); try assumption.
    + exists ticket. split; [exact Hin|].
      unfold Totals.evaluated. unfold LegacyTotals.evaluated in He.
      rewrite (F ticket He). exact He.
    + intros t Ht.
      apply (neither_judged cols status t (F t) (N t Ht)).
  - apply (finish_not_compliant status tickets); try assumption.
    + exists ticket. split; assumption.
    + intros t Ht.
      apply (neither_judged cols status t (F t) (N t Ht)).
Qed.
End WithHost.
End LegacyCounts.

Import Double DoubleFacts PercentFacts Server Spec SlaFacts AnalyzerFacts InsightFacts.
Import RateFacts.





(* ===================================================================== *)
(** * The specification, claim by claim *)
(* ===================================================================== *)

(** C1. For each top-level SLA bucket with [total > 0],
    [compliancePercentage] is [((total - violations) / total * 100)
    .toFixed(1)] and [violationPercentage] is [(violations / total * 100)
    .toFixed(1)]: the one-decimal writing of the tenth nearest to the exact
    ratio (up to the rounding of the double arithmetic, below [2 ^ -45]). *)
Theorem sla_percentages_rounded (host : Host) (data : argument) (an : analysis)
    (b : bucket) :
  array_sized data ->
  analyzeSLAPerformance host data = Returned (Some an) ->
  b = firstResponseSLA an \/ b = resolutionSLA an ->
  0 < total b ->
  compliancePercentage b
  = toFixed1 host
      (mul (div (of_Z (total b - violations b)) (of_Z (total b))) num_100)
  /\ violationPercentage b
     = toFixed1 host (mul (div (of_Z (violations b)) (of_Z (total b))) num_100)
  /\ rounded_to_tenth (compliancePercentage b)
       (exact_percentage (total b - violations b) (total b))
  /\ rounded_to_tenth (violationPercentage b)
       (exact_percentage (violations b) (total b)).
Proof.
  intros Hsize H Hb Ht.
  destruct (analyze_buckets host data an b H Hb)
    as (b0 & ((Hv & Hc & Hs) & Hk & _) & ->).
  destruct (finish_bucket_counts host b0) as (Ev & Ec & Et).
  rewrite Et in Ht.
  destruct (finish_bucket_percentages host b0 Ht) as [Pc Pv].
  rewrite Pc, Pv, Ev, Et. unfold array_sized in Hsize.
  assert (total b0 < 2 ^ 53).
  { assert (2 ^ 32 < 2 ^ 53) by reflexivity. lia. }
  split; [reflexivity|]. split; [reflexivity|].
  split.
  - destruct (percentage_tenths host (total b0 - violations b0) (total b0))
      as (n & E & _ & D); try lia.
    exists n. split; assumption.
  - destruct (percentage_tenths host (violations b0) (total b0))
      as (n & E & _ & D); try lia.
    exists n. split; assumption.
Qed.

Lemma sla_percentages_rounded_witness :
  exists an,
    analyzeSLAPerformance ExampleHost.host scenario1 = Returned (Some an)
    /\ compliancePercentage (firstResponseSLA an) = "50.0"
    /\ rounded_to_tenth (compliancePercentage (firstResponseSLA an))
         (exact_percentage
            (total (firstResponseSLA an) - violations (firstResponseSLA an))
            (total (firstResponseSLA an))).
Proof.
  eexists. split; [vm_compute; reflexivity|].
  split; [vm_compute; reflexivity|].
  refine (proj1 (proj2 (proj2
    (sla_percentages_rounded ExampleHost.host scenario1 _ _ _ _ _ _)))).
  - vm_compute. reflexivity.
  - vm_compute. reflexivity.
  - left. reflexivity.
  - vm_compute. reflexivity.
Defined.

(** C2 (as the code is). A ticket whose date cell holds a number makes the
    analyzer throw: [createdDate.substring] is no function of a number. *)
Theorem analyzer_throws_on_numeric_date (host : Host) :
  analyzeSLAPerformance host numeric_date
  = Thrown "createdDate.substring".
Proof. reflexivity. Qed.

(** C3 (as the code is). A column without a single sample is reported as
    [mixed]. *)
Theorem column_without_samples_is_mixed :
  sampleValues empty_column "Notes" = []
  /\ columnType empty_column "Notes" = "mixed"
  /\ exists d,
       analyzeDataStructure (Array empty_column) = Returned (Some d)
       /\ columnTypes d = [("Agent", "string"); ("Notes", "mixed")].
Proof.
  split; [reflexivity|]. split; [reflexivity|].
  eexists. split; reflexivity.
Qed.

(** C4 (amended). For a non-array or an empty array, [cleanData] returns
    [data: []], the one error "No data provided" and no warning; the
    returned object has no [originalCount] and no [cleanedCount]. *)
Theorem cleanData_no_data (host : Host) :
  (forall v, cleanData host (NotAnArray v) = no_data)
  /\ cleanData host (Array []) = no_data
  /\ DataUtils.data no_data = []
  /\ errors no_data = ["No data provided"]
  /\ originalCount no_data = None
  /\ cleanedCount no_data = None.
Proof. repeat split; reflexivity. Qed.

(** C4 (as stated) fails on the empty array: the returned object holds no
    counts. *)
Lemma cleanData_empty_has_no_counts :
  ~ (exists o c,
       originalCount (cleanData ExampleHost.host (Array [])) = Some o
       /\ cleanedCount (cleanData ExampleHost.host (Array [])) = Some c).
Proof. intros (o & c & H & _). discriminate H. Qed.

(** C5. Both percentages of both top-level SLA buckets read as numbers
    between 0 and 100, and both are the string "0" when the bucket's total
    is 0. *)
Theorem sla_percentages_bounded (host : Host) (data : argument) (an : analysis)
    (b : bucket) :
  array_sized data ->
  analyzeSLAPerformance host data = Returned (Some an) ->
  b = firstResponseSLA an \/ b = resolutionSLA an ->
  in_percent_range (compliancePercentage b)
  /\ in_percent_range (violationPercentage b)
  /\ (total b = 0 ->
      compliancePercentage b = "0" /\ violationPercentage b = "0").
Proof.
  intros Hsize H Hb.
  destruct (analyze_buckets host data an b H Hb) as (b0 & T & ->).
  pose proof T as ((Hv & Hc & Hs) & Hk & _).
  destruct (finish_bucket_counts host b0) as (Ev & Ec & Et).
  rewrite Et. unfold array_sized in Hsize.
  assert (total b0 < 2 ^ 53).
  { assert (2 ^ 32 < 2 ^ 53) by reflexivity. lia. }
  assert (E0 : total b0 = 0 ->
               compliancePercentage (finish_bucket host b0) = "0"
               /\ violationPercentage (finish_bucket host b0) = "0")
    by (apply (finish_bucket_empty host _ _ T)).
  destruct (Z.eq_dec (total b0) 0) as [Z0|NZ].
  - destruct (E0 Z0) as [-> ->].
    assert (in_percent_range "0") by (apply percent_ok_range; reflexivity).
    tauto.
  - destruct (finish_bucket_percentages host b0) as [-> ->]; [lia|].
    destruct (percentage_tenths host (total b0 - violations b0) (total b0))
      as (n1 & -> & R1 & _); try lia.
    destruct (percentage_tenths host (violations b0) (total b0))
      as (n2 & -> & R2 & _); try lia.
    split; [apply tenths_in_range; assumption|].
    split; [apply tenths_in_range; assumption|].
    intros Z0. contradiction.
Qed.

Lemma sla_percentages_bounded_witness :
  exists an,
    analyzeSLAPerformance ExampleHost.host scenario1 = Returned (Some an)
    /\ in_percent_range (compliancePercentage (firstResponseSLA an))
    /\ compliancePercentage (resolutionSLA an) = "0".
Proof.
  eexists. split; [vm_compute; reflexivity|].
  split.
  - refine (proj1
      (sla_percentages_bounded ExampleHost.host scenario1 _ _ _ _ _)).
    + vm_compute. reflexivity.
    + vm_compute. reflexivity.
    + left. reflexivity.
  - refine (proj1 (proj2 (proj2
      (sla_percentages_bounded ExampleHost.host scenario1 _ _ _ _ _)) _)).
    + vm_compute. reflexivity.
    + vm_compute. reflexivity.
    + right. reflexivity.
    + vm_compute. reflexivity.
Defined.

(** C6. Conservation: in both top-level SLA buckets of a returned analysis
    the counts are non-negative and [violations + compliance <= total],
    and they are the counts of the records: [total] is the number of
    tickets with a status in one of the bucket's columns, [violations]
    and [compliance] the numbers of those whose status text gets the one
    or the other verdict.  A ticket whose status is found adds exactly 1
    to [total] and, by the verdict on its text, 1 to [violations], 1 to
    [compliance] or nothing; a ticket without a status leaves the bucket
    as it is. *)
Theorem sla_conservation (host : Host) (data : argument) (an : analysis) :
  analyzeSLAPerformance host data = Returned (Some an) ->
  (conserved (firstResponseSLA an)
   /\ total (firstResponseSLA an)
      = Totals.count (Totals.evaluated firstResponseColumns) (rows_of data)
   /\ violations (firstResponseSLA an)
      = Totals.count (Totals.judged host Violation firstResponseColumns)
          (rows_of data)
   /\ compliance (firstResponseSLA an)
      = Totals.count (Totals.judged host Compliant firstResponseColumns)
          (rows_of data))
  /\ (conserved (resolutionSLA an)
      /\ total (resolutionSLA an)
         = Totals.count (Totals.evaluated resolutionColumns) (rows_of data)
      /\ violations (resolutionSLA an)
         = Totals.count (Totals.judged host Violation resolutionColumns)
             (rows_of data)
      /\ compliance (resolutionSLA an)
         = Totals.count (Totals.judged host Compliant resolutionColumns)
             (rows_of data))
  /\ (forall an0 index ticket an1,
        processTicket host an0 index ticket = Returned an1 ->
        firstResponseSLA an1
        = bucket_step host (find_status ticket firstResponseColumns)
            (firstResponseSLA an0)
        /\ resolutionSLA an1
           = bucket_step host (find_status ticket resolutionColumns)
               (resolutionSLA an0)).
Proof.
  intros H.
  assert (C : forall b, b = firstResponseSLA an \/ b = resolutionSLA an ->
                        conserved b).
  { intros b Hb.
    destruct (analyze_buckets host data an b H Hb) as (b0 & (Hc & _) & ->).
    unfold conserved in *.
    destruct (finish_bucket_counts host b0) as (-> & -> & ->). exact Hc. }
  pose proof (C _ (or_introl eq_refl)) as C1.
  pose proof (C _ (or_intror eq_refl)) as C2.
  apply analyze_returns in H. destruct H as (an0 & Hloop & ->).
  apply TotalsFacts.forEach_counts in Hloop.
  destruct (finish_buckets host an0) as [F1 F2].
  rewrite F1, F2 in *.
  destruct (finish_bucket_counts host (firstResponseSLA an0))
    as (-> & -> & ->).
  destruct (finish_bucket_counts host (resolutionSLA an0))
    as (-> & -> & ->).
  cbn [initial firstResponseSLA resolutionSLA empty_bucket total violations
       compliance] in Hloop.
  destruct Hloop as ((A1 & A2 & A3) & (B1 & B2 & B3)).
  split; [|split].
  - split; [exact C1|]. repeat split; lia.
  - split; [exact C2|]. repeat split; lia.
  - intros an1 index ticket an2. apply processTicket_buckets.
Qed.

Lemma sla_conservation_witness :
  exists an,
    analyzeSLAPerformance ExampleHost.host scenario1 = Returned (Some an)
    /\ conserved (firstResponseSLA an)
    /\ total (firstResponseSLA an) = 2
    /\ violations (firstResponseSLA an) = 1
    /\ compliance (firstResponseSLA an) = 1
    /\ total (resolutionSLA an) = 0.
Proof.
  eexists. split; [vm_compute; reflexivity|].
  match goal with
  | |- conserved (firstResponseSLA ?an) /\ _ =>
      destruct (sla_conservation ExampleHost.host scenario1 an)
        as ((C & E1 & E2 & E3) & (_ & E4 & _) & _);
      [vm_compute; reflexivity|]
  end.
  split; [exact C|].
  split; [rewrite E1; vm_compute; reflexivity|].
  split; [rewrite E2; vm_compute; reflexivity|].
  split; [rewrite E3; vm_compute; reflexivity|].
  rewrite E4; vm_compute; reflexivity.
Defined.

(** C7 (amended). The cleaner keeps no more rows than it is given, and
    exactly those that are not all null: the number of cleaned rows is
    the number of input rows minus the number of rows in which every
    declared column (taken from the first row) normalizes to null.  For a
    non-empty array whose first row has a column the result carries
    [originalCount], the number of input rows, and [cleanedCount], the
    number of cleaned rows, so that [cleanedCount <= originalCount] and
    [cleanedCount] is [originalCount] minus the number of all-null rows.
    For every other input (no array, an empty array, a first row without
    a column) the result has no row and neither count. *)
Theorem cleanData_row_count (host : Host) (data : argument) :
  (length (DataUtils.data (cleanData host data)) <= length (rows_of data))%nat
  /\ length (DataUtils.data (cleanData host data))
     = (length (rows_of data) - all_null_rows host data)%nat
  /\ (rows_of data <> [] -> declared_columns data <> [] ->
      exists o c,
        originalCount (cleanData host data) = Some o
        /\ cleanedCount (cleanData host data) = Some c
        /\ o = length (rows_of data)
        /\ c = length (DataUtils.data (cleanData host data))
        /\ (c <= o)%nat
        /\ c = (o - all_null_rows host data)%nat)
  /\ (rows_of data = [] \/ declared_columns data = [] ->
      originalCount (cleanData host data) = None
      /\ cleanedCount (cleanData host data) = None
      /\ DataUtils.data (cleanData host data) = []).
Proof.
  pose proof (cleanData_kept host data) as K.
  split; [lia|]. split; [lia|]. split.
  - intros Hr Hc.
    exists (length (rows_of data)),
           (length (DataUtils.data (cleanData host data))).
    assert (C : originalCount (cleanData host data)
                = Some (length (rows_of data))
                /\ cleanedCount (cleanData host data)
                   = Some (length (DataUtils.data (cleanData host data)))).
    { destruct data as [v|[|first rest]]; try (exfalso; apply Hr; reflexivity).
      unfold declared_columns in Hc. cbn [rows_of] in Hc |- *.
      cbn [cleanData].
      destruct (Obj.keys first) as [|col cols];
        [exfalso; apply Hc; reflexivity|].
      destruct (cleanRows host (col :: cols) (first :: rest) 0)
        as [kept warned].
      split; reflexivity. }
    destruct C as [C1 C2].
    split; [exact C1|]. split; [exact C2|].
    split; [reflexivity|]. split; [reflexivity|]. lia.
  - intros H.
    destruct data as [v|[|first rest]]; try (repeat split; reflexivity).
    destruct H as [H|H]; [discriminate H|].
    unfold declared_columns in H. cbn [rows_of] in H.
    cbn [cleanData]. rewrite H. repeat split; reflexivity.
Qed.

(** C7 (as stated) fails on an array whose first row has no column: the
    returned object holds no counts that could be compared. *)
Lemma cleanData_no_columns_has_no_counts :
  ~ (exists o c,
       originalCount (cleanData ExampleHost.host (Array [ [] ])) = Some o
       /\ cleanedCount (cleanData ExampleHost.host (Array [ [] ])) = Some c
       /\ (c <= o)%nat).
Proof. intros (o & c & H & _). discriminate H. Qed.

(** C8. The rules of the normalizer apply in order, the first match wins:
    "123", "4.5", "true" and "hello" become 123, 4.5, [true] and "hello";
    every string whose trimmed text matches [^\d+$] becomes the base-10
    integer it writes, before the boolean rules are consulted, so "1" and
    "0" are numbers and not booleans. *)
Theorem convertValue_first_match (host : Host) :
  moment_needs_digit host ->
  convertValue host (VStr "123") = VNum (Finite 123)
  /\ convertValue host (VStr "4.5") = VNum (Finite (9 # 2))
  /\ convertValue host (VStr "true") = VBool true
  /\ convertValue host (VStr "hello") = VStr "hello"
  /\ (forall s,
        Str.is_integer_literal (Str.trim s) = true ->
        convertValue host (VStr s) = VNum (parseInt10 (Str.trim s)))
  /\ convertValue host (VStr "1") = VNum (Finite 1)
  /\ convertValue host (VStr "0") = VNum (Finite 0).
Proof.
  intros Hm.
  assert (No : forall c rest, Str.is_digit c = false ->
                 moment_strict host (String c rest) = None).
  { intros c rest D. destruct (moment_strict host (String c rest)) eqn:E;
      [|reflexivity].
    destruct (Hm _ _ E) as (c' & rest' & Es & D').
    injection Es as <- _. congruence. }
  repeat split; try reflexivity.
  - cbn. rewrite No by reflexivity. reflexivity.
  - cbn. rewrite No by reflexivity. reflexivity.
  - intros s H. cbn [convertValue]. rewrite H. reflexivity.
Qed.

Lemma convertValue_first_match_witness :
  convertValue ExampleHost.host (VStr "true") = VBool true.
Proof.
  exact (proj1 (proj2 (proj2
    (convertValue_first_match ExampleHost.host example_moment_needs_digit)))).
Defined.

(** C9. For every analysis the analyzer returns, the insights rank the
    agents by descending compliance rate (a stable sort of the agents'
    entries); [topPerformers] is the first 3 of the ranking and
    [improvementAreas] the first 3 of the ranked agents whose rate is
    strictly below 90.  In scenario 5 (rates 100, 92 and 80) the top
    performers are all three agents in descending order and the improvement
    areas hold the 80% agent alone. *)
Theorem insights_agent_ranking (host : Host) (data : argument) (an : analysis) :
  array_sized data ->
  analyzeSLAPerformance host data = Returned (Some an) ->
  (exists found,
      insights an = Some found
      /\ Permutation (agentPerformance host an) (agent_entries host an)
      /\ descending (agentPerformance host an)
      /\ topPerformers found = firstn 3 (agentPerformance host an)
      /\ improvementAreas found
         = firstn 3 (filter below_90 (agentPerformance host an))
      /\ (forall a, In a (filter below_90 (agentPerformance host an)) ->
            (rate_value a < 90)%Q))
  /\ (exists an5 found,
        analyzeSLAPerformance ExampleHost.host scenario5 = Returned (Some an5)
        /\ insights an5 = Some found
        /\ map (fun a => (agent a, complianceRate a)) (topPerformers found)
           = [("A", Finite 100); ("B", Finite 92); ("C", Finite 80)]
        /\ map agent (improvementAreas found) = ["C"]).
Proof.
  intros Hsize H.
  pose proof (analyze_rates_double host data an Hsize H) as Hd.
  split.
  - exists (generatePerformanceInsights host an).
    split; [exact (analyze_insights host data an H)|].
    split; [apply ranking_perm|].
    split; [apply ranking_descending; assumption|].
    destruct (insights_lists host an) as [-> ->].
    split; [reflexivity|]. split; [reflexivity|].
    intros a Ha. apply filter_In in Ha. destruct Ha as [Ha Hb].
    apply (Permutation_in _ (ranking_perm host an)) in Ha.
    rewrite Forall_forall in Hd. specialize (Hd a Ha).
    unfold below_90, rate_value in *.
    destruct (complianceRate a) as [q| |]; try contradiction.
    change (of_Z 90) with (Finite 90) in Hb. cbn [ltb] in Hb.
    destruct (Qcompare_spec q 90); try discriminate. assumption.
  - eexists. eexists.
    split; [vm_compute; reflexivity|].
    split; [reflexivity|].
    split; vm_compute; reflexivity.
Qed.

Lemma insights_agent_ranking_witness :
  exists an,
    analyzeSLAPerformance ExampleHost.host scenario5 = Returned (Some an)
    /\ descending (agentPerformance ExampleHost.host an).
Proof.
  eexists. split; [vm_compute; reflexivity|].
  match goal with
  | |- descending (agentPerformance _ ?an) =>
      destruct (insights_agent_ranking ExampleHost.host scenario5 an)
        as [(found & _ & _ & D & _) _];
      [vm_compute; reflexivity | vm_compute; reflexivity | exact D]
  end.
Defined.

(** C10. For the single ticket that misses both SLAs the agent's
    [complianceRate] is the string "-100.0": its [totalViolations] (2)
    exceeds its ticket total (1).  In every returned analysis an agent's
    [totalViolations] is [responseViolations + resolutionViolations] and
    its rate is [((total - totalViolations) / total * 100).toFixed(1)],
    with no clamping. *)
Theorem agent_rate_can_be_negative (host : Host) :
  (exists an a,
      analyzeSLAPerformance host double_violation = Returned (Some an)
      /\ agents an = [("A", a)]
      /\ agent_total a = 1
      /\ agent_responseViolations a = 1
      /\ agent_resolutionViolations a = 1
      /\ totalViolations a = 2
      /\ agent_complianceRate a = VStr "-100.0"
      /\ parseFloat_of host (agent_complianceRate a) = Finite (-100))
  /\ (forall data an name a,
        analyzeSLAPerformance host data = Returned (Some an) ->
        In (name, a) (agents an) ->
        totalViolations a
        = agent_responseViolations a + agent_resolutionViolations a
        /\ agent_complianceRate a
           = rate host (agent_total a) (totalViolations a)).
Proof.
  split.
  - eexists. eexists.
    split; [reflexivity|].
    split; [vm_compute; reflexivity|].
    repeat split; vm_compute; reflexivity.
  - intros data an name a H Hin.
    apply analyze_returns in H. destruct H as (an0 & _ & ->).
    rewrite finish_agents in Hin. unfold finish_all in Hin.
    apply in_map_iff in Hin. destruct Hin as ([k a0] & E & _).
    cbn [fst snd] in E. injection E as _ <-.
    split; reflexivity.
Qed.

(* ===================================================================== *)
(** * Further properties of the code *)
(* ===================================================================== *)

(** The analyzer returns an analysis for a non-empty array exactly when
    every ticket is passable: it throws as soon as one ticket has a date
    cell that is truthy and no string, or an agent named like a member of
    [Object.prototype]. *)
Theorem analyzer_returns_iff (host : Host) (ticket : object jsval)
    (rest : list (object jsval)) :
  (exists an,
      analyzeSLAPerformance host (Array (ticket :: rest)) = Returned (Some an))
  <-> all_passable host 0 (ticket :: rest) = true.
Proof.
  rewrite <- (forEach_passable host (ticket :: rest) 0%nat
                (initial (length (ticket :: rest))) (initial_clean _)).
  unfold analyzeSLAPerformance.
  destruct (forEach host (ticket :: rest) 0 _) as [an0|e]; cbn [bind].
  - split; intros _; eexists; reflexivity.
  - split; intros [an H]; discriminate.
Qed.

(** How the inspector infers a column's type: the one type of its samples
    when they all have it, [mixed] when two samples differ and also when
    there is no sample at all. *)
Theorem column_type_inference (data : list (object jsval)) (col : string) :
  (sampleValues data col = [] -> columnType data col = "mixed")
  /\ (forall t,
        sampleValues data col <> [] ->
        (forall v, In v (sampleValues data col) -> typeof v = t) ->
        columnType data col = t)
  /\ (forall v w,
        In v (sampleValues data col) -> In w (sampleValues data col) ->
        typeof v <> typeof w ->
        columnType data col = "mixed").
Proof.
  split; [apply columnType_no_samples|].
  split; [apply columnType_uniform | apply columnType_mixed].
Qed.

(** The earlier copy of the analyzer never throws on an array of records,
    and its two buckets satisfy the same conservation. *)
Theorem legacy_conservation (host : Host) (ticket : object jsval)
    (rest : list (object jsval)) :
  exists an,
    Legacy.analyzeSLAPerformance host (Array (ticket :: rest))
    = Returned (Some an)
    /\ legacy_conserved (Legacy.firstResponseSLA an)
    /\ legacy_conserved (Legacy.resolutionSLA an).
Proof.
  eexists. split; [reflexivity|].
  cbn [Legacy.firstResponseSLA Legacy.resolutionSLA].
  match goal with
  | |- context [fold_left _ _ ?init] =>
      destruct (fold_conserved host (ticket :: rest) init) as [C1 C2]
  end; try (unfold legacy_conserved; cbn; lia).
  split; apply finish_bucket_conserved; assumption.
Qed.

(** The two copies of the analyzer disagree on statuses that match no
    keyword.  When some ticket has a status in one of the earlier copy's
    columns and no status of the bucket holds a keyword, the enhanced
    analyzer reports a compliance of "100.0" (from [total - violations])
    and the earlier copy one of "0.0" (from [compliance]), for arrays of
    fewer than 2^32 tickets.  A bucket of the earlier copy has no
    [violationPercentage] exactly when no ticket has a status for it. *)
Theorem legacy_percentage_differs (host : Host) (data : argument)
    (an : analysis) (old : Legacy.analysis) :
  array_sized data ->
  analyzeSLAPerformance host data = Returned (Some an) ->
  Legacy.analyzeSLAPerformance host data = Returned (Some old) ->
  ((exists ticket,
       In ticket (rows_of data)
       /\ LegacyTotals.evaluated LegacyTotals.firstResponseStatus ticket
          = true) ->
   (forall ticket,
       In ticket (rows_of data) ->
       Totals.evaluated firstResponseColumns ticket = true ->
       classify host (find_status ticket firstResponseColumns) = Neither) ->
   compliancePercentage (firstResponseSLA an) = "100.0"
   /\ Legacy.compliancePercentage (Legacy.firstResponseSLA old) = "0.0")
  /\ ((exists ticket,
          In ticket (rows_of data)
          /\ LegacyTotals.evaluated LegacyTotals.resolutionStatus ticket
             = true) ->
      (forall ticket,
          In ticket (rows_of data) ->
          Totals.evaluated resolutionColumns ticket = true ->
          classify host (find_status ticket resolutionColumns) = Neither) ->
      compliancePercentage (resolutionSLA an) = "100.0"
      /\ Legacy.compliancePercentage (Legacy.resolutionSLA old) = "0.0")
  /\ (Legacy.violationPercentage (Legacy.firstResponseSLA old) = None
      <-> (forall ticket,
             In ticket (rows_of data) ->
             LegacyTotals.evaluated LegacyTotals.firstResponseStatus ticket
             = false))
  /\ (Legacy.violationPercentage (Legacy.resolutionSLA old) = None
      <-> (forall ticket,
             In ticket (rows_of data) ->
             LegacyTotals.evaluated LegacyTotals.resolutionStatus ticket
             = false)).
Proof.
  intros Hn H H'.
  apply LegacyCounts.analyze_counts in H'.
  destruct H' as (b1 & b2 & K1 & K2 & -> & ->).
  apply analyze_returns in H. destruct H as (an0 & Hloop & ->).
  apply TotalsFacts.forEach_counts in Hloop.
  destruct (finish_buckets host an0) as [-> ->].
  cbn [initial firstResponseSLA resolutionSLA empty_bucket total violations
       compliance] in Hloop.
  destruct Hloop as ((A1 & A2 & _) & (B1 & B2 & _)).
  rewrite Z.add_0_l in A1, A2, B1, B2.
  unfold array_sized in Hn.
  split; [|split; [|split]].
  - intros He Hk.
    apply (LegacyCounts.bucket_differs host firstResponseColumns
             LegacyTotals.firstResponseStatus (rows_of data));
      try assumption.
    intros ticket. apply LegacyCounts.firstResponse_found.
  - intros He Hk.
    apply (LegacyCounts.bucket_differs host resolutionColumns
             LegacyTotals.resolutionStatus (rows_of data));
      try assumption.
    intros ticket. apply LegacyCounts.resolution_found.
  - apply (LegacyCounts.finish_without host _ _ _ K1).
  - apply (LegacyCounts.finish_without host _ _ _ K2).
Qed.

Lemma legacy_percentage_differs_witness :
  exists an old,
    analyzeSLAPerformance ExampleHost.host LegacyTotals.on_hold
    = Returned (Some an)
    /\ Legacy.analyzeSLAPerformance ExampleHost.host LegacyTotals.on_hold
       = Returned (Some old)
    /\ compliancePercentage (firstResponseSLA an) = "100.0"
    /\ Legacy.compliancePercentage (Legacy.firstResponseSLA old) = "0.0".
Proof.
  eexists. eexists.
  split; [vm_compute; reflexivity|]. split; [reflexivity|].
  match goal with
  | |- compliancePercentage (firstResponseSLA ?an) = _
       /\ Legacy.compliancePercentage (Legacy.firstResponseSLA ?old) = _ =>
      destruct (legacy_percentage_differs ExampleHost.host
                  LegacyTotals.on_hold an old) as (D & _)
  end.
  - vm_compute. reflexivity.
  - vm_compute. reflexivity.
  - reflexivity.
  - apply D.
    + eexists. split; [left; reflexivity | vm_compute; reflexivity].
    + intros ticket [<-|[<-|[]]] _; vm_compute; reflexivity.
Defined.

Import Obj ObjFacts KeyFacts Server Spec SlaFacts AnalyzerFacts ThrowFacts.
Import InsightFacts Totals TotalsFacts.
(** In a returned analysis the counts of both SLA buckets are exact:
    [total] is the number of tickets with a truthy status in one of the
    bucket's columns, [violations] the number of those whose status holds
    a violation keyword, [compliance] the number of those whose status
    holds no violation keyword but a compliance keyword. *)
Theorem bucket_counts_exact (host : Host) (data : argument) (an : analysis) :
  analyzeSLAPerformance host data = Returned (Some an) ->
  (total (firstResponseSLA an)
   = count (evaluated firstResponseColumns) (rows_of data)
   /\ violations (firstResponseSLA an)
      = count (judged host Violation firstResponseColumns) (rows_of data)
   /\ compliance (firstResponseSLA an)
      = count (judged host Compliant firstResponseColumns) (rows_of data))
  /\ (total (resolutionSLA an)
      = count (evaluated resolutionColumns) (rows_of data)
      /\ violations (resolutionSLA an)
         = count (judged host Violation resolutionColumns) (rows_of data)
      /\ compliance (resolutionSLA an)
         = count (judged host Compliant resolutionColumns) (rows_of data)).
Proof.
  intros H. apply analyze_returns in H. destruct H as (an0 & Hloop & ->).
  apply forEach_counts in Hloop.
  destruct (finish_buckets host an0) as [-> ->].
  destruct (finish_bucket_counts host (firstResponseSLA an0)) as (-> & -> & ->).
  destruct (finish_bucket_counts host (resolutionSLA an0)) as (-> & -> & ->).
  cbn [initial firstResponseSLA resolutionSLA empty_bucket total violations
       compliance] in Hloop.
  destruct Hloop as ((A1 & A2 & A3) & (B1 & B2 & B3)).
  repeat split; lia.
Qed.

Lemma bucket_counts_exact_witness :
  exists an,
    analyzeSLAPerformance ExampleHost.host scenario5 = Returned (Some an)
    /\ total (firstResponseSLA an) = 31
    /\ violations (firstResponseSLA an) = 3.
Proof.
  eexists. split; [vm_compute; reflexivity|].
  match goal with
  | |- total (firstResponseSLA ?an) = _ /\ _ =>
      destruct (bucket_counts_exact ExampleHost.host scenario5 an)
        as ((E1 & E2 & _) & _); [vm_compute; reflexivity|]
  end.
  split; [rewrite E1 | rewrite E2]; vm_compute; reflexivity.
Defined.

(** In a returned analysis every ticket is counted under exactly one
    agent: the agents' totals add up to [totalTickets], which is the number
    of tickets; their response and resolution violations add up to the
    violations of the two SLA buckets, and their [totalViolations] to the
    sum of both. *)
Theorem agents_partition_tickets (host : Host) (data : argument)
    (an : analysis) :
  analyzeSLAPerformance host data = Returned (Some an) ->
  totalTickets an = Z.of_nat (length (rows_of data))
  /\ sum agent_total (agents an) = totalTickets an
  /\ sum agent_responseViolations (agents an)
     = violations (firstResponseSLA an)
  /\ sum agent_resolutionViolations (agents an)
     = violations (resolutionSLA an)
  /\ sum totalViolations (agents an)
     = violations (firstResponseSLA an) + violations (resolutionSLA an).
Proof.
  intros H. apply analyze_returns in H. destruct H as (an0 & Hloop & ->).
  pose proof (forEach_counts host _ _ _ _ Hloop) as ((_ & V1 & _) & (_ & V2 & _)).
  pose proof (forEach_agent_sums host _ _ _ _ Hloop) as (S1 & S2 & S3).
  pose proof (forEach_totalTickets host _ _ _ _ Hloop) as T.
  destruct (finish_buckets host an0) as [-> ->].
  destruct (finish_bucket_counts host (firstResponseSLA an0)) as (-> & _ & _).
  destruct (finish_bucket_counts host (resolutionSLA an0)) as (-> & _ & _).
  change (totalTickets (finish host an0)) with (totalTickets an0).
  rewrite finish_agents, !sum_finish_agents.
  cbn [finish_agent agent_total agent_responseViolations
       agent_resolutionViolations totalViolations].
  rewrite sum_plus.
  cbn [initial totalTickets agents firstResponseSLA resolutionSLA
       empty_bucket violations sum fold_right] in *.
  rewrite Z.add_0_l in *.
  repeat split;
    [ exact T | rewrite T; exact S1 | rewrite V1; exact S2
    | rewrite V2; exact S3 | rewrite V1, V2, S2, S3; reflexivity ].
Qed.

Lemma agents_partition_tickets_witness :
  exists an,
    analyzeSLAPerformance ExampleHost.host scenario5 = Returned (Some an)
    /\ sum agent_total (agents an) = 31.
Proof.
  eexists. split; [vm_compute; reflexivity|].
  match goal with
  | |- sum agent_total (agents ?an) = _ =>
      destruct (agents_partition_tickets ExampleHost.host scenario5 an)
        as (E1 & E2 & _); [vm_compute; reflexivity|]
  end.
  rewrite E2, E1. vm_compute. reflexivity.
Defined.

(** In a returned analysis the totals of the categories add up to the
    number of tickets whose category is not named like a member of
    [Object.prototype] (such a ticket is counted under no category), and
    likewise the totals of the priorities: each sum is at most the number
    of tickets. *)
Theorem group_totals_count (host : Host) (data : argument) (an : analysis) :
  analyzeSLAPerformance host data = Returned (Some an) ->
  sum group_total (categories an)
  = count (category_counted host) (rows_of data)
  /\ sum group_total (priorityAnalysis an)
     = count (priority_counted host) (rows_of data)
  /\ sum group_total (categories an) <= Z.of_nat (length (rows_of data))
  /\ sum group_total (priorityAnalysis an)
     <= Z.of_nat (length (rows_of data)).
Proof.
  intros H. apply analyze_returns in H. destruct H as (an0 & Hloop & ->).
  apply forEach_group_sums in Hloop;
    [| intros k _; reflexivity | intros k _; reflexivity].
  change (categories (finish host an0))
    with (finish_all (finish_group host) (categories an0)).
  change (priorityAnalysis (finish host an0))
    with (finish_all (finish_group host) (priorityAnalysis an0)).
  rewrite !(sum_finish_all group_total (finish_group host))
    by (intros v; reflexivity).
  cbn [initial categories priorityAnalysis sum fold_right] in Hloop.
  destruct Hloop as (C & P).
  pose proof (count_le (category_counted host) (rows_of data)).
  pose proof (count_le (priority_counted host) (rows_of data)).
  repeat split; lia.
Qed.

Lemma group_totals_count_witness :
  exists an,
    analyzeSLAPerformance ExampleHost.host no_status = Returned (Some an)
    /\ sum group_total (categories an) = 1.
Proof.
  eexists. split; [vm_compute; reflexivity|].
  match goal with
  | |- sum group_total (categories ?an) = _ =>
      destruct (group_totals_count ExampleHost.host no_status an)
        as (E1 & _); [vm_compute; reflexivity|]
  end.
  rewrite E1. vm_compute. reflexivity.
Defined.

Import Double DoubleFacts PercentFacts Server Spec AnalyzerFacts.
Import InsightFacts SortFacts KeyFacts AgentFacts RateFacts Totals RangeFacts.
(** In every returned analysis (of fewer than 2^32 tickets) an agent's
    [complianceRate] reads as a number between -100 and 100; it is not
    negative when the agent's [totalViolations] do not exceed its ticket
    total. *)
Theorem agent_rates_bounded (host : Host) (data : argument) (an : analysis)
    (name : string) (a : agent_stats) :
  array_sized data ->
  analyzeSLAPerformance host data = Returned (Some an) ->
  In (name, a) (agents an) ->
  exists q,
    parseFloat_of host (agent_complianceRate a) = Finite q
    /\ (- (100) <= q <= 100)%Q
    /\ (totalViolations a <= agent_total a -> (0 <= q)%Q).
Proof.
  intros Hsize H Hin.
  destruct (analyze_agents host data an name a H Hin) as (a0 & Hc & ->).
  unfold array_sized in Hsize.
  apply (counted_rate_range host (Z.of_nat (length (rows_of data))) a0);
    [lia | exact Hc].
Qed.

Lemma agent_rates_bounded_witness :
  exists an a,
    analyzeSLAPerformance ExampleHost.host double_violation
    = Returned (Some an)
    /\ In ("A", a) (agents an)
    /\ exists q,
         parseFloat_of ExampleHost.host (agent_complianceRate a) = Finite q
         /\ (- (100) <= q <= 100)%Q.
Proof.
  eexists. eexists. split; [vm_compute; reflexivity|].
  split; [left; reflexivity|].
  match goal with
  | |- exists q, parseFloat_of _ (agent_complianceRate ?a) = _ /\ _ =>
      destruct (agent_rates_bounded ExampleHost.host double_violation
                  _ "A" a ltac:(vm_compute; reflexivity) eq_refl
                  (or_introl eq_refl)) as (q & E & B & _)
  end.
  exists q. split; [exact E | exact B].
Defined.

(** The recommendations of a returned analysis: a bucket without a single
    evaluated ticket (no status column at all) reads as a compliance of 0
    and always brings its recommendation ("First Response Time" below 95,
    "Resolution Time" below 90); a bucket with evaluated tickets and no
    violation never does. *)
Theorem recommendations_by_bucket (host : Host) (data : argument)
    (an : analysis) (found : insights_t) :
  array_sized data ->
  analyzeSLAPerformance host data = Returned (Some an) ->
  insights an = Some found ->
  (total (firstResponseSLA an) = 0 ->
   In "First Response Time" (map area (recommendations found)))
  /\ (total (resolutionSLA an) = 0 ->
      In "Resolution Time" (map area (recommendations found)))
  /\ (0 < total (firstResponseSLA an) ->
      violations (firstResponseSLA an) = 0 ->
      ~ In "First Response Time" (map area (recommendations found)))
  /\ (0 < total (resolutionSLA an) ->
      violations (resolutionSLA an) = 0 ->
      ~ In "Resolution Time" (map area (recommendations found))).
Proof.
  intros Hsize H Hfound.
  rewrite (analyze_insights host data an H) in Hfound.
  injection Hfound as <-.
  assert (P : forall b, b = firstResponseSLA an \/ b = resolutionSLA an ->
            (total b = 0 -> compliancePercentage b = "0")
            /\ (0 < total b -> violations b = 0 ->
                compliancePercentage b = "100.0")).
  { intros b Hb.
    destruct (analyze_buckets host data an b H Hb) as (b0 & T & ->).
    destruct (finish_bucket_counts host b0) as (-> & _ & ->).
    split.
    - intros Z0. apply (finish_bucket_empty host _ b0 T Z0).
    - intros Hpos Hv.
      destruct (finish_bucket_percentages host b0 Hpos) as [-> _].
      rewrite Hv, Z.sub_0_r. apply percentage_all.
      destruct T as (_ & Ht & _). unfold array_sized in Hsize. lia. }
  destruct (P _ (or_introl eq_refl)) as [F0 F1].
  destruct (P _ (or_intror eq_refl)) as [R0 R1].
  cbn [generatePerformanceInsights recommendations].
  repeat split.
  - intros Z0. rewrite (F0 Z0).
    change (ltb (parseFloat "0") (of_Z 95)) with true.
    left. reflexivity.
  - intros Z0. rewrite (R0 Z0).
    change (ltb (parseFloat "0") (of_Z 90)) with true.
    rewrite map_app, in_app_iff. right.
    rewrite map_app, in_app_iff. left. left. reflexivity.
  - intros Hpos Hv. rewrite (F1 Hpos Hv).
    change (ltb (parseFloat "100.0") (of_Z 95)) with false.
    cbn [app].
    destruct (ltb _ _); destruct (_ && _);
      cbn [app map area recommend In]; intros C;
      repeat (destruct C as [C|C]; [discriminate C|]); exact C.
  - intros Hpos Hv. rewrite (R1 Hpos Hv).
    change (ltb (parseFloat "100.0") (of_Z 90)) with false.
    destruct (ltb _ _); destruct (_ && _);
      cbn [app map area recommend In]; intros C;
      repeat (destruct C as [C|C]; [discriminate C|]); exact C.
Qed.

Lemma recommendations_by_bucket_witness :
  exists an found,
    analyzeSLAPerformance ExampleHost.host no_status = Returned (Some an)
    /\ insights an = Some found
    /\ In "First Response Time" (map area (recommendations found)).
Proof.
  eexists. eexists. split; [vm_compute; reflexivity|].
  split; [reflexivity|].
  match goal with
  | |- In _ (map area (recommendations ?found)) =>
      apply (proj1 (recommendations_by_bucket ExampleHost.host no_status
                      _ found ltac:(vm_compute; reflexivity) eq_refl
                      eq_refl))
  end.
  vm_compute. reflexivity.
Defined.

(** With at most three agents the top performers are all the agents, and
    the improvement areas are the top performers below 90: every agent
    listed for improvement is listed as a top performer as well. *)
Theorem insights_small_team (host : Host) (an : analysis) :
  (length (agents an) <= 3)%nat ->
  topPerformers (generatePerformanceInsights host an)
  = agentPerformance host an
  /\ improvementAreas (generatePerformanceInsights host an)
     = filter below_90 (topPerformers (generatePerformanceInsights host an))
  /\ (forall a,
        In a (improvementAreas (generatePerformanceInsights host an)) ->
        In a (topPerformers (generatePerformanceInsights host an))).
Proof.
  intros Hlen.
  destruct (insights_lists host an) as [-> ->].
  assert (L : (length (agentPerformance host an) <= 3)%nat).
  { rewrite (Permutation_length (ranking_perm host an)).
    unfold agent_entries. rewrite length_map. exact Hlen. }
  rewrite (firstn_filter_sub below_90 _ 3 L), firstn_all2 by exact L.
  split; [reflexivity|]. split; [reflexivity|].
  intros a Ha. apply filter_In in Ha. tauto.
Qed.

Lemma insights_small_team_witness :
  exists an,
    analyzeSLAPerformance ExampleHost.host one_agent = Returned (Some an)
    /\ improvementAreas (generatePerformanceInsights ExampleHost.host an)
       = filter below_90
           (topPerformers (generatePerformanceInsights ExampleHost.host an)).
Proof.
  eexists. split; [vm_compute; reflexivity|].
  match goal with
  | |- improvementAreas (generatePerformanceInsights ?h ?an) = _ =>
      exact (proj1 (proj2 (insights_small_team h an
                             ltac:(vm_compute; lia))))
  end.
Defined.

Import Obj ObjFacts KeyFacts DataUtils Spec CleanerFacts ExactFacts.
Import Cleaning CleaningFacts.
(** The warnings of [cleanData], for an array of fewer than 2^32 records
    whose first record has a column: one "Row i contains no valid data" per
    dropped row, in order, with [i] counted from 1; then the quality
    warning, exactly when fewer than 80% of the rows are kept (5 times the
    rows kept is less than 4 times the rows given). *)
Theorem cleanData_warnings (host : Host) (data : argument) :
  array_sized data ->
  declared_columns data <> [] ->
  warnings (cleanData host data)
  = (map row_warning
       (blank_rows host (declared_columns data) (rows_of data) 0)
     ++ (if 5 * Z.of_nat (length (DataUtils.data (cleanData host data)))
            <? 4 * Z.of_nat (length (rows_of data))
         then [quality_warning] else []))%list.
Proof.
  unfold array_sized, declared_columns.
  destruct data as [v|[|first rest]]; cbn [rows_of]; try congruence.
  intros Hsize Hcols. cbn [cleanData].
  destruct (keys first) as [|col cols] eqn:K; [congruence|].
  pose proof (cleanRows_row_warnings host (col :: cols) (first :: rest) 0%nat)
    as W.
  pose proof (cleanRows_length host (col :: cols) (first :: rest) 0%nat) as L.
  destruct (cleanRows host (col :: cols) (first :: rest) 0) as [kept ws].
  cbn [fst snd] in W, L. subst ws.
  cbn [warnings DataUtils.data].
  assert (Hk : (length kept <= length (first :: rest))%nat).
  { rewrite L. apply filter_length_le. }
  pose proof (below_four_fifths (Z.of_nat (length kept))
                (Z.of_nat (length (first :: rest)))
                ltac:(lia) ltac:(lia)) as T.
  destruct (Double.ltb _ _).
  - replace (_ <? _) with true; [reflexivity|].
    symmetry. apply Z.ltb_lt, T. reflexivity.
  - replace (_ <? _) with false; [rewrite app_nil_r; reflexivity|].
    symmetry. apply Z.ltb_ge.
    destruct (Z_lt_le_dec (5 * Z.of_nat (length kept))
                (4 * Z.of_nat (length (first :: rest)))) as [C|C];
      [|exact C].
    apply T in C. discriminate C.
Qed.

Lemma cleanData_warnings_witness :
  warnings (cleanData ExampleHost.host mostly_blank)
  = [row_warning 1; row_warning 2; quality_warning].
Proof.
  rewrite (cleanData_warnings ExampleHost.host mostly_blank);
    [ reflexivity | vm_compute; reflexivity | discriminate ].
Defined.

(** The rows [cleanData] returns are rectangular: any two of them have
    the same keys in the same order, without repetition, and these are the
    columns declared by the first input row (but for a column named
    [__proto__], which no assignment turns into a property). *)
Theorem cleanData_rectangular (host : Host) (data : argument)
    (r1 r2 : object jsval) :
  In r1 (DataUtils.data (cleanData host data)) ->
  In r2 (DataUtils.data (cleanData host data)) ->
  keys r1 = keys r2
  /\ NoDup (keys r1)
  /\ forall k, In k (keys r1) <-> In k (settable (declared_columns data)).
Proof.
  unfold declared_columns.
  destruct data as [v|[|first rest]]; cbn [rows_of]; try (intros []).
  destruct (keys first) as [|col cols] eqn:K.
  - cbn [cleanData]. rewrite K. intros [].
  - rewrite data_of_cleanData by congruence. rewrite K.
    intros H1 H2.
    apply cleanRows_In in H1. destruct H1 as (row1 & _ & ->).
    apply cleanRows_In in H2. destruct H2 as (row2 & _ & ->).
    split; [apply cleanRow_keys|].
    split; [apply cleanRow_NoDup_from; constructor|].
    intros k. apply cleanRow_In.
Qed.

Lemma cleanData_rectangular_witness :
  In [("Agent", VStr "A"); ("Status", VStr "open")]
     (DataUtils.data (cleanData ExampleHost.host scenario3))
  /\ NoDup (keys [("Agent", VStr "A"); ("Status", VStr "open")]).
Proof.
  assert (H : In [("Agent", VStr "A"); ("Status", VStr "open")]
                (DataUtils.data (cleanData ExampleHost.host scenario3)))
    by (left; reflexivity).
  split; [exact H|].
  exact (proj1 (proj2 (cleanData_rectangular ExampleHost.host scenario3
                         _ _ H H))).
Defined.

(** A cell of white space alone is no blank cell: it counts as valid data
    and is cleaned to the empty string, so a row that holds nothing else is
    kept (when moment.js accepts no string that does not start with a
    digit). *)
Theorem whitespace_cell_is_data (host : Host) (s : string) :
  moment_needs_digit host ->
  s <> "" -> Str.trim s = "" ->
  is_blank (VStr s) = false
  /\ convertValue host (VStr s) = VStr ""
  /\ forall columns row col,
       In col columns -> get row col = VStr s ->
       snd (cleanRow host columns row) = true.
Proof.
  intros Hm Hs Ht.
  assert (B : is_blank (VStr s) = false).
  { cbn [is_blank]. apply String.eqb_neq. exact Hs. }
  split; [exact B|]. split.
  - cbn [convertValue]. rewrite Ht. cbn.
    destruct (moment_strict host "") as [iso|] eqn:E; [|reflexivity].
    destruct (Hm _ _ E) as (c & rest & C & _). discriminate C.
  - intros columns row col Hin Hget.
    rewrite cleanRow_flag. apply negb_true_iff.
    unfold all_null. apply not_true_is_false. intros C.
    rewrite forallb_forall in C. specialize (C col Hin).
    rewrite normalize_null, Hget, B in C. discriminate C.
Qed.

Lemma whitespace_cell_is_data_witness :
  DataUtils.data (cleanData ExampleHost.host blank_looking)
  = [ [("Agent", VStr ""); ("Status", VNull)] ]
  /\ convertValue ExampleHost.host (VStr "  ") = VStr "".
Proof.
  split; [vm_compute; reflexivity|].
  exact (proj1 (proj2 (whitespace_cell_is_data ExampleHost.host "  "
                         example_moment_needs_digit
                         ltac:(discriminate) eq_refl))).
Defined.

(** [convertValue] is idempotent on everything but the strings moment.js
    takes for a date: converting a converted value changes nothing. *)
Theorem convertValue_idempotent (host : Host) (value : jsval) :
  (forall s, value = VStr s -> moment_strict host (Str.trim s) = None) ->
  convertValue host (convertValue host value) = convertValue host value.
Proof.
  intros Hdate. destruct value as [| |b|n|s|c r]; try reflexivity.
  specialize (Hdate s eq_refl). cbn [convertValue]. rewrite Hdate.
  destruct (Str.is_integer_literal (Str.trim s)) eqn:I; [reflexivity|].
  destruct (Str.is_decimal_literal (Str.trim s)) eqn:D; [reflexivity|].
  destruct (existsb _ ["true"; "yes"; "1"; "y"]) eqn:T; [reflexivity|].
  destruct (existsb _ ["false"; "no"; "0"; "n"]) eqn:F; [reflexivity|].
  cbn [convertValue]. rewrite trim_idem, I, D, Hdate, T, F. reflexivity.
Qed.

Lemma convertValue_idempotent_witness :
  convertValue ExampleHost.host (VStr "  open ") = VStr "open"
  /\ convertValue ExampleHost.host
       (convertValue ExampleHost.host (VStr "  open "))
     = convertValue ExampleHost.host (VStr "  open ").
Proof.
  split; [vm_compute; reflexivity|].
  apply convertValue_idempotent.
  intros s E. injection E as <-. vm_compute. reflexivity.
Defined.

Import Double DoubleFacts PercentFacts Obj ObjFacts KeyFacts Server Spec.
Import ExactFacts RangeFacts Num Profile ProfileFacts.
(** The column statistics of [analyzeDataStructure], for an array of fewer
    than 2^32 records: [nullCount] and [uniqueCount] never exceed the row
    count, both percentages read as numbers between 0 and 100,
    [completeness] is a number between 0 and 100, and [consistency] is
    "High" exactly when the distinct values are fewer than 80% of the rows
    (5 times [uniqueCount] below 4 times the rows), "Medium" otherwise. *)
Theorem column_profile_bounds (host : Host) (data : argument) (r : report)
    (col : string) (p : pattern) (q : quality) :
  array_sized data ->
  analyzeDataStructure host data = Returned (Some r) ->
  In (col, p) (columnPatterns r) ->
  In (col, q) (dataQuality r) ->
  (nullCount p <= totalRows (structure r))%nat
  /\ (1 <= uniqueCount p <= totalRows (structure r))%nat
  /\ in_percent_range (nullPercentage p)
  /\ in_percent_range (uniquePercentage p)
  /\ (exists c, completeness q = Finite c /\ (0 <= c <= 100)%Q)
  /\ (consistency q = "High"
      <-> 5 * Z.of_nat (uniqueCount p)
          < 4 * Z.of_nat (totalRows (structure r)))
  /\ (consistency q = "High" \/ consistency q = "Medium").
Proof.
  intros Hsize H Hp Hq.
  rewrite (pattern_of_entry host data r col p H Hp).
  rewrite (quality_of_entry host data r col q H Hq).
  destruct (report_entries host data r H) as (Hne & _ & -> & _).
  unfold array_sized in Hsize.
  set (rows := rows_of data) in *.
  assert (Hpos : (0 < length rows)%nat)
    by (destruct rows; [congruence | cbn [length]; lia]).
  pose proof (nullCount_le host rows col) as Ln.
  destruct (distinct_cells_length col rows) as [Lu Lu1].
  specialize (Lu1 Hne).
  destruct (pattern_tenths host _ _ Ln Hpos Hsize) as (n & En & Bn & _).
  destruct (pattern_tenths host _ _ Lu Hpos Hsize) as (u & Eu & Bu & _).
  cbn [columnQuality columnPattern nullCount uniqueCount nullPercentage
       uniquePercentage completeness consistency] in *.
  split; [exact Ln|]. split; [lia|].
  split; [rewrite En; apply tenths_in_range, Bn|].
  split; [rewrite Eu; apply tenths_in_range, Bu|].
  split; [rewrite En; apply tenths_completeness, Bn|].
  pose proof (below_four_fifths
                (Z.of_nat (length (distinct_cells col rows)))
                (Z.of_nat (length rows)) ltac:(lia) ltac:(lia)) as T.
  destruct (ltb _ _).
  - split; [|left; reflexivity].
    split; [intros _; apply T; reflexivity | reflexivity].
  - split; [|right; reflexivity].
    split; [discriminate|]. intros C. apply T in C. discriminate C.
Qed.

Lemma column_profile_bounds_witness :
  exists r p q,
    analyzeDataStructure ExampleHost.host (Array zeros) = Returned (Some r)
    /\ In ("Agent", p) (columnPatterns r)
    /\ In ("Agent", q) (dataQuality r)
    /\ (nullCount p <= totalRows (structure r))%nat
    /\ consistency q = "Medium".
Proof.
  eexists. eexists. eexists.
  split; [vm_compute; reflexivity|].
  split; [left; reflexivity|]. split; [left; reflexivity|].
  split; [|reflexivity].
  match goal with
  | |- (nullCount ?p <= totalRows (structure ?r))%nat =>
      exact (proj1 (column_profile_bounds ExampleHost.host (Array zeros)
                      r "Agent" p _ ltac:(vm_compute; reflexivity) eq_refl
                      (or_introl eq_refl) (or_introl eq_refl)))
  end.
Defined.

(** [analyzeDataStructure] counts every falsy cell as missing: a column
    whose cells are all falsy (the number 0 and [false] as well as null
    and the empty string) has [nullCount] equal to the row count, a
    [nullPercentage] of "100.0" and a [completeness] of 0, and the
    recommendations hold its "has 100.0% missing values" message. *)
Theorem falsy_cells_count_as_missing (host : Host) (data : argument)
    (r : report) (col : string) :
  array_sized data ->
  analyzeDataStructure host data = Returned (Some r) ->
  In col (columns (structure r)) ->
  col <> "__proto__" ->
  (forall row, In row (rows_of data) -> truthy (get row col) = false) ->
  exists p q,
    In (col, p) (columnPatterns r)
    /\ In (col, q) (dataQuality r)
    /\ nullCount p = totalRows (structure r)
    /\ nullPercentage p = "100.0"
    /\ completeness q = Finite 0
    /\ In ("Column " ++ quote ++ col ++ quote
           ++ " has 100.0% missing values - consider data cleansing")
         (dataRecommendations r).
Proof.
  intros Hsize H Hcol Hproto Hall.
  apply String.eqb_neq in Hproto.
  destruct (entries_of_column host data r col H Hcol Hproto) as [Ip Iq].
  destruct (report_entries host data r H)
    as (Hne & _ & Ht & _ & _ & _ & Hrec).
  unfold array_sized in Hsize.
  set (rows := rows_of data) in *.
  assert (Hpos : (0 < length rows)%nat)
    by (destruct rows; [congruence | cbn [length]; lia]).
  assert (Hc : length (filter (is_missing col) rows) = length rows).
  { clear - Hall. induction rows as [|row rows IH]; [reflexivity|].
    cbn [filter]. unfold is_missing at 1.
    rewrite (Hall row (or_introl eq_refl)). cbn [negb orb length].
    f_equal. apply IH. intros row' Hin. apply Hall. right. exact Hin. }
  assert (Hn : nullPercentage (columnPattern host rows col) = "100.0").
  { cbn [columnPattern nullPercentage]. rewrite Hc.
    apply percentage_all. lia. }
  exists (columnPattern host rows col), (columnQuality host rows col).
  split; [exact Ip|]. split; [exact Iq|].
  split; [rewrite Ht; exact Hc|]. split; [exact Hn|].
  split.
  - cbn [columnQuality completeness]. rewrite Hn. vm_compute. reflexivity.
  - rewrite Hrec. unfold generateDataRecommendations.
    apply in_app_iff. left. apply in_flat_map.
    exists (col, columnPattern host rows col). split; [exact Ip|].
    cbn [fst snd]. rewrite Hn.
    change (gtb (parseFloat "100.0") (of_Z 50)) with true.
    left. unfold missing_values_message. rewrite Hn. reflexivity.
Qed.

Lemma falsy_cells_count_as_missing_witness :
  exists r,
    analyzeDataStructure ExampleHost.host (Array zeros) = Returned (Some r)
    /\ exists p, In ("Reopened", p) (columnPatterns r)
                 /\ nullPercentage p = "100.0".
Proof.
  eexists. split; [vm_compute; reflexivity|].
  match goal with
  | |- exists p, In (_, p) (columnPatterns ?r) /\ _ =>
      destruct (falsy_cells_count_as_missing ExampleHost.host (Array zeros)
                  r "Reopened" ltac:(vm_compute; reflexivity) eq_refl)
        as (p & q & Ip & _ & _ & Hn & _)
  end.
  - right. left. reflexivity.
  - discriminate.
  - intros row [<-|[<-|[]]]; reflexivity.
  - exists p. split; [exact Ip | exact Hn].
Defined.

(** The quality score at its extremes, for fewer than 2^32 records and
    columns: "Excellent" when no cell of a declared column is falsy,
    "Poor" when every cell is, and "Poor" as well when the report has no
    column at all (the average of no score is NaN). *)
Theorem quality_score_extremes (host : Host) (data : argument) (r : report) :
  array_sized data ->
  Z.of_nat (length (columns (structure r))) < 2 ^ 32 ->
  analyzeDataStructure host data = Returned (Some r) ->
  (dataQuality r = [] -> qualityScore r = "Poor")
  /\ (dataQuality r <> [] ->
      (forall col row,
         In col (columns (structure r)) -> In row (rows_of data) ->
         truthy (get row col) = true) ->
      qualityScore r = "Excellent")
  /\ (dataQuality r <> [] ->
      (forall col row,
         In col (columns (structure r)) -> In row (rows_of data) ->
         truthy (get row col) = false) ->
      qualityScore r = "Poor").
Proof.
  intros Hsize Hcols H.
  destruct (report_entries host data r H)
    as (Hne & _ & _ & _ & Hdq & Hscore & _).
  unfold array_sized in Hsize.
  set (rows := rows_of data) in *.
  assert (Hpos : (0 < length rows)%nat)
    by (destruct rows; [congruence | cbn [length]; lia]).
  assert (Hlen : Z.of_nat (length (dataQuality r)) < 2 ^ 32).
  { rewrite Hdq.
    pose proof (filled_length (fun c => columnQuality host rows c)
                  (columns (structure r)) []) as L.
    cbn [length] in L. lia. }
  assert (Hcol : forall col q, In (col, q) (dataQuality r) ->
                   In col (columns (structure r))
                   /\ q = columnQuality host rows col).
  { intros col q Hin. split; [|exact (quality_of_entry host data r col q H Hin)].
    rewrite Hdq in Hin.
    assert (K : In col (keys (fold_left
                  (fun o c => set c (columnQuality host rows c) o)
                  (columns (structure r)) []))).
    { unfold keys. change col with (fst (col, q)). apply in_map, Hin. }
    clear - K.
    assert (G : forall cols (o : object quality),
              In col (keys (fold_left
                (fun o c => set c (columnQuality host rows c) o) cols o)) ->
              In col (keys o) \/ In col cols).
    { induction cols as [|c cols IH]; intros o; cbn [fold_left In];
        [tauto|].
      intros K0. destruct (IH _ K0) as [K'|K']; [|tauto].
      apply CleaningFacts.In_keys_set in K'.
      destruct K' as [K'|[-> _]]; [left; exact K' | right; left; reflexivity]. }
    destruct (G _ _ K) as [[]|K']. exact K'. }
  rewrite Hscore.
  split; [intros ->; reflexivity|].
  split; intros Hq Hall;
    destruct (score_uniform host (dataQuality r) Hq Hlen) as [S1 S0].
  - apply S1. apply Forall_forall. intros [col q] Hin.
    destruct (Hcol col q Hin) as [Ic ->].
    cbn [snd columnQuality completeness columnPattern nullPercentage
         nullCount].
    assert (Hc : length (filter (is_missing col) rows) = 0%nat).
    { assert (A : forall row, In row rows -> truthy (get row col) = true)
        by (intros row; apply Hall, Ic).
      clear - A. induction rows as [|row rows IH]; [reflexivity|].
      cbn [filter]. unfold is_missing at 1.
      rewrite (A row (or_introl eq_refl)). cbn [negb orb].
      destruct (get row col) eqn:G;
        try (cbn [DataUtils.is_blank]; apply IH; intros; apply A; right;
             assumption).
      - pose proof (A row (or_introl eq_refl)) as T. rewrite G in T.
        discriminate T.
      - pose proof (A row (or_introl eq_refl)) as T. rewrite G in T.
        discriminate T.
      - pose proof (A row (or_introl eq_refl)) as T. rewrite G in T.
        cbn [truthy] in T. cbn [DataUtils.is_blank].
        apply negb_true_iff in T. rewrite T.
        apply IH. intros; apply A; right; assumption. }
    rewrite Hc. change (Z.of_nat 0) with 0.
    rewrite percentage_none by lia. vm_compute. reflexivity.
  - apply S0. apply Forall_forall. intros [col q] Hin.
    destruct (Hcol col q Hin) as [Ic ->].
    cbn [snd columnQuality completeness columnPattern nullPercentage
         nullCount].
    assert (Hc : length (filter (is_missing col) rows) = length rows).
    { assert (A : forall row, In row rows -> truthy (get row col) = false)
        by (intros row; apply Hall, Ic).
      clear - A. induction rows as [|row rows IH]; [reflexivity|].
      cbn [filter]. unfold is_missing at 1.
      rewrite (A row (or_introl eq_refl)). cbn [negb orb length].
      f_equal. apply IH. intros row' Hin. apply A. right. exact Hin. }
    rewrite Hc, percentage_all by lia. vm_compute. reflexivity.
Qed.

Lemma quality_score_extremes_witness :
  exists r,
    analyzeDataStructure ExampleHost.host (Array [ [("Agent", VStr "A")] ])
    = Returned (Some r)
    /\ qualityScore r = "Excellent".
Proof.
  eexists. split; [vm_compute; reflexivity|].
  match goal with
  | |- qualityScore ?r = _ =>
      apply (proj1 (proj2 (quality_score_extremes ExampleHost.host
                             (Array [ [("Agent", VStr "A")] ]) r
                             ltac:(vm_compute; reflexivity)
                             ltac:(vm_compute; reflexivity) eq_refl)))
  end.
  - discriminate.
  - intros col row [<-|[]] [<-|[]]. reflexivity.
Defined.

(** The "missing values" recommendation of a column, for fewer than 2^32
    records: it is made when the column's [nullPercentage] reads above 50,
    which happens only if more than half of the cells are missing, and
    always if at least 50.1% of them are. *)
Theorem missing_values_threshold (host : Host) (data : argument) (r : report)
    (col : string) (p : pattern) :
  array_sized data ->
  analyzeDataStructure host data = Returned (Some r) ->
  In (col, p) (columnPatterns r) ->
  (flagged (nullPercentage p) = true ->
   In (missing_values_message col p) (dataRecommendations r))
  /\ (flagged (nullPercentage p) = true ->
      Z.of_nat (totalRows (structure r)) < 2 * Z.of_nat (nullCount p))
  /\ (501 * Z.of_nat (totalRows (structure r))
      <= 1000 * Z.of_nat (nullCount p) ->
      flagged (nullPercentage p) = true).
Proof.
  intros Hsize H Hp.
  destruct (report_entries host data r H)
    as (Hne & _ & Ht & _ & _ & _ & Hrec).
  split.
  - intros F. rewrite Hrec. unfold generateDataRecommendations.
    apply in_app_iff. left. apply in_flat_map.
    exists (col, p). split; [exact Hp|].
    cbn [fst snd]. unfold flagged in F. rewrite F. left. reflexivity.
  - rewrite (pattern_of_entry host data r col p H Hp), Ht.
    unfold array_sized in Hsize.
    set (rows := rows_of data) in *.
    assert (Hpos : (0 < length rows)%nat)
      by (destruct rows; [congruence | cbn [length]; lia]).
    pose proof (nullCount_le host rows col) as Ln.
    destruct (pattern_tenths host _ _ Ln Hpos Hsize) as (n & En & Bn & Dn).
    cbn [columnPattern nullCount nullPercentage] in *.
    rewrite En, (tenths_flagged n Bn).
    destruct (tenths_share _ _ n Hpos Dn) as [S1 S2].
    split.
    + intros F. apply Z.ltb_lt in F. apply S1, F.
    + intros C. apply Z.ltb_lt. apply S2, C.
Qed.

Lemma missing_values_threshold_witness :
  exists r p,
    analyzeDataStructure ExampleHost.host (Array zeros) = Returned (Some r)
    /\ In ("Reopened", p) (columnPatterns r)
    /\ flagged (nullPercentage p) = true.
Proof.
  eexists. eexists. split; [vm_compute; reflexivity|].
  split; [right; left; reflexivity|].
  match goal with
  | |- flagged (nullPercentage ?p) = true =>
      apply (proj2 (proj2 (missing_values_threshold ExampleHost.host
                             (Array zeros) _ "Reopened" p
                             ltac:(vm_compute; reflexivity) eq_refl
                             (or_intror (or_introl eq_refl)))))
  end.
  vm_compute. discriminate.
Defined.

Import Double DoubleFacts PercentFacts Obj ObjFacts KeyFacts Spec.
Import ExactFacts TypeFacts Num ProfileFacts DataQuality QualityFacts.
(** [DataUtils.inferDataType]: no value gives "unknown"; two values of
    different [typeof] give "mixed"; values that all have the same type
    give that type, except that strings give "date" when the dates among
    the first ten of them are more than 70% of these (7 times the samples
    below 10 times the dates). *)
Theorem inferDataType_cases (isoValid : string -> bool) (values : list jsval) :
  (values = [] <-> inferDataType isoValid values = "unknown")
  /\ (forall v w, In v values -> In w values -> typeof v <> typeof w ->
      inferDataType isoValid values = "mixed")
  /\ (forall t, values <> [] ->
      (forall v, In v values -> typeof v = t) ->
      inferDataType isoValid values
      = if String.eqb t "string"
           && (7 * Z.of_nat (length (firstn 10 values))
               <? 10 * Z.of_nat (length (filter (is_date isoValid)
                                           (firstn 10 values))))
        then "date" else t).
Proof.
  split; [|split].
  - split; [intros ->; reflexivity|].
    destruct values as [|v values]; [reflexivity|].
    unfold inferDataType.
    destruct (distinct (map typeof (v :: values))) as [|t [|t' ts]] eqn:D;
      try discriminate.
    assert (Ht : t = typeof v).
    { cbn [map distinct] in D. injection D as D _. congruence. }
    subst t.
    destruct (String.eqb (typeof v) "string"); [|destruct v as [| |b|n|s|[|] r];
      discriminate].
    destruct (gtb _ _); [discriminate|].
    destruct v as [| |b|n|s|[|] r]; discriminate.
  - intros v w Hv Hw N.
    destruct values as [|v0 values]; [destruct Hv|].
    unfold inferDataType.
    destruct (distinct (map typeof (v0 :: values))) as [|t [|t' ts]] eqn:D;
      try reflexivity.
    exfalso. apply N.
    assert (A : forall u, In u (map typeof (v0 :: values)) -> u = t).
    { intros u Hu. apply distinct_In in Hu. rewrite D in Hu.
      destruct Hu as [<-|[]]. reflexivity. }
    rewrite (A (typeof v)), (A (typeof w)) by (apply in_map; assumption).
    reflexivity.
  - intros t Hne Hall.
    destruct values as [|v0 values]; [congruence|].
    unfold inferDataType.
    assert (D : distinct (map typeof (v0 :: values)) = [t]).
    { apply distinct_uniform; [discriminate|].
      intros u Hu. apply in_map_iff in Hu. destruct Hu as (v & <- & Hv).
      apply Hall, Hv. }
    rewrite D.
    destruct (String.eqb t "string"); cbn [andb]; [|reflexivity].
    rewrite date_threshold; [reflexivity | |].
    + rewrite length_firstn. lia.
    + pose proof (filter_length_le (is_date isoValid)
                    (firstn 10 (v0 :: values))).
      rewrite length_firstn in H. lia.
Qed.

(** The grade of [DataUtils.analyzeDataQuality], for an array of fewer
    than 2^32 records: "poor" for fewer than 10 rows and "warning" for
    fewer than 100, whatever the columns hold; from 100 rows on, "warning"
    exactly when in some column more than half of the cells are null or
    undefined, and "good" otherwise.  Without data the grade is "poor". *)
Theorem data_quality_grade (isoValid : string -> bool) (data : argument)
    (r : quality_analysis) :
  array_sized data ->
  analyzeDataQuality isoValid data = Returned r ->
  (rows_of data = [] ->
   quality r = "poor" /\ suggestions r = ["No data to analyze"])
  /\ (rows_of data <> [] ->
      ((length (rows_of data) < 10)%nat -> quality r = "poor")
      /\ ((10 <= length (rows_of data) < 100)%nat -> quality r = "warning")
      /\ ((100 <= length (rows_of data))%nat ->
          (quality r = "warning"
           <-> exists col,
                 In col (DataUtils.declared_columns data)
                 /\ Z.of_nat (length (rows_of data))
                    < 2 * Z.of_nat
                          (nullCount
                             (analyzeColumn isoValid (rows_of data) col)))
          /\ (quality r = "warning" \/ quality r = "good"))).
Proof.
  intros Hsize H. unfold array_sized in Hsize.
  destruct data as [v|[|first rest]]; cbn [rows_of] in *.
  - cbn [analyzeDataQuality] in H.
    destruct (truthy v); [destruct v; discriminate|].
    injection H as <-. split; [intros _; split; reflexivity | congruence].
  - injection H as <-. split; [intros _; split; reflexivity | congruence].
  - split; [discriminate|]. intros _.
    unfold DataUtils.declared_columns. cbn [rows_of].
    destruct (analyze_nonempty isoValid first rest) as (r' & E & _ & _ & Q).
    cbv zeta in E, Q. rewrite E in H. injection H as <-.
    set (rows := first :: rest) in *.
    assert (Q' : quality r'
                 = if (length rows <? 10)%nat then "poor"
                   else if (length rows <? 100)%nat then "warning"
                   else if existsb
                             (fun col => mostly_null rows
                                           (analyzeColumn isoValid rows col))
                             (keys first)
                        then "warning" else "good").
    { rewrite Q. destruct (length rows <? 10)%nat; [reflexivity|].
      destruct (length rows <? 100)%nat; [reflexivity|].
      exact (fold_quality isoValid rows (keys first) [] [] "good"). }
    clear Q. rename Q' into Q.
    assert (M : forall col,
              mostly_null rows (analyzeColumn isoValid rows col) = true
              <-> Z.of_nat (length rows)
                  < 2 * Z.of_nat
                          (nullCount (analyzeColumn isoValid rows col))).
    { intros col. unfold mostly_null. apply above_half; [|lia].
      cbn [analyzeColumn nullCount]. lia. }
    rewrite Q.
    destruct (Nat.ltb_spec (length rows) 10) as [L10|L10].
    { repeat split; try lia. }
    destruct (Nat.ltb_spec (length rows) 100) as [L100|L100].
    { repeat split; try lia. }
    split; [lia|]. split; [lia|]. intros _.
    destruct (existsb _ (keys first)) eqn:Ex.
    + split; [|left; reflexivity].
      split; [intros _|reflexivity].
      apply existsb_exists in Ex. destruct Ex as (col & Hin & Hm).
      exists col. split; [exact Hin | apply M, Hm].
    + split; [|right; reflexivity].
      split; [discriminate|].
      intros (col & Hin & Hc). apply M in Hc.
      assert (C : existsb
                    (fun col => mostly_null rows
                                  (analyzeColumn isoValid rows col))
                    (keys first) = true)
        by (apply existsb_exists; exists col; split; assumption).
      congruence.
Qed.

Lemma data_quality_grade_witness :
  exists r,
    analyzeDataQuality iso_shaped scenario3 = Returned r
    /\ quality r = "poor".
Proof.
  eexists. split; [vm_compute; reflexivity|].
  match goal with
  | |- quality ?r = _ =>
      apply (proj1 (proj2 (data_quality_grade iso_shaped scenario3 r
                             ltac:(vm_compute; reflexivity) eq_refl)
                      ltac:(discriminate)))
  end.
  vm_compute. lia.
Defined.

(** A column of [DataUtils.analyzeDataQuality] without a single value
    (every cell null or undefined): its [uniquePercentage] is NaN (0
    divided by 0), its [nullPercentage] is 100, its type is "unknown" and
    its samples are empty; the column is reported with the "more than 50%
    missing values" suggestion. *)
Theorem data_quality_empty_column (isoValid : string -> bool)
    (data : argument) (r : quality_analysis) (col : string) :
  array_sized data ->
  analyzeDataQuality isoValid data = Returned r ->
  In col (DataUtils.declared_columns data) ->
  col <> "__proto__" ->
  (forall row, In row (rows_of data) -> is_value (get row col) = false) ->
  exists o c,
    columnAnalysis r = Some o
    /\ In (col, c) o
    /\ nullCount c = length (rows_of data)
    /\ uniqueCount c = 0%nat
    /\ uniquePercentage c = NaN
    /\ (exists q, nullPercentage c = Finite q /\ (q == 100)%Q)
    /\ dataType c = "unknown"
    /\ sampleValues c = []
    /\ In (more_than_half_message col) (suggestions r).
Proof.
  intros Hsize H Hcol Hproto Hall. unfold array_sized in Hsize.
  apply String.eqb_neq in Hproto.
  unfold DataUtils.declared_columns in Hcol.
  destruct data as [v|[|first rest]]; cbn [rows_of] in *;
    try (destruct Hcol).
  destruct (analyze_nonempty isoValid first rest) as (r' & E & EO & ES & _).
  cbv zeta in E, EO, ES. rewrite E in H. injection H as <-.
  set (rows := first :: rest) in *.
  assert (EO' : columnAnalysis r'
                = Some (fold_left
                          (fun o c => set c (analyzeColumn isoValid rows c) o)
                          (keys first) [])).
  { rewrite EO. f_equal.
    exact (fold_columnAnalysis isoValid rows (keys first) [] [] "good"). }
  clear EO. rename EO' into EO.
  assert (V : valued col rows = []) by (apply valued_none, Hall).
  assert (Hpos : 0 < Z.of_nat (length rows))
    by (unfold rows; cbn [length]; lia).
  assert (Hn : nullCount (analyzeColumn isoValid rows col) = length rows).
  { cbn [analyzeColumn nullCount]. rewrite V. cbn [map length]. lia. }
  assert (Hm : mostly_null rows (analyzeColumn isoValid rows col) = true).
  { unfold mostly_null. apply above_half; rewrite ?Hn; lia. }
  eexists. exists (analyzeColumn isoValid rows col).
  split; [exact EO|].
  split.
  { apply (filled_In (fun c => analyzeColumn isoValid rows c));
      [exact Hproto | left; exact Hcol]. }
  split; [exact Hn|].
  cbn [analyzeColumn nullCount uniqueCount uniquePercentage nullPercentage
       dataType sampleValues].
  rewrite V. cbn [map length distinct_cells inferDataType firstn].
  split; [reflexivity|]. split; [reflexivity|].
  split; [rewrite Nat.sub_0_r; apply ratio_all; lia|].
  split; [reflexivity|]. split; [reflexivity|].
  apply ES. apply fold_flags; assumption.
Qed.

Lemma data_quality_empty_column_witness :
  exists r o c,
    analyzeDataQuality iso_shaped (Array null_column) = Returned r
    /\ columnAnalysis r = Some o
    /\ In ("Notes", c) o
    /\ uniquePercentage c = NaN.
Proof.
  eexists.
  destruct (data_quality_empty_column iso_shaped (Array null_column) _
              "Notes" ltac:(vm_compute; reflexivity) eq_refl)
    as (o & c & Eo & Ic & _ & _ & Eu & _).
  - right. left. reflexivity.
  - discriminate.
  - intros row [<-|[<-|[]]]; reflexivity.
  - exists o, c. split; [reflexivity|]. split; [exact Eo|].
    split; [exact Ic | exact Eu].
Defined.

Import Server CleaningFacts Report ReportFacts ErrorUtils.
(** The two declarations of [analyzeDataStructure] agree on when they
    return, throw or give [null]; on a non-empty array they give the same
    row count, columns and column types, the earlier sample is the first
    five rows, and each flag of the earlier declaration implies the flag
    of the later one, which knows more keywords. *)
Theorem inspectors_agree (data : argument) :
  match LegacyStructure.analyzeDataStructure data,
        Server.analyzeDataStructure data with
  | Thrown e, Thrown e' => e = e'
  | Returned None, Returned None => True
  | Returned (Some d), Returned (Some d') =>
      LegacyStructure.totalRows d = totalRows d'
      /\ LegacyStructure.columns d = columns d'
      /\ LegacyStructure.columnTypes d = columnTypes d'
      /\ LegacyStructure.sample d = firstn 5 (rows_of data)
      /\ (LegacyStructure.hasDateColumns d = true ->
          hasDateColumns d' = true)
      /\ (LegacyStructure.hasStatusColumns d = true ->
          hasStatusColumns d' = true)
      /\ (LegacyStructure.hasUserColumns d = true ->
          hasUserColumns d' = true)
  | _, _ => False
  end.
Proof.
  destruct data as [v|[|first rest]];
    cbn [LegacyStructure.analyzeDataStructure Server.analyzeDataStructure].
  - destruct (truthy v); [destruct v; reflexivity | exact I].
  - exact I.
  - cbn [LegacyStructure.totalRows LegacyStructure.columns
         LegacyStructure.columnTypes LegacyStructure.sample
         LegacyStructure.hasDateColumns LegacyStructure.hasStatusColumns
         LegacyStructure.hasUserColumns totalRows columns columnTypes
         hasDateColumns hasStatusColumns hasUserColumns rows_of].
    split; [reflexivity|]. split; [reflexivity|]. split; [reflexivity|].
    split; [reflexivity|].
    rewrite <- !existsb_filter.
    repeat split; apply existsb_more; intros col; apply mentions_more;
      intros k Hk; cbn [In] in *; tauto.
Qed.

(** [generateHTMLReport] recovers the JSON from a fenced answer: for
    every text [body], the answer that wraps it in a [```json] block, or in
    a plain [```] block, yields exactly [body]; an answer that does not
    start with a fence is only trimmed. *)
Theorem fenced_answer_round_trip (body : string) :
  jsonContent (fenced "json" body) = body
  /\ jsonContent (fenced "" body) = body
  /\ forall answer,
       String.prefix fence (Str.trim answer) = false ->
       jsonContent answer = Str.trim answer.
Proof.
  split; [|split].
  - unfold jsonContent. rewrite trim_fenced.
    change (String.prefix "```json" (fenced "json" body)) with true.
    cbv iota.
    assert (E : strip_open 7 (fenced "json" body)
                = body ++ newline ++ fence).
    { unfold strip_open, fenced, fence, newline.
      cbn [append String.length String.substring Nat.sub].
      rewrite substring_all. cbn. reflexivity. }
    rewrite E. apply strip_close_fenced.
  - unfold jsonContent. rewrite trim_fenced.
    change (String.prefix "```json" (fenced "" body)) with false.
    change (String.prefix fence (fenced "" body)) with true.
    cbv iota.
    assert (E : strip_open 3 (fenced "" body) = body ++ newline ++ fence).
    { unfold strip_open, fenced, fence, newline.
      cbn [append String.length String.substring Nat.sub].
      rewrite substring_all. cbn. reflexivity. }
    rewrite E. apply strip_close_fenced.
  - intros answer H. unfold jsonContent.
    replace (String.prefix "```json" (Str.trim answer)) with false.
    + rewrite H. reflexivity.
    + symmetry. apply not_true_is_false. intros C.
      apply (prefix_append fence "json") in C. congruence.
Qed.

(** [ErrorUtils.handleUploadError] with the errors of the upload: a file
    the filter rejects (neither the MIME type [text/csv] nor a name that
    ends in [.csv]; the comparison is case-sensitive) is answered with 400
    INVALID_FILE_TYPE; a size limit is answered with 413 whatever the
    message; and the handler itself throws for an error that has neither
    a limit code nor a message. *)
Theorem upload_errors (now : string) :
  (forall mimetype originalname m,
     fileFilter mimetype originalname = Some m ->
     exists r,
       handleUploadError now (Error m) = Some (Returned r)
       /\ status r = 400 /\ code r = "INVALID_FILE_TYPE" /\ error r = true)
  /\ (forall mimetype originalname,
        fileFilter mimetype originalname = None
        <-> mimetype = "text/csv" \/ endsWith originalname ".csv" = true)
  /\ fileFilter "application/vnd.ms-excel" "TICKETS.CSV"
     = Some "Only CSV files are allowed"
  /\ (forall e,
        error_code e = VStr "LIMIT_FILE_SIZE" ->
        exists r, handleUploadError now e = Some (Returned r)
                  /\ status r = 413)
  /\ (forall e,
        error_code e = VUndefined -> error_message e = VUndefined ->
        handleUploadError now e = Some (Thrown "error.message.includes")).
Proof.
  split; [|split; [|split; [|split]]].
  - intros mimetype originalname m H. unfold fileFilter in H.
    destruct (_ || _); [discriminate|]. injection H as <-.
    eexists. split; [reflexivity|]. repeat split.
  - intros mimetype originalname. unfold fileFilter.
    destruct (String.eqb_spec mimetype "text/csv") as [E|N]; cbn [orb].
    + split; [left; exact E | reflexivity].
    + destruct (endsWith originalname ".csv").
      * split; [right; reflexivity | reflexivity].
      * split; [discriminate|]. intros [C|C]; [congruence | discriminate].
  - reflexivity.
  - intros e H. unfold handleUploadError. rewrite H.
    eexists. split; reflexivity.
  - intros e Hc Hm. unfold handleUploadError. rewrite Hc, Hm. reflexivity.
Qed.

(* ===================================================================== *)
(** * Examples *)
(* ===================================================================== *)

(** An empty array and a missing argument give [null]. *)
Theorem analyzer_null_on_no_data (host : Host) :
  analyzeSLAPerformance host (Array []) = Returned None
  /\ analyzeSLAPerformance host (NotAnArray VNull) = Returned None
  /\ analyzeSLAPerformance host (NotAnArray VUndefined) = Returned None.
Proof. repeat split; reflexivity. Qed.

(** The earlier copy gets through the ticket with a numeric date. *)
Theorem legacy_accepts_numeric_date (host : Host) :
  exists an,
    Legacy.analyzeSLAPerformance host numeric_date = Returned (Some an)
    /\ Legacy.total (Legacy.firstResponseSLA an) = 1.
Proof. eexists. split; [reflexivity|]. vm_compute. reflexivity. Qed.

(** Scenario 1 of the specification. *)
Example scenario1_first_response :
  exists an,
    analyzeSLAPerformance ExampleHost.host scenario1 = Returned (Some an)
    /\ firstResponseSLA an
       = {| violations := 1; compliance := 1; total := 2;
            compliancePercentage := "50.0"; violationPercentage := "50.0" |}.
Proof. eexists. split; vm_compute; reflexivity. Qed.

(** Scenario 3: the all-empty row is dropped with one warning that names
    its 1-based index. *)
Example scenario3_dropped_row :
  DataUtils.data (DataUtils.cleanData ExampleHost.host scenario3)
  = [ [("Agent", VStr "A"); ("Status", VStr "open")] ]
  /\ DataUtils.warnings (DataUtils.cleanData ExampleHost.host scenario3)
     = [ "Row 1 contains no valid data";
         "More than 20% of rows were filtered out due to data quality issues" ].
Proof. split; vm_compute; reflexivity. Qed.

(** Scenario 4: a column named "Agent Name" is a user column, yet the
    analyzer, which looks for "Agent", files the ticket under "Unknown". *)
Example scenario4_agent_name :
  (exists d,
      analyzeDataStructure scenario4 = Returned (Some d)
      /\ hasUserColumns d = true)
  /\ (exists an,
        analyzeSLAPerformance ExampleHost.host scenario4 = Returned (Some an)
        /\ map fst (agents an) = ["Unknown"]).
Proof.
  split; eexists; split; vm_compute; reflexivity.
Qed.

Example double_one_tenth :
  Double.round (1 # 10) = Finite (3602879701896397 # 36028797018963968).
Proof. reflexivity. Qed.

Example double_one_third_times_100 :
  Double.mul (Double.div (Double.of_Z 1) (Double.of_Z 3)) num_100
  = Finite (2345624805922133 # 70368744177664).
Proof. vm_compute. reflexivity. Qed.

Example double_overflow :
  Double.round (inject_Z (2 ^ 1024)) = Infinity false.
Proof. vm_compute. reflexivity. Qed.

Example double_largest :
  Double.round (inject_Z (2 ^ 1024 - 2 ^ 970 - 1))
  = Finite (inject_Z (2 ^ 1024 - 2 ^ 971)).
Proof. vm_compute. reflexivity. Qed.

Example double_smallest_subnormal :
  Double.round (3 # Z.to_pos (2 ^ 1076)) = Finite (1 # Z.to_pos (2 ^ 1074)).
Proof. vm_compute. reflexivity. Qed.

Example toFixed1_tie :
  toFixed1 ExampleHost.host (Finite (25 # 4)) = "6.3"
  /\ toFixed1 ExampleHost.host (Double.round (105 # 100)) = "1.1"
  /\ toFixed1 ExampleHost.host (Double.round (-4 # 100)) = "-0.0".
Proof. repeat split; vm_compute; reflexivity. Qed.

Example parseFloat_samples :
  parseFloat "4.5" = Finite (9 # 2)
  /\ parseFloat "  -12.50abc" = Finite (- 25 # 2)
  /\ parseFloat ".5e1x" = Finite 5
  /\ parseFloat "abc" = NaN
  /\ parseFloat "-Infinity" = Infinity true.
Proof. repeat split; reflexivity. Qed.

Example object_key_order :
  Obj.keys (Obj.set "2" 0 (Obj.set "b" 0 (Obj.set "10" 0 (Obj.set "a" 0 []))))
  = ["2"; "10"; "a"; "b"].
Proof. reflexivity. Qed.

Example example_host_weekdays :
  map ExampleHost.getDay
    ["2024-01-15"; "2024-03-04"; "2000-02-29"; "1999-12-31";
     "2026-11-02T10:00:00.000Z"; "2023-02-29"; "soon"]
  = [Finite 1; Finite 1; Finite 2; Finite 5; Finite 1; NaN; NaN].
Proof. vm_compute. reflexivity. Qed.

Example example_host_moment :
  map ExampleHost.moment
    ["2024-01-15"; "01/02/2024"; "25/12/2024"; "2024-02-30";
     "2024-01-15 10:00:00"; "true"]
  = [Some "2024-01-15T00:00:00.000Z"; Some "2024-01-02T00:00:00.000Z";
     Some "2024-12-25T00:00:00.000Z"; None;
     Some "2024-01-15T10:00:00.000Z"; None].
Proof. vm_compute. reflexivity. Qed.
